(** * certdx client: watch loop, polling cycle, stream client and failover loops

    A shallow embedding of [pkg/client/client.go] and [pkg/client/sds.go],
    and of the command line of [exec/client/main.go].
    Each goroutine body is embedded as a function of the values it reads from
    its environment (channel receptions, clock readings, results of network
    calls), returning the values it leaves behind together with the list of
    externally visible actions it performed, in program order. *)

From Stdlib Require Import ZArith List Bool Lia String.
From Stdlib Require Import Strings.Byte.
From stdpp Require Import base option list gmap strings.
Import ListNotations.

Local Open Scope string_scope.
Local Open Scope Z_scope.
Local Open Scope list_scope.

(** ** Byte slices *)

(** A Go [[]byte]; a nil slice and an empty slice are both the empty list,
    which is also how [bytes.Equal] treats them. *)
Definition bytes : Type := list byte.

(** [bytes.Equal]: same length and the same bytes. *)
Fixpoint bytes_Equal (a b : bytes) : bool :=
  match a, b with
  | [], [] => true
  | x :: a', y :: b' => Byte.eqb x y && bytes_Equal a' b'
  | _, _ => false
  end.

(** ** Configuration records *)

(** Modelled from the spec: [config.ClientCertification] is declared in
    [pkg/config], outside the files at hand.  The spec's CertificateSpec has a
    name, a domain set, a save path and an optional post-update command; the
    code reads [Name] and [Domains]. *)
Record ClientCertification := {
  Name : string;
  CDomains : list string;
  SavePath : string;
  ReloadCommand : string
}.

(** ** The per-certificate watch loop ([watchingCert.watch]) *)

Module Watch.

Record certData := {
  Domains : list string;
  Fullchain : bytes;
  Key : bytes
}.

(** Actions of the watch loop, in the order the code performs them. *)
Inductive event :=
| LogNotice (domains : list string)      (* "Notify cert %v changed" *)
| LogInfo (domains : list string)        (* "Cert %v not changed" *)
| StoreFullchain (b : bytes)             (* c.Data.Fullchain = ... *)
| StoreKey (b : bytes)                   (* c.Data.Key = ... *)
| CallHandler (i : nat) (fullchain key : bytes).

(** What one [select] of the loop delivers. *)
Inductive select_case :=
| CaseStop
| CaseUpdate (newCert : certData).

Section WithWorld.

(** Everything a handler can touch besides the certificate's configuration:
    the file system, the processes it starts. *)
Variable World : Type.

(** [certUpdateHandler]: called with the chain, the key and a pointer to the
    certificate's configuration, which it may therefore rewrite. *)
Definition certUpdateHandler : Type :=
  bytes -> bytes -> ClientCertification -> World -> ClientCertification * World.

(** [UpdateChan] and [Stop] are the channels the loop selects on; what they
    deliver is the loop's input ([select_case]). *)
Record watchingCert := {
  Data : certData;
  Config : ClientCertification;
  UpdateHandlers : list certUpdateHandler
}.

Definition set_Fullchain (c : watchingCert) (b : bytes) : watchingCert :=
  {| Data := {| Domains := Domains (Data c); Fullchain := b; Key := Key (Data c) |};
     Config := Config c; UpdateHandlers := UpdateHandlers c |}.

Definition set_Key (c : watchingCert) (b : bytes) : watchingCert :=
  {| Data := {| Domains := Domains (Data c); Fullchain := Fullchain (Data c); Key := b |};
     Config := Config c; UpdateHandlers := UpdateHandlers c |}.

Definition set_Config (c : watchingCert) (cfg : ClientCertification) : watchingCert :=
  {| Data := Data c; Config := cfg; UpdateHandlers := UpdateHandlers c |}.

(** [for _, handleFunc := range c.UpdateHandlers { handleFunc(c.Data.Fullchain,
    c.Data.Key, &c.Config) }]: the slice is evaluated once, the arguments are
    read from the held material at each call; [i] is the index of the head of
    [hs] in the slice. *)
Fixpoint range_handlers (hs : list certUpdateHandler) (i : nat)
    (c : watchingCert) (w : World) : watchingCert * World * list event :=
  match hs with
  | [] => (c, w, [])
  | handleFunc :: hs' =>
      let fc := Fullchain (Data c) in
      let k := Key (Data c) in
      let '(cfg', w') := handleFunc fc k (Config c) w in
      let '(c'', w'', tr) := range_handlers hs' (S i) (set_Config c cfg') w' in
      (c'', w'', CallHandler i fc k :: tr)
  end.

(** The [case newCert := <-c.UpdateChan] branch of [watch]. *)
Definition watch_update (c : watchingCert) (newCert : certData) (w : World)
    : watchingCert * World * list event :=
  if negb (bytes_Equal (Fullchain (Data c)) (Fullchain newCert))
     || negb (bytes_Equal (Key (Data c)) (Key newCert))
  then
    let c1 := set_Fullchain c (Fullchain newCert) in
    let c2 := set_Key c1 (Key newCert) in
    let '(c3, w3, tr) := range_handlers (UpdateHandlers c2) 0 c2 w in
    (c3, w3,
     LogNotice (Domains newCert) :: StoreFullchain (Fullchain newCert)
       :: StoreKey (Key newCert) :: tr)
  else (c, w, [LogInfo (Domains newCert)]).

(** [watch]: the loop runs one [select] per element of [inputs]; it returns
    at the first [CaseStop] ([true]) and is left waiting when the inputs are
    used up ([false]). *)
Fixpoint watch (inputs : list select_case) (c : watchingCert) (w : World)
    : watchingCert * World * list event * bool :=
  match inputs with
  | [] => (c, w, [], false)
  | CaseStop :: _ => (c, w, [], true)
  | CaseUpdate newCert :: rest =>
      let '(c1, w1, tr1) := watch_update c newCert w in
      let '(c2, w2, tr2, stopped) := watch rest c1 w1 in
      (c2, w2, tr1 ++ tr2, stopped)
  end.

(** The handler calls of a trace. *)
Definition handler_calls (tr : list event) : list (nat * bytes * bytes) :=
  omap (fun e => match e with
                 | CallHandler i fc k => Some (i, fc, k)
                 | _ => None
                 end) tr.

(** "Only after all handlers have run is the held material replaced": every
    store into the held material comes later in the trace than every handler
    call. *)
Definition is_store (e : event) : bool :=
  match e with StoreFullchain _ | StoreKey _ => true | _ => false end.

Definition is_call (e : event) : bool :=
  match e with CallHandler _ _ _ => true | _ => false end.

Definition stores_follow_calls (tr : list event) : Prop :=
  forall i j ei ej,
    tr !! i = Some ei -> tr !! j = Some ej ->
    is_store ei = true -> is_call ej = true -> (j < i)%nat.

(** The state handlers act on, threaded through the registered handlers in
    registration order, each applied once to the material [fc], [k]. *)
Definition apply_in_order (hs : list certUpdateHandler) (fc k : bytes)
    (s : ClientCertification * World) : ClientCertification * World :=
  fold_left (fun s h => h fc k (fst s) (snd s)) hs s.

End WithWorld.

Arguments Data {World} _.
Arguments Config {World} _.
Arguments UpdateHandlers {World} _.
Arguments set_Fullchain {World} _ _.
Arguments set_Key {World} _ _.
Arguments set_Config {World} _ _.
Arguments range_handlers {World} _ _ _ _.
Arguments watch_update {World} _ _ _.
Arguments watch {World} _ _ _.
Arguments apply_in_order {World} _ _ _ _.

End Watch.

(** ** Client configuration *)

(** Modelled from the spec: the structs of [pkg/config] are outside the files
    at hand.  Only the fields the two files read are kept: the servers'
    addresses, the retry budget, the reconnect delay.  [RetryCount] is a Go
    [int] and the durations are [time.Duration]s, a number of nanoseconds. *)
Record ClientHttpServer := {
  Url : string
}.

Record ClientGRPCServer := {
  GRPCServer : string            (* the field [Server] *)
}.

Record ClientServerConfig := {
  RetryCount : Z;
  ReconnectDuration : Z
}.

Record ClientConfigT := {
  Server : ClientServerConfig;
  Http_MainServer : ClientHttpServer;
  Http_StandbyServer : ClientHttpServer;
  GRPC_MainServer : ClientGRPCServer;
  GRPC_StandbyServer : ClientGRPCServer
}.

(** [time.Duration] constants, in nanoseconds. *)
Definition Second : Z := 1000000000.
Definition Minute : Z := 60 * Second.
Definition Hour : Z := 60 * Minute.

(** A Go [error]: [None] is [nil], otherwise the message. *)
Definition error : Type := option string.

(** ** The retry helper ([utils.Retry]) *)

(** Modelled from the spec: [utils.Retry] is in [pkg/utils], outside the files
    at hand.  "Given a non-negative attempt budget N and a fallible operation,
    execute it up to N+1 times, returning on first success; if all attempts
    fail, return the last error", with no sleep between attempts.  The
    operation is a closure over mutable state [S]; [n] counts the attempts
    that may still follow the next one. *)
Fixpoint Retry_from {S : Type} (n : nat) (work : S -> error * S) (s : S) : error * S :=
  let '(err, s') := work s in
  match err with
  | None => (None, s')
  | Some e =>
      match n with
      | O => (Some e, s')
      | Datatypes.S n' => Retry_from n' work s'
      end
  end.

Definition Retry {S : Type} (retryCount : Z) (work : S -> error * S) (s : S) : error * S :=
  Retry_from (Z.to_nat retryCount) work s.

(** The state reached by [k] attempts in a row that all fail; [None] when one
    of them succeeds. *)
Fixpoint failing_run {S : Type} (work : S -> error * S) (k : nat) (s : S) : option S :=
  match k with
  | O => Some s
  | Datatypes.S k' =>
      match work s with
      | (Some _, s') => failing_run work k' s'
      | (None, _) => None
      end
  end.

(** ** Polling mode ([requestCert], [certWatchDog]) *)

Module Poll.

(** Modelled from the spec: [types.HttpCertResp] is in [pkg/types].  The
    response "includes chain, key, a renewal-lead-time duration, and an
    optional server-reported error string". *)
Record HttpCertResp := {
  FullChain : bytes;
  RKey : bytes;                  (* the field [Key] *)
  RenewTimeLeft : Z;
  Err : string
}.

(** Actions of a polling goroutine, in program order. *)
Inductive event :=
| CallGetCert (srv : ClientHttpServer) (domains : list string)
| WarnMainFailed (domains : list string) (err : string)
| WarnStandbyFailed (domains : list string) (err : string)
| InfoRequesting (domains : list string)
| ErrorResp (err : string)             (* "Failed to request cert, err: %s" *)
| ErrorRetryNextRound                  (* "Failed to request cert, retry next round." *)
| SendUpdate (newCert : Watch.certData)  (* cert.UpdateChan <- certData{...} *)
| After (d : Z).                       (* time.After(sleepTime), then the select *)

Section WithEnv.

(** The network and the servers behind it. *)
Variable Env : Type.

(** [MakeCertDXHttpClient(... WithCertDXServerInfo(&srv) ...).GetCert(domains)]:
    one request to [srv]; it returns a response pointer and an error. *)
Variable GetCert :
  ClientHttpServer -> list string -> Env -> (option HttpCertResp * error) * Env.

Record state := {
  env : Env;
  trace : list event
}.

Definition emit (e : event) (st : state) : state :=
  {| env := env st; trace := trace st ++ [e] |}.

(** The closure handed to [utils.Retry]; it assigns the captured [resp]. *)
Definition attempt (srv : ClientHttpServer) (domains : list string)
    (s : option HttpCertResp * state) : error * (option HttpCertResp * state) :=
  let st := emit (CallGetCert srv domains) (snd s) in
  let '((resp, err), env') := GetCert srv domains (env st) in
  (err, (resp, {| env := env'; trace := trace st |})).

Definition requestCert (cfg : ClientConfigT) (domains : list string) (st : state)
    : option HttpCertResp * state :=
  let '(err, (resp, st1)) :=
    Retry (RetryCount (Server cfg)) (attempt (Http_MainServer cfg) domains) (None, st) in
  match err with
  | None => (resp, st1)
  | Some e =>
      let st2 := emit (WarnMainFailed domains e) st1 in
      if negb (String.eqb (Url (Http_StandbyServer cfg)) "") then
        let '(err', (resp', st3)) :=
          Retry (RetryCount (Server cfg)) (attempt (Http_StandbyServer cfg) domains)
                (resp, st2) in
        match err' with
        | None => (resp', st3)
        | Some e' => (None, emit (WarnStandbyFailed domains e') st3)
        end
      else (None, st2)
  end.

(** One turn of the loop of [certWatchDog], up to and including the creation
    of the timer; it returns the new value of [sleepTime].  [/] on a
    [time.Duration] truncates towards zero. *)
Definition certWatchDog_cycle (cfg : ClientConfigT) (domains : list string)
    (sleepTime : Z) (st : state) : Z * state :=
  let st0 := emit (InfoRequesting domains) st in
  let '(resp, st1) := requestCert cfg domains st0 in
  let '(sleepTime', st2) :=
    match resp with
    | Some r =>
        if negb (String.eqb (Err r) "") then (sleepTime, emit (ErrorResp (Err r)) st1)
        else (Z.quot (RenewTimeLeft r) 4,
              emit (SendUpdate {| Watch.Domains := domains;
                                  Watch.Fullchain := FullChain r;
                                  Watch.Key := RKey r |}) st1)
    | None => (sleepTime, emit ErrorRetryNextRound st1)
    end in
  (sleepTime', emit (After sleepTime') st2).

(** The loop: [wakes] tells, for each turn, whether its final [select] was
    woken by the timer ([true]) or by the stop signal ([false]). *)
Fixpoint certWatchDog_loop (cfg : ClientConfigT) (domains : list string)
    (wakes : list bool) (sleepTime : Z) (st : state) : Z * state :=
  match wakes with
  | [] => (sleepTime, st)
  | timer :: rest =>
      let '(sleepTime', st') := certWatchDog_cycle cfg domains sleepTime st in
      if timer then certWatchDog_loop cfg domains rest sleepTime' st'
      else (sleepTime', st')
  end.

Definition certWatchDog (cfg : ClientConfigT) (domains : list string)
    (wakes : list bool) (st : state) : Z * state :=
  certWatchDog_loop cfg domains wakes (1 * Hour) st.

End WithEnv.

Arguments env {Env} _.
Arguments trace {Env} _.
Arguments emit {Env} _ _.
Arguments attempt {Env} _ _ _ _.
Arguments requestCert {Env} _ _ _ _.
Arguments certWatchDog_cycle {Env} _ _ _ _ _.
Arguments certWatchDog_loop {Env} _ _ _ _ _ _.
Arguments certWatchDog {Env} _ _ _ _ _.

(** "A cycle in which main and standby are both exhausted is retried after
    [d]": in the trace, the timer that follows a "retry next round" line is
    set to [d]. *)
Definition failed_cycles_wait (d : Z) (tr : list event) : Prop :=
  forall i, tr !! i = Some ErrorRetryNextRound -> tr !! (Datatypes.S i) = Some (After d).

(** A scripted network: the results of the successive calls, whatever the
    server; a call beyond the script fails. *)
Definition scripted_GetCert (srv : ClientHttpServer) (domains : list string)
    (script : list (option HttpCertResp * error))
    : (option HttpCertResp * error) * list (option HttpCertResp * error) :=
  match script with
  | [] => ((None, Some "connection refused"), [])
  | r :: rest => (r, rest)
  end.

End Poll.

(** ** The streaming discovery client ([CertDXgRPCClient]) *)

(** What a goroutine can end in: it returns, or it panics and takes the
    process down. *)
Inductive outcome (A : Type) :=
| Returned (a : A)
| Panicked.

Arguments Returned {A} _.
Arguments Panicked {A}.

Module Sds.

Definition typeUrl : string :=
  "type.googleapis.com/envoy.extensions.transport_sockets.tls.v3.Secret".
Definition domainKey : string := "domains".

(** The error value [Stream] returns: the sentinel [*killed] or any other
    error; [None] is [nil]. *)
Inductive stream_error :=
| killed (Err : string)
| other_error (msg : string).

(** [core.DataSource] and its nil-safe getter [GetInlineBytes]. *)
Inductive DataSource :=
| DataSource_nil
| DataSource_InlineBytes (b : bytes)
| DataSource_Filename (path : string)
| DataSource_InlineString (s : string)
| DataSource_EnvironmentVariable (v : string).

Definition GetInlineBytes (d : DataSource) : bytes :=
  match d with
  | DataSource_InlineBytes b => b
  | _ => []
  end.

Record TlsCertificate := {
  CertificateChain : DataSource;
  PrivateKey : DataSource
}.

(** The one-of [Secret.Type]; only the certificate case is looked into. *)
Inductive Secret_Type :=
| Secret_TlsCertificate (c : TlsCertificate)
| Secret_SessionTicketKeys
| Secret_ValidationContext
| Secret_GenericSecret
| Secret_Type_nil.

Record Secret := {
  SecretName : string;           (* the field [Name] *)
  SecretType : Secret_Type       (* the field [Type] *)
}.

Record respData := {
  Version : string;
  RSecret : Secret               (* the field [Secret] *)
}.

(** [discovery.DiscoveryRequest]: the fields the client sets.  The node
    metadata of the first request maps, under [domainKey], each certificate
    name to its domains. *)
Record DiscoveryRequest := {
  TypeUrl : string;
  VersionInfo : string;
  ResourceNames : list string;
  NodeMetadata : option (gmap string (list string))
}.

(** Actions of the goroutines of one stream, in program order.  Channels made
    by [make] are named by numbers: the channel of the [i]-th certificate is
    [i], the last-received channels are numbered in the order they are made. *)
Inductive event :=
| StoreRunning (b : bool)
| NewClient (server : string)
| ConnClose
| StreamSecrets
| GoHandleCert (i : nat) (name : string)
| SwapReceived (closed fresh : nat)    (* c.Received.Swap(&newReceived), close of the old one *)
| RespChanSend (ch : nat) (d : respData)
| ErrChanSend (msg : string)
| UpdateChanSend (i : nat) (newCert : Watch.certData)
| AckChanSend (req : DiscoveryRequest)
| StreamSend (req : DiscoveryRequest)
| LogCtxDone (who : string).

Section WithWire.

(** A packed protobuf message ([anypb.Any]) and [anypb.UnmarshalTo] into a
    [Secret]: an error message or the decoded secret. *)
Variable Any : Type.
Variable UnmarshalTo : Any -> string + Secret.

Record DiscoveryResponse := {
  RespVersionInfo : string;      (* the field [VersionInfo] *)
  Resources : list Any
}.

(** The client.  [Kill] is a channel of capacity 1, given by its buffer;
    [Received] names the current last-received channel and [ReceivedClosed]
    lists the ones closed so far; [certs] holds the configuration of each
    watched certificate, whose update channel is named by its index. *)
Record CertDXgRPCClient := {
  server : ClientGRPCServer;
  certs : list ClientCertification;
  Kill : list unit;
  Running : bool;
  Received : nat;
  ReceivedClosed : list nat
}.

Definition set_Kill (c : CertDXgRPCClient) (k : list unit) : CertDXgRPCClient :=
  {| server := server c; certs := certs c; Kill := k; Running := Running c;
     Received := Received c; ReceivedClosed := ReceivedClosed c |}.

Definition set_Running (c : CertDXgRPCClient) (b : bool) : CertDXgRPCClient :=
  {| server := server c; certs := certs c; Kill := Kill c; Running := b;
     Received := Received c; ReceivedClosed := ReceivedClosed c |}.

(** [c.Received.Swap(&newReceived)] and the [close] of the channel it returns. *)
Definition swap_Received (c : CertDXgRPCClient) : CertDXgRPCClient :=
  {| server := server c; certs := certs c; Kill := Kill c; Running := Running c;
     Received := S (Received c);
     ReceivedClosed := ReceivedClosed c ++ [Received c] |}.

Definition MakeCertDXgRPCClient (srv : ClientGRPCServer)
    (cs : list ClientCertification) : CertDXgRPCClient :=
  {| server := srv; certs := cs; Kill := []; Running := false;
     Received := 0; ReceivedClosed := [] |}.

(** [for _, cert := range c.certs { dispatch[cert.Config.Name] = make(...) }]:
    the map from names to channels, a later certificate of the same name
    replacing an earlier one; [i] is the index of the head of [cs]. *)
Fixpoint make_dispatch (cs : list ClientCertification) (i : nat)
    (dispatch : gmap string nat) : gmap string nat :=
  match cs with
  | [] => dispatch
  | cert :: rest => make_dispatch rest (S i) (<[Name cert := i]> dispatch)
  end.

Fixpoint go_handlers (cs : list ClientCertification) (i : nat) : list event :=
  match cs with
  | [] => []
  | cert :: rest => GoHandleCert i (Name cert) :: go_handlers rest (S i)
  end.

(** What the receiving goroutine meets at the top of a turn: the context is
    done, or [stream.Recv] fails, or it delivers a response. *)
Inductive recv_input :=
| RecvCtxDone
| RecvError (err : string)
| RecvResponse (resp : DiscoveryResponse).

(** How a turn of the receiving goroutine ends. *)
Inductive recv_step :=
| RecvStopped                              (* context done: return *)
| RecvReported (msg : string)              (* errChan <- ...; return *)
| RecvDispatched (ch : nat) (d : respData) (* respChan <- respData{...}; next turn *)
| RecvPanicked.                            (* index out of range *)

(** One turn of the receiving goroutine (the body of its [for]). *)
Definition receive (dispatch : gmap string nat) (c : CertDXgRPCClient)
    (input : recv_input) : recv_step * CertDXgRPCClient * list event :=
  match input with
  | RecvCtxDone => (RecvStopped, c, [LogCtxDone "receiver"])
  | RecvError err =>
      let msg := String.append "failed receiving request: " err in
      (RecvReported msg, c, [ErrChanSend msg])
  | RecvResponse resp =>
      let c' := swap_Received c in
      let swapped := SwapReceived (Received c) (Received c') in
      match Resources resp with
      | [] => (RecvPanicked, c', [swapped])
      | first :: _ =>
          match UnmarshalTo first with
          | inl err =>
              let msg := String.append "can not unmarshal message from srv: " err in
              (RecvReported msg, c', [swapped; ErrChanSend msg])
          | inr secretResp =>
              match dispatch !! SecretName secretResp with
              | None =>
                  let msg := String.append "unexcepted cert: " (SecretName secretResp) in
                  (RecvReported msg, c', [swapped; ErrChanSend msg])
              | Some respChan =>
                  let d := {| Version := RespVersionInfo resp; RSecret := secretResp |} in
                  (RecvDispatched respChan d, c', [swapped; RespChanSend respChan d])
              end
          end
      end
  end.

(** How a turn of a per-certificate handler ends. *)
Inductive handle_step :=
| HandleReported (msg : string)            (* errChan <- ...; return *)
| HandleAcked (ack : DiscoveryRequest).    (* ack <- ...; next turn *)

(** One turn of [handleCert] on a message taken from its channel; [i] names
    the update channel of [cert]. *)
Definition handleCert (i : nat) (cert : ClientCertification) (d : respData)
    : handle_step * list event :=
  match SecretType (RSecret d) with
  | Secret_TlsCertificate respCert =>
      let newCert :=
        {| Watch.Domains := CDomains cert;
           Watch.Fullchain := GetInlineBytes (CertificateChain respCert);
           Watch.Key := GetInlineBytes (PrivateKey respCert) |} in
      let ack :=
        {| TypeUrl := typeUrl; VersionInfo := Version d;
           ResourceNames := [Name cert]; NodeMetadata := None |} in
      (HandleAcked ack, [UpdateChanSend i newCert; AckChanSend ack])
  | _ =>
      let msg := "unexcepted resp type" in
      (HandleReported msg, [ErrChanSend msg])
  end.

(** The first request of the sending goroutine. *)
Fixpoint domainSets (cs : list ClientCertification) (m : gmap string (list string))
    : gmap string (list string) :=
  match cs with
  | [] => m
  | cert :: rest => domainSets rest (<[Name cert := CDomains cert]> m)
  end.

Definition packReq (cs : list ClientCertification) : DiscoveryRequest :=
  {| TypeUrl := typeUrl; VersionInfo := "";
     ResourceNames := map Name cs;
     NodeMetadata := Some (domainSets cs ∅) |}.

(** The transport as the sending goroutine meets it: [structpb.NewStruct]
    and each [stream.Send] may fail. *)
Record send_env := {
  newStructErr : error;
  sendErr : DiscoveryRequest -> error
}.

(** The sending goroutine up to its loop: [Some msg] when it reported [msg]
    on the error channel and returned. *)
Definition sender_start (se : send_env) (cs : list ClientCertification)
    : option string * list event :=
  match newStructErr se with
  | Some err =>
      let msg := String.append "failed constructing meta data struct: " err in
      (Some msg, [ErrChanSend msg])
  | None =>
      match sendErr se (packReq cs) with
      | Some err =>
          let msg := String.append "failed sending request: " err in
          (Some msg, [StreamSend (packReq cs); ErrChanSend msg])
      | None => (None, [StreamSend (packReq cs)])
      end
  end.

(** One turn of the sending goroutine on an acknowledgment taken from the
    [ack] channel. *)
Definition sender_forward (se : send_env) (a : DiscoveryRequest)
    : option string * list event :=
  match sendErr se a with
  | Some err =>
      let msg := String.append "failed sending ack: " err in
      (Some msg, [StreamSend a; ErrChanSend msg])
  | None => (None, [StreamSend a])
  end.

(** The path of one inbound item through the goroutines of the stream: the
    receiver's turn, then the turn of the handler listening on the channel
    it was dispatched to, then the sender's turn on the acknowledgment.
    [Returned None]: all three are back at the top of their loops;
    [Returned (Some msg)]: one of them put [msg] on the error channel;
    [Panicked]: the receiver panicked.  A context that is done reports
    nothing: it is [Stream]'s own [select] that sees it. *)
Definition serve_one (se : send_env) (dispatch : gmap string nat)
    (c : CertDXgRPCClient) (input : recv_input)
    : outcome (option string) * CertDXgRPCClient * list event :=
  let '(r, c', tr) := receive dispatch c input in
  match r with
  | RecvStopped => (Returned None, c', tr)
  | RecvReported msg => (Returned (Some msg), c', tr)
  | RecvPanicked => (Panicked, c', tr)
  | RecvDispatched ch d =>
      match certs c !! ch with
      | None => (Returned None, c', tr)   (* no handler listens on [ch] *)
      | Some cert =>
          let '(h, tr_h) := handleCert ch cert d in
          match h with
          | HandleReported msg => (Returned (Some msg), c', tr ++ tr_h)
          | HandleAcked ack =>
              let '(s, tr_s) := sender_forward se ack in
              (Returned s, c', tr ++ tr_h ++ tr_s)
          end
      end
  end.

(** The goroutines at work on the successive inbound items, up to the first
    report on the error channel or panic, or until the receiver finds the
    context done and returns. *)
Fixpoint serve (se : send_env) (dispatch : gmap string nat)
    (c : CertDXgRPCClient) (inbound : list recv_input)
    : outcome (option string) * CertDXgRPCClient * list event :=
  match inbound with
  | [] => (Returned None, c, [])
  | RecvCtxDone :: _ => serve_one se dispatch c RecvCtxDone
  | input :: rest =>
      let '(r, c', tr) := serve_one se dispatch c input in
      match r with
      | Returned None =>
          let '(r', c'', tr') := serve se dispatch c' rest in
          (r', c'', tr ++ tr')
      | _ => (r, c', tr)
      end
  end.

(** What ends the final [select] of [Stream] when no goroutine has reported
    an error: the stream context is done, or a kill is received. *)
Inductive interrupt :=
| CtxDone (err : string)
| KillReceived.

(** The environment of one call of [Stream]. *)
Record stream_env := {
  newClientErr : error;          (* grpc.NewClient *)
  streamSecretsErr : error;      (* client.StreamSecrets *)
  sending : send_env;
  inbound : list recv_input;     (* what the receiver meets, in order *)
  ending : interrupt
}.

(** The deferred function of [Stream]. *)
Definition deferred (c : CertDXgRPCClient) : CertDXgRPCClient * list event :=
  (set_Running c false, [ConnClose; StoreRunning false]).

Definition Stream (c : CertDXgRPCClient) (io : stream_env)
    : outcome (option stream_error) * CertDXgRPCClient * list event :=
  match Kill c with
  | _ :: pending =>
      (Returned (Some (killed "stream killed")), set_Kill c pending, [])
  | [] =>
      let c1 := set_Running c true in
      let tr1 := [StoreRunning true; NewClient (GRPCServer (server c))] in
      match newClientErr io with
      | Some err =>
          (Returned (Some (other_error (String.append "new grpc client failed: " err))),
           c1, tr1)
      | None =>
          match streamSecretsErr io with
          | Some err =>
              let '(c2, tr2) := deferred c1 in
              (Returned (Some (other_error
                                 (String.append "stream secrets failed: " err))),
               c2, tr1 ++ [StreamSecrets] ++ tr2)
          | None =>
              let dispatch := make_dispatch (certs c1) 0 ∅ in
              let tr_go := StreamSecrets :: go_handlers (certs c1) 0 in
              let '(s0, tr_s) := sender_start (sending io) (certs c1) in
              let '(r, c2, tr_r) :=
                match s0 with
                | Some msg => (Returned (Some msg), c1, [])
                | None => serve (sending io) dispatch c1 (inbound io)
                end in
              match r with
              | Panicked => (Panicked, c2, tr1 ++ tr_go ++ tr_s ++ tr_r)
              | Returned fault =>
                  let err :=
                    match fault with
                    | Some msg => other_error msg
                    | None =>
                        match ending io with
                        | CtxDone e => other_error e
                        | KillReceived => killed "stream killed"
                        end
                    end in
                  let '(c3, tr3) := deferred c2 in
                  (Returned (Some err), c3, tr1 ++ tr_go ++ tr_s ++ tr_r ++ tr3)
              end
          end
      end
  end.

(** The requests put on the wire, and the material handed to watchers. *)
Definition sent (tr : list event) : list DiscoveryRequest :=
  omap (fun e => match e with StreamSend r => Some r | _ => None end) tr.

Definition updates (tr : list event) : list (nat * Watch.certData) :=
  omap (fun e => match e with UpdateChanSend i d => Some (i, d) | _ => None end) tr.

Definition reports (tr : list event) : list string :=
  omap (fun e => match e with ErrChanSend m => Some m | _ => None end) tr.

(** The secret a response decodes to, when it has a first resource and that
    resource decodes. *)
Definition decoded (resp : DiscoveryResponse) : option Secret :=
  match Resources resp with
  | [] => None
  | first :: _ => match UnmarshalTo first with inr s => Some s | inl _ => None end
  end.

Definition responses (inputs : list recv_input) : list DiscoveryResponse :=
  omap (fun i => match i with RecvResponse r => Some r | _ => None end) inputs.

(** The acknowledgment a response calls for. *)
Definition ack_of (resp : DiscoveryResponse) (s : Secret) : DiscoveryRequest :=
  {| TypeUrl := typeUrl; VersionInfo := RespVersionInfo resp;
     ResourceNames := [SecretName s]; NodeMetadata := None |}.

(** "[req] acknowledges a response among [inputs]". *)
Definition acknowledges (cs : list ClientCertification) (inputs : list recv_input)
    (req : DiscoveryRequest) : Prop :=
  exists (resp : DiscoveryResponse) (s : Secret) (cert : ClientCertification),
    RecvResponse resp ∈ inputs /\ decoded resp = Some s
    /\ cert ∈ cs /\ Name cert = SecretName s
    /\ req = ack_of resp s.

End WithWire.

Arguments RespVersionInfo {Any} _.
Arguments Resources {Any} _.
Arguments RecvCtxDone {Any}.
Arguments RecvError {Any} _.
Arguments RecvResponse {Any} _.
Arguments newClientErr {Any} _.
Arguments streamSecretsErr {Any} _.
Arguments sending {Any} _.
Arguments inbound {Any} _.
Arguments ending {Any} _.
Arguments responses {Any} _.
Arguments ack_of {Any} _ _.

End Sds.

(** ** The failover loops of streaming mode ([GRPCMain]) *)

Module Failover.
Import Sds.

(** Go's [int], 64 bits wide: addition wraps around. *)
Definition int_wrap (z : Z) : Z := (z + 2 ^ 63) mod 2 ^ 64 - 2 ^ 63.
Definition int_add (a b : Z) : Z := int_wrap (a + b).

Inductive role := Main | Standby.

(** Actions of a loop, in program order; those of the stream it runs are
    embedded by [InStream]. *)
Inductive event :=
| InfoStarting (r : role)
| InStream (e : Sds.event)
| InfoStopped (r : role) (err : option stream_error)
| InfoRetryCount (r : role) (retryCount : Z)
| Sleep (d : Z)                        (* time.Sleep *)
| GoStandbyLoop
| GoForwardKill                        (* standByClient.Kill <- <-Received *)
| InfoWillReconnect (r : role)
| AfterReconnect (d : Z).              (* time.After(ReconnectDuration) *)

(** What a turn of a loop leads to. *)
Inductive next :=
| Exit                                 (* return *)
| Again (retryCount : Z)               (* back to the top of the loop *)
| Crashed.                             (* a goroutine of the stream panicked *)

(** [time.Now().Before(startTime.Add(5 * time.Minute))], with instants in
    nanoseconds. *)
Definition in_window (startTime now : Z) : bool := now <? startTime + 5 * Minute.

Section WithWire.

Variable Any : Type.
Variable UnmarshalTo : Any -> string + Secret.

(** What the main loop reads from its environment in one turn: the clock at
    the top, the environment of the stream, the clock when the stream has
    returned an error, the standby's [Running] flag, and whether the final
    [select] is woken by the timer ([true]) or by [kill] ([false]). *)
Record main_turn := {
  m_startTime : Z;
  m_io : stream_env Any;
  m_now : Z;
  m_standbyRunning : bool;
  m_timer : bool
}.

Definition standByExists (cfg : ClientConfigT) : bool :=
  negb (String.eqb (GRPCServer (GRPC_StandbyServer cfg)) "").

(** The main loop from the retry-count log line on. *)
Definition main_threshold (cfg : ClientConfigT) (t : main_turn) (retryCount : Z)
    : next * list event :=
  let tr := [InfoRetryCount Main retryCount] in
  if retryCount <? RetryCount (Server cfg) then
    (Again retryCount, tr ++ [Sleep (15 * Second)])
  else
    let tr_go :=
      if standByExists cfg && negb (m_standbyRunning t)
      then [GoStandbyLoop; GoForwardKill] else [] in
    let tr' := tr ++ tr_go ++ [InfoWillReconnect Main;
                               AfterReconnect (ReconnectDuration (Server cfg))] in
    if m_timer t then (Again 0, tr') else (Exit, tr').

(** One turn of the main loop. *)
Definition main_step (cfg : ClientConfigT) (retryCount : Z)
    (mainClient : CertDXgRPCClient) (t : main_turn)
    : next * CertDXgRPCClient * list event :=
  let startTime := m_startTime t in
  let '(r, mainClient', tr_s) := Stream Any UnmarshalTo mainClient (m_io t) in
  let tr := InfoStarting Main :: map InStream tr_s in
  match r with
  | Panicked => (Crashed, mainClient', tr)
  | Returned None =>
      let '(n, tr') := main_threshold cfg t retryCount in
      (n, mainClient', tr ++ tr')
  | Returned (Some err) =>
      let tr1 := tr ++ [InfoStopped Main (Some err)] in
      match err with
      | killed _ => (Exit, mainClient', tr1)
      | other_error _ =>
          if in_window startTime (m_now t) then
            let '(n, tr') := main_threshold cfg t (int_add retryCount 1) in
            (n, mainClient', tr1 ++ tr')
          else (Again 0, mainClient', tr1)
      end
  end.

(** The main loop, one turn per element of [turns], starting from
    [retryCount]. *)
Fixpoint main_loop (cfg : ClientConfigT) (turns : list main_turn) (retryCount : Z)
    (mainClient : CertDXgRPCClient) : next * CertDXgRPCClient * list event :=
  match turns with
  | [] => (Again retryCount, mainClient, [])
  | t :: rest =>
      let '(n, mainClient', tr) := main_step cfg retryCount mainClient t in
      match n with
      | Again retryCount' =>
          let '(n', mainClient'', tr') := main_loop cfg rest retryCount' mainClient' in
          (n', mainClient'', tr ++ tr')
      | _ => (n, mainClient', tr)
      end
  end.

(** What the standby loop reads from its environment in one turn. *)
Record standby_turn := {
  s_io : stream_env Any;
  s_now : Z
}.

(** One turn of the standby loop; [startTime] was read once, before the loop. *)
Definition standby_step (cfg : ClientConfigT) (startTime : Z) (retryCount : Z)
    (standByClient : CertDXgRPCClient) (t : standby_turn)
    : next * CertDXgRPCClient * list event :=
  let '(r, standByClient', tr_s) := Stream Any UnmarshalTo standByClient (s_io t) in
  let tr := InfoStarting Standby :: map InStream tr_s in
  match r with
  | Panicked => (Crashed, standByClient', tr)
  | Returned err =>
      let tr1 := tr ++ [InfoStopped Standby err] in
      match err with
      | Some (killed _) => (Exit, standByClient', tr1)
      | _ =>
          if in_window startTime (s_now t) then
            let retryCount' := int_add retryCount 1 in
            let tr2 := tr1 ++ [InfoRetryCount Standby retryCount'] in
            if retryCount' <? RetryCount (Server cfg) then
              (Again retryCount', standByClient', tr2 ++ [Sleep (15 * Second)])
            else
              (Again 0, standByClient',
               tr2 ++ [InfoWillReconnect Standby;
                       AfterReconnect (ReconnectDuration (Server cfg))])
          else (Again 0, standByClient', tr1)
      end
  end.

Fixpoint standby_loop (cfg : ClientConfigT) (startTime : Z)
    (turns : list standby_turn) (retryCount : Z)
    (standByClient : CertDXgRPCClient)
    : next * CertDXgRPCClient * list event :=
  match turns with
  | [] => (Again retryCount, standByClient, [])
  | t :: rest =>
      let '(n, standByClient', tr) :=
        standby_step cfg startTime retryCount standByClient t in
      match n with
      | Again retryCount' =>
          let '(n', standByClient'', tr') :=
            standby_loop cfg startTime rest retryCount' standByClient' in
          (n', standByClient'', tr ++ tr')
      | _ => (n, standByClient', tr)
      end
  end.

End WithWire.

Arguments m_startTime {Any} _.
Arguments m_io {Any} _.
Arguments m_now {Any} _.
Arguments m_standbyRunning {Any} _.
Arguments m_timer {Any} _.
Arguments s_io {Any} _.
Arguments s_now {Any} _.

(** The pauses of a trace: the sleeps and the reconnect waits. *)
Definition sleeps (tr : list event) : list Z :=
  omap (fun e => match e with Sleep d => Some d | _ => None end) tr.

Definition reconnect_waits (tr : list event) : list Z :=
  omap (fun e => match e with AfterReconnect d => Some d | _ => None end) tr.

(** The values written by the retry-count log line. *)
Definition logged_counts (tr : list event) : list Z :=
  omap (fun e => match e with InfoRetryCount _ n => Some n | _ => None end) tr.

(** The part of a turn up to the "stopped" log line. *)
Definition stopped (r : role) (tr_s : list Sds.event) (err : option stream_error)
    : list event :=
  InfoStarting r :: map InStream tr_s ++ [InfoStopped r err].

End Failover.

(** ** Concrete scenarios *)

(** The certificates, servers and message sequences the properties below are
    instantiated at. *)
Module Scenario.
Import Watch Poll Sds Failover.

(** A world that records what each handler was given. *)
Definition recording_handler (tag : nat)
    : Watch.certUpdateHandler (list (nat * bytes * bytes)) :=
  fun fc k cfg w => (cfg, w ++ [(tag, fc, k)]).

Definition cert0 : Watch.watchingCert (list (nat * bytes * bytes)) :=
  {| Data := {| Domains := ["example.com"]; Fullchain := [x43; x30]; Key := [x4b; x30] |};
     Config := {| Name := "web"; CDomains := ["example.com"];
                  SavePath := "/etc/ssl"; ReloadCommand := "" |};
     UpdateHandlers := [recording_handler 0; recording_handler 1] |}.

Definition same0 : certData :=
  {| Domains := ["example.com"]; Fullchain := [x43; x30]; Key := [x4b; x30] |}.

Definition new0 : certData :=
  {| Domains := ["example.com"]; Fullchain := [x43; x31]; Key := [x4b; x31] |}.

(** A configuration with budget 1 and a standby, and two responses. *)
Definition cfg0 : ClientConfigT :=
  {| Server := {| RetryCount := 1; ReconnectDuration := 10 * Minute |};
     Http_MainServer := {| Url := "https://main.example" |};
     Http_StandbyServer := {| Url := "https://standby.example" |};
     GRPC_MainServer := {| GRPCServer := "main.example:443" |};
     GRPC_StandbyServer := {| GRPCServer := "standby.example:443" |} |}.

Definition resp_lead (lead : Z) : HttpCertResp :=
  {| FullChain := [x43; x31]; RKey := [x4b; x31]; RenewTimeLeft := lead; Err := "" |}.

Definition start (script : list (option HttpCertResp * error))
    : Poll.state (list (option HttpCertResp * error)) :=
  {| env := script; trace := [] |}.

(** A wire whose packed messages are already decoded. *)
Definition wire : Type := string + Secret.
Definition wire_UnmarshalTo (a : wire) : string + Secret := a.

Definition web : ClientCertification :=
  {| Name := "web"; CDomains := ["example.com"]; SavePath := "/etc/ssl/web";
     ReloadCommand := "" |}.

Definition client0 : CertDXgRPCClient :=
  MakeCertDXgRPCClient {| GRPCServer := "main.example:443" |} [web].

Definition secret_named (n : string) : Secret :=
  {| SecretName := n;
     SecretType := Secret_TlsCertificate
                     {| CertificateChain := DataSource_InlineBytes [x43; x31];
                        PrivateKey := DataSource_InlineBytes [x4b; x31] |} |}.

Definition response_for (n version : string) : Sds.DiscoveryResponse wire :=
  {| RespVersionInfo := version; Resources := [inr (secret_named n)] |}.

Definition quiet : send_env := {| newStructErr := None; sendErr := fun _ => None |}.

Definition io_of (inputs : list (Sds.recv_input wire)) : stream_env wire :=
  {| newClientErr := None; streamSecretsErr := None; sending := quiet;
     inbound := inputs; ending := CtxDone "context canceled" |}.

(** Streaming: a retry budget of 3, a stream that ends on a receive error,
    and turns of the two loops around it, with the clock readings given. *)
Definition cfg3 : ClientConfigT :=
  {| Server := {| RetryCount := 3; ReconnectDuration := 10 * Minute |};
     Http_MainServer := {| Url := "" |};
     Http_StandbyServer := {| Url := "" |};
     GRPC_MainServer := {| GRPCServer := "main.example:443" |};
     GRPC_StandbyServer := {| GRPCServer := "standby.example:443" |} |}.

Definition broken : stream_env wire := io_of [RecvError "unavailable"].

Definition main_turn_at (startTime now : Z) : main_turn wire :=
  {| m_startTime := startTime; m_io := broken; m_now := now;
     m_standbyRunning := false; m_timer := true |}.

Definition standby_turn_at (now : Z) : standby_turn wire :=
  {| s_io := broken; s_now := now |}.

(** The client with a kill already in its channel. *)
Definition client_killed : CertDXgRPCClient := set_Kill client0 [tt].

(** What the failing stream leaves behind. *)
Definition broken_trace (r : role) : list Failover.event :=
  InfoStarting r
  :: map InStream
       [StoreRunning true; NewClient "main.example:443"; StreamSecrets;
        GoHandleCert 0 "web"; StreamSend (packReq [web]);
        ErrChanSend "failed receiving request: unavailable";
        ConnClose; StoreRunning false]
  ++ [InfoStopped r (Some (other_error "failed receiving request: unavailable"))].

End Scenario.

(** ** Observations on a run of the watch loop *)

Module WatchLoop.
Import Watch.

(** The updates a run of [watch] takes from [UpdateChan]: those delivered
    before the first stop. *)
Fixpoint consumed (inputs : list select_case) : list certData :=
  match inputs with
  | [] => []
  | CaseStop :: _ => []
  | CaseUpdate newCert :: rest => newCert :: consumed rest
  end.

(** The "changed" and "not changed" log lines of a trace. *)
Definition notices (tr : list event) : list (list string) :=
  omap (fun e => match e with LogNotice d => Some d | _ => None end) tr.

Definition infos (tr : list event) : list (list string) :=
  omap (fun e => match e with LogInfo d => Some d | _ => None end) tr.

End WatchLoop.

(** ** Observations on a polling trace *)

Module PollObs.
Import Poll.

(** The material a polling goroutine has sent to its watcher. *)
Definition sent_updates (tr : list event) : list Watch.certData :=
  omap (fun e => match e with SendUpdate u => Some u | _ => None end) tr.

End PollObs.

(** ** The daemon: saved material, registration and stop
       ([loadSavedCert], [init], [stop], the head of [GRPCMain]) *)

Module Daemon.
Import Watch.

(** [os.ErrNotExist]. *)
Definition ErrNotExist : string := "file does not exist".

(** Actions of the daemon, in program order; certificates are named by their
    index in [r.certs]. *)
Inductive event :=
| CallFileExists (path : string)
| CallReadFile (path : string)
| GoWatch (i : nat)                    (* go cert.watch(&r.wg) *)
| CloseStop (i : nat).                 (* close( *c.Stop.Load() ) *)

Section WithFiles.

Variable World : Type.

(** The handler every certificate is registered with; it is declared in
    another file of the package. *)
Variable writeCertAndDoCommand : certUpdateHandler World.

(** [config.ClientCertification.GetFullChainAndKeyPath], [utils.FileExists]
    and [os.ReadFile] on the file system as it stands during the call;
    [os.ReadFile] returns the bytes read so far together with its error. *)
Variable GetFullChainAndKeyPath : ClientCertification -> string * string.
Variable FileExists : string -> bool.
Variable ReadFile : string -> bytes * error.

(** [loadSavedCert]: the named results [fullchan], [key], [err]. *)
Definition loadSavedCert (c : ClientCertification)
    : (bytes * bytes * error) * list event :=
  let '(fullchanPath, keyPath) := GetFullChainAndKeyPath c in
  if FileExists fullchanPath then
    if FileExists keyPath then
      let '(fullchan, err) := ReadFile fullchanPath in
      match err with
      | Some _ =>
          ((fullchan, [], err),
           [CallFileExists fullchanPath; CallFileExists keyPath;
            CallReadFile fullchanPath])
      | None =>
          let '(key, err') := ReadFile keyPath in
          ((fullchan, key, err'),
           [CallFileExists fullchanPath; CallFileExists keyPath;
            CallReadFile fullchanPath; CallReadFile keyPath])
      end
    else (([], [], Some ErrNotExist),
          [CallFileExists fullchanPath; CallFileExists keyPath])
  else (([], [], Some ErrNotExist), [CallFileExists fullchanPath]).

(** The daemon: [Certifications] is the field of that name of [r.Config];
    [stops] tells, for each element of [certs], whether the channel its
    [Stop] points to has been closed. *)
Record CertDXClientDaemon := {
  Certifications : list ClientCertification;
  certs : list (watchingCert World);
  stops : list bool
}.

(** The body of the loop of [init] for the certification [c]. *)
Definition init_one (r : CertDXClientDaemon) (c : ClientCertification)
    : CertDXClientDaemon * list event :=
  let '((fullchan, key, err), tr) := loadSavedCert c in
  let cd :=
    match err with
    | None => {| Domains := CDomains c; Fullchain := fullchan; Key := key |}
    | Some _ => {| Domains := CDomains c; Fullchain := []; Key := [] |}
    end in
  let cert := {| Data := cd; Config := c;
                 UpdateHandlers := [writeCertAndDoCommand] |} in
  ({| Certifications := Certifications r;
      certs := certs r ++ [cert];
      stops := stops r ++ [false] |},
   tr ++ [GoWatch (length (certs r))]).

Fixpoint init_range (cs : list ClientCertification) (r : CertDXClientDaemon)
    : CertDXClientDaemon * list event :=
  match cs with
  | [] => (r, [])
  | c :: rest =>
      let '(r1, tr1) := init_one r c in
      let '(r2, tr2) := init_range rest r1 in
      (r2, tr1 ++ tr2)
  end.

Definition init (r : CertDXClientDaemon) : CertDXClientDaemon * list event :=
  init_range (Certifications r) r.

(** [stop]: the channels are closed in the order of [r.certs]; closing a
    channel that is closed already panics.  [i] is the index of the head of
    [flags]. *)
Fixpoint stop_range (i : nat) (flags : list bool)
    : outcome unit * list bool * list event :=
  match flags with
  | [] => (Returned tt, [], [])
  | true :: rest => (Panicked, true :: rest, [])
  | false :: rest =>
      let '(r, rest', tr) := stop_range (S i) rest in
      (r, true :: rest', CloseStop i :: tr)
  end.

Definition stop (r : CertDXClientDaemon)
    : outcome unit * CertDXClientDaemon * list event :=
  let '(o, flags, tr) := stop_range 0 (stops r) in
  (o, {| Certifications := Certifications r; certs := certs r; stops := flags |}, tr).

(** The daemon as [MakeCertDXClientDaemon] returns it, once its
    configuration lists the certifications [cs]: nothing is registered. *)
Definition daemon_of (cs : list ClientCertification) : CertDXClientDaemon :=
  {| Certifications := cs; certs := []; stops := [] |}.

(** The head of [GRPCMain]: [r.init()], then the two clients, the standby
    one only when a standby server is configured; the stream client reads
    the configuration of the certificates it is given. *)
Definition GRPCMain_clients (cfg : ClientConfigT) (r : CertDXClientDaemon)
    : Sds.CertDXgRPCClient * option Sds.CertDXgRPCClient
      * CertDXClientDaemon * list event :=
  let '(r', tr) := init r in
  let standByExists := negb (String.eqb (GRPCServer (GRPC_StandbyServer cfg)) "") in
  let mainClient :=
    Sds.MakeCertDXgRPCClient (GRPC_MainServer cfg) (map (@Config World) (certs r')) in
  let standByClient :=
    if standByExists
    then Some (Sds.MakeCertDXgRPCClient (GRPC_StandbyServer cfg)
                 (map (@Config World) (certs r')))
    else None in
  (mainClient, standByClient, r', tr).

(** "The chain and the key of [c] are both on disk and both readable." *)
Definition saved (c : ClientCertification) : Prop :=
  let '(fullchanPath, keyPath) := GetFullChainAndKeyPath c in
  FileExists fullchanPath = true /\ FileExists keyPath = true
  /\ snd (ReadFile fullchanPath) = None /\ snd (ReadFile keyPath) = None.

(** "[cert] is what [init] registers for the certification [c]." *)
Definition registered_as (c : ClientCertification) (cert : watchingCert World) : Prop :=
  Config cert = c
  /\ Domains (Data cert) = CDomains c
  /\ UpdateHandlers cert = [writeCertAndDoCommand]
  /\ ((saved c
       /\ Fullchain (Data cert) = fst (ReadFile (fst (GetFullChainAndKeyPath c)))
       /\ Key (Data cert) = fst (ReadFile (snd (GetFullChainAndKeyPath c))))
      \/ (~ saved c /\ Fullchain (Data cert) = [] /\ Key (Data cert) = [])).

(** The file operations of a trace. *)
Definition reads (tr : list event) : list string :=
  omap (fun e => match e with CallReadFile p => Some p | _ => None end) tr.

Definition closes (tr : list event) : list nat :=
  omap (fun e => match e with CloseStop i => Some i | _ => None end) tr.

Definition watches (tr : list event) : list nat :=
  omap (fun e => match e with GoWatch i => Some i | _ => None end) tr.

End WithFiles.

Arguments Certifications {World} _.
Arguments certs {World} _.
Arguments stops {World} _.
Arguments stop {World} _.
Arguments daemon_of {World} _.

End Daemon.

(** ** Observations on a stream *)

Module StreamObs.
Import Sds.

(** The index of the last certificate of [cs] that is named [n]. *)
Fixpoint last_index (n : string) (cs : list ClientCertification) : option nat :=
  match cs with
  | [] => None
  | cert :: rest =>
      match last_index n rest with
      | Some k => Some (S k)
      | None => if String.eqb (Name cert) n then Some 0%nat else None
      end
  end.

(** The swaps of the last-received channel in a trace, and the connections
    closed. *)
Definition swaps (tr : list event) : list (nat * nat) :=
  omap (fun e => match e with SwapReceived a b => Some (a, b) | _ => None end) tr.

Definition conn_closes (tr : list event) : list unit :=
  omap (fun e => match e with ConnClose => Some tt | _ => None end) tr.

Section WithWire.

Variable Any : Type.
Variable UnmarshalTo : Any -> string + Secret.

(** "The update [u] on the channel of certificate [fst u] comes from a
    response among [inputs]": the response decodes to a certificate secret
    named as that certificate, which is the last of that name among [cs];
    the domains are those of the local configuration, the chain and the key
    the inline bytes of the secret. *)
Definition delivers (cs : list ClientCertification)
    (inputs : list (recv_input Any)) (u : nat * Watch.certData) : Prop :=
  exists (resp : DiscoveryResponse Any) (s : Secret) (tls : TlsCertificate)
         (cert : ClientCertification),
    RecvResponse resp ∈ inputs
    /\ decoded Any UnmarshalTo resp = Some s
    /\ SecretType s = Secret_TlsCertificate tls
    /\ last_index (SecretName s) cs = Some (fst u)
    /\ cs !! fst u = Some cert
    /\ Name cert = SecretName s
    /\ snd u = {| Watch.Domains := CDomains cert;
                  Watch.Fullchain := GetInlineBytes (CertificateChain tls);
                  Watch.Key := GetInlineBytes (PrivateKey tls) |}.

(** What a run of the goroutines of a stream keeps, between the client
    before, the trace and the client after: the last-received channels are
    swapped one after the other and closed in that order, nothing else of
    the client changes, the connection is not closed, every request sent
    follows an update, every update follows a swap and comes from a response
    among [all]. *)
Definition keeps (cs : list ClientCertification) (all : list (recv_input Any))
    (c : CertDXgRPCClient) (tr : list event) (c' : CertDXgRPCClient) : Prop :=
  Received c' = (Received c + length (swaps tr))%nat
  /\ ReceivedClosed c' = ReceivedClosed c ++ map fst (swaps tr)
  /\ swaps tr = map (fun k => (k, S k)) (seq (Received c) (length (swaps tr)))
  /\ Kill c' = Kill c /\ Running c' = Running c /\ server c' = server c
  /\ certs c' = certs c
  /\ conn_closes tr = []
  /\ (length (sent tr) <= length (updates tr))%nat
  /\ (length (updates tr) <= length (swaps tr))%nat
  /\ Forall (delivers cs all) (updates tr).

(** "A stream in the environment [io] can only end on an error of its own":
    its context ends before any kill, and no response comes without a
    resource. *)
Definition fails_by_itself (io : stream_env Any) : Prop :=
  (exists e, ending io = CtxDone e)
  /\ Forall (fun resp : DiscoveryResponse Any => Resources resp <> [])
       (responses (inbound io)).

End WithWire.

End StreamObs.

(** ** Observations on the failover loops *)

Module LoopObs.
Import Failover.

(** The streams a loop has started, the standby loops and the kill
    forwarders the main loop has launched. *)
Definition starts (tr : list event) : list role :=
  omap (fun e => match e with InfoStarting r => Some r | _ => None end) tr.

Definition standby_starts (tr : list event) : list unit :=
  omap (fun e => match e with GoStandbyLoop => Some tt | _ => None end) tr.

Definition forwarders (tr : list event) : list unit :=
  omap (fun e => match e with GoForwardKill => Some tt | _ => None end) tr.

End LoopObs.

(** ** The command line ([exec/client/main.go]) *)

Module Cli.

(** The flags, as [flag.Parse] leaves them. *)
Record flags := {
  pLogPath : string;
  help : bool;
  version : bool;
  conf : string
}.

(** [common.ClientConfig]: the fields [init] and [main] read, which are
    [Server.Mode], [Http.MainServer.Url] and [Certifications]. *)
Record ClientConfig := {
  Mode : string;
  MainUrl : string;
  Certifications : list ClientCertification
}.

(** What the program does that can be seen from outside, in program order. *)
Inductive event :=
| PrintDefaults
| PrintVersion
| OpenLogFile (path : string)
| OpenConfig (path : string)
| Printf (msg : string)                (* log.Printf, log.Println *)
| Fatalf (msg : string)                (* log.Fatalf: the message, then exit status 1 *)
| ClientHttpMain.                      (* common.ClientHttpMain() *)

(** How [init] ends: the process exits with a status, or [init] returns and
    the configuration is the one given. *)
Inductive init_result :=
| Exit (status : Z)
| Loaded (config : ClientConfig).

Section WithSystem.

(** [os.OpenFile] on the log path, [os.Open] on the configuration path,
    [io.ReadAll] on the opened file, [config.SetDefault] and
    [toml.Unmarshal] onto a configuration. *)
Variable OpenFile : string -> error.
Variable Open : string -> error.
Variable ReadAll : string -> bytes * error.
Variable SetDefault : ClientConfig -> ClientConfig.
Variable Unmarshal : bytes -> ClientConfig -> ClientConfig * error.

(** The loop over [config.Certifications] at the end of [init]. *)
Fixpoint check_certifications (cs : list ClientCertification) : option string :=
  match cs with
  | [] => None
  | c :: rest =>
      if (length (CDomains c) =? 0)%nat || String.eqb (Name c) ""
         || String.eqb (SavePath c) ""
      then Some "[ERR] Wrong certification configuration"
      else check_certifications rest
  end.

(** The three checks on the loaded configuration. *)
Definition check_config (config : ClientConfig) : option string :=
  if String.eqb (MainUrl config) "" then
    Some "[ERR] Main server url should not be empty"
  else if (length (Certifications config) =? 0)%nat then
    Some "[ERR] No certification configured"
  else check_certifications (Certifications config).

(** The second half of [init], from [config.SetDefault] on: the
    configuration is opened, read, decoded and checked; [tr] is what the
    first half has done. *)
Definition load (f : flags) (config : ClientConfig) (tr : list event)
    : init_result * list event :=
  let config1 := SetDefault config in
  let tr_open := tr ++ [OpenConfig (conf f)] in
  match Open (conf f) with
  | Some err =>
      (Exit 1, tr_open ++ [Fatalf (String.append "[ERR] Open config file failed: " err)])
  | None =>
      let '(b, err) := ReadAll (conf f) in
      match err with
      | Some e =>
          (Exit 1,
           tr_open ++ [Fatalf (String.append "[ERR] Reading config file failed: " e)])
      | None =>
          let '(config2, err') := Unmarshal b config1 in
          match err' with
          | Some e =>
              (Exit 1,
               tr_open
               ++ [Fatalf (String.append "[ERR] Unmarshaling config failed: " e)])
          | None =>
              let tr_loaded := tr_open ++ [Printf "[INF] Config loaded"] in
              match check_config config2 with
              | Some msg => (Exit 1, tr_loaded ++ [Fatalf msg])
              | None => (Loaded config2, tr_loaded)
              end
          end
      end
  end.

(** [init], from [flag.Parse] on; [config] is the package variable. *)
Definition init (f : flags) (config : ClientConfig) : init_result * list event :=
  if help f then (Exit 0, [PrintDefaults])
  else if version f then (Exit 0, [PrintVersion])
  else if negb (String.eqb (pLogPath f) "") then
    match OpenFile (pLogPath f) with
    | Some err =>
        (Exit 1,
         [OpenLogFile (pLogPath f);
          Printf (String.append "[ERR] Failed to open log file "
                    (String.append (pLogPath f) (String.append " : " err)))])
    | None =>
        load f config
          [OpenLogFile (pLogPath f);
           Printf (String.append "[INF] Log to file: " (pLogPath f))]
    end
  else load f config [].

(** [main], once [init] has returned. *)
Definition main (config : ClientConfig) : list event :=
  if String.eqb (Mode config) "http" then [ClientHttpMain]
  else [Fatalf (String.append (String.append "[ERR] Mode " (Mode config))
                  " not supported")].

(** The program: [init], then [main]. *)
Definition run (f : flags) (config : ClientConfig) : list event :=
  let '(r, tr) := init f config in
  match r with
  | Exit _ => tr
  | Loaded config' => tr ++ main config'
  end.

(** The files a run opens. *)
Definition opened (tr : list event) : list string :=
  omap (fun e => match e with
                 | OpenLogFile p | OpenConfig p => Some p
                 | _ => None
                 end) tr.

End WithSystem.

End Cli.

(** ** Further scenarios *)

Module Cases.
Import Watch Sds Failover Scenario.

(** Saved material: every file exists and holds the same two bytes. *)
Definition paths_of (c : ClientCertification) : string * string :=
  (String.append (SavePath c) "/fullchain.pem", String.append (SavePath c) "/key.pem").

Definition every_file (path : string) : bool := true.

Definition two_bytes (path : string) : bytes * error := ([x43; x30], None).

(** A daemon with the certificate [cert0] registered and its stop channel
    open. *)
Definition daemon1 : Daemon.CertDXClientDaemon (list (nat * bytes * bytes)) :=
  {| Daemon.Certifications := [web]; Daemon.certs := [cert0];
     Daemon.stops := [false] |}.

(** A response for [n] whose secret is not a certificate. *)
Definition generic_secret (n : string) : Secret :=
  {| SecretName := n; SecretType := Secret_GenericSecret |}.

Definition response_generic (n version : string) : Sds.DiscoveryResponse wire :=
  {| RespVersionInfo := version; Resources := [inr (generic_secret n)] |}.

(** A certificate whose chain is given by a file name. *)
Definition tls_by_filename : TlsCertificate :=
  {| CertificateChain := DataSource_Filename "/etc/ssl/chain.pem";
     PrivateKey := DataSource_InlineBytes [x4b; x31] |}.

Definition data_by_filename : respData :=
  {| Version := "7";
     RSecret := {| SecretName := "web";
                   SecretType := Secret_TlsCertificate tls_by_filename |} |}.

(** A stream whose connection cannot be set up. *)
Definition no_dial : stream_env wire :=
  {| newClientErr := Some "invalid target"; streamSecretsErr := None;
     sending := quiet; inbound := []; ending := CtxDone "context canceled" |}.

(** A polling response that carries a server error next to its material. *)
Definition resp_refused : Poll.HttpCertResp :=
  {| Poll.FullChain := [x43; x31]; Poll.RKey := [x4b; x31];
     Poll.RenewTimeLeft := 8 * Hour; Poll.Err := "domain not allowed" |}.

(** A command line and a system on which the client starts. *)
Definition flags0 : Cli.flags :=
  {| Cli.pLogPath := ""; Cli.help := false; Cli.version := false;
     Cli.conf := "./client.toml" |}.

Definition config_http : Cli.ClientConfig :=
  {| Cli.Mode := "http"; Cli.MainUrl := "https://main.example";
     Cli.Certifications := [web] |}.

End Cases.

(** * Properties *)

(** ** [bytes.Equal] decides equality of byte slices *)

Lemma bytes_Equal_refl (a : bytes) : bytes_Equal a a = true.
Proof.
  induction a as [|x a IH]; simpl; [reflexivity|].
  rewrite IH, (Byte.byte_dec_lb eq_refl). reflexivity.
Qed.

Lemma bytes_Equal_eq (a b : bytes) : bytes_Equal a b = true <-> a = b.
Proof.
  split; [|intros ->; apply bytes_Equal_refl].
  revert b; induction a as [|x a IH]; intros [|y b]; simpl; try discriminate.
  - reflexivity.
  - intros [Hx Hr]%andb_true_iff.
    apply Byte.byte_dec_bl in Hx. apply IH in Hr. congruence.
Qed.

Lemma bytes_Equal_neq (a b : bytes) : bytes_Equal a b = false <-> a <> b.
Proof.
  rewrite <- bytes_Equal_eq. destruct (bytes_Equal a b); split; congruence.
Qed.


(** ** The watch loop *)

Module WatchFacts.
Import Watch Scenario.

Section WithWorld.

Variable World : Type.

Abbreviation watchingCert := (watchingCert World).
Abbreviation certUpdateHandler := (certUpdateHandler World).

Lemma range_handlers_spec (hs : list certUpdateHandler) :
  forall (i : nat) (c : watchingCert) (w : World),
    let fc := Fullchain (Data c) in
    let k := Key (Data c) in
    let s := apply_in_order hs fc k (Config c, w) in
    range_handlers hs i c w
    = (set_Config c (fst s), snd s,
       imap (fun n _ => CallHandler (i + n) fc k) hs).
Proof.
  induction hs as [|h hs IH]; intros i c w; cbv zeta; simpl.
  - destruct c; reflexivity.
  - destruct (h (Fullchain (Data c)) (Key (Data c)) (Config c) w) as [cfg' w'] eqn:Hh.
    rewrite IH; cbv zeta; simpl.
    f_equal. f_equal; [f_equal; lia|].
    apply imap_ext; intros n x _; simpl. f_equal; lia.
Qed.

(** C1. Material whose chain and key are both byte-for-byte equal to the held
    material leaves the certificate and the handlers' world as they were; the
    only action is the "not changed" log line, so no handler is invoked. *)
Theorem watch_same_material_noop (c : watchingCert) (newCert : certData) (w : World) :
  Fullchain newCert = Fullchain (Data c) ->
  Key newCert = Key (Data c) ->
  watch_update c newCert w = (c, w, [LogInfo (Domains newCert)])
  /\ handler_calls (snd (watch_update c newCert w)) = []
  /\ watch [CaseUpdate newCert] c w = (c, w, [LogInfo (Domains newCert)], false).
Proof.
  intros Hfc Hk.
  assert (Hu : watch_update c newCert w = (c, w, [LogInfo (Domains newCert)])).
  { unfold watch_update. rewrite Hfc, Hk, !bytes_Equal_refl. reflexivity. }
  split; [exact Hu|]. split.
  - rewrite Hu. reflexivity.
  - simpl. rewrite Hu. reflexivity.
Qed.

(** C2, as amended.  When the arriving material differs from the held one in
    chain or key, the held chain and key are replaced first, and then every
    registered handler is called exactly once, in registration order, each
    with the new material, which is by then the held one. *)
Theorem watch_changed_material (c : watchingCert) (newCert : certData) (w : World) :
  Fullchain newCert <> Fullchain (Data c) \/ Key newCert <> Key (Data c) ->
  let fc := Fullchain newCert in
  let k := Key newCert in
  let s := apply_in_order (UpdateHandlers c) fc k (Config c, w) in
  let c' := {| Data := {| Domains := Domains (Data c); Fullchain := fc; Key := k |};
               Config := fst s; UpdateHandlers := UpdateHandlers c |} in
  watch_update c newCert w
  = (c', snd s,
     LogNotice (Domains newCert) :: StoreFullchain fc :: StoreKey k
       :: imap (fun n _ => CallHandler n fc k) (UpdateHandlers c))
  /\ handler_calls (snd (watch_update c newCert w))
     = imap (fun n _ => (n, fc, k)) (UpdateHandlers c).
Proof.
  intros Hd fc k s c'.
  assert (Hu : watch_update c newCert w
    = (c', snd s,
       LogNotice (Domains newCert) :: StoreFullchain fc :: StoreKey k
         :: imap (fun n _ => CallHandler n fc k) (UpdateHandlers c))).
  { unfold watch_update.
    assert (Hb : negb (bytes_Equal (Fullchain (Data c)) (Fullchain newCert))
                 || negb (bytes_Equal (Key (Data c)) (Key newCert)) = true).
    { apply orb_true_iff. destruct Hd as [Hd|Hd]; [left|right];
        apply negb_true_iff, bytes_Equal_neq; congruence. }
    rewrite Hb. rewrite range_handlers_spec. reflexivity. }
  split; [exact Hu|].
  rewrite Hu. simpl. clear Hu c' s.
  generalize (UpdateHandlers c) as hs. intros hs.
  change (omap (fun e => match e with
                         | CallHandler i fc0 k0 => Some (i, fc0, k0)
                         | _ => None end)
               (imap (fun n _ => CallHandler (0 + n) fc k) hs)
          = imap (fun n _ => ((0 + n)%nat, fc, k)) hs).
  generalize 0%nat as i.
  induction hs as [|h hs IH]; intros i; simpl; [reflexivity|].
  f_equal.
  rewrite <- (imap_ext (fun n _ => CallHandler (S i + n) fc k)), IH
    by (intros; simpl; f_equal; lia).
  apply imap_ext; intros; simpl; repeat f_equal; lia.
Qed.

End WithWorld.

Lemma watch_same_material_noop_witness :
  watch_update cert0 same0 [] = (cert0, [], [LogInfo ["example.com"]])
  /\ handler_calls (snd (watch_update cert0 same0 [])) = []
  /\ watch [CaseUpdate same0] cert0 [] = (cert0, [], [LogInfo ["example.com"]], false).
Proof.
  apply (watch_same_material_noop _ cert0 same0 []); reflexivity.
Defined.

Lemma watch_changed_material_witness :
  (Fullchain new0 <> Fullchain (Data cert0) \/ Key new0 <> Key (Data cert0))
  /\ snd (fst (watch_update cert0 new0 []))
     = [(0%nat, [x43; x31], [x4b; x31]); (1%nat, [x43; x31], [x4b; x31])]
  /\ handler_calls (snd (watch_update cert0 new0 []))
     = [(0%nat, [x43; x31], [x4b; x31]); (1%nat, [x43; x31], [x4b; x31])].
Proof.
  assert (Hd : Fullchain new0 <> Fullchain (Data cert0) \/ Key new0 <> Key (Data cert0))
    by (left; discriminate).
  split; [exact Hd|]. split.
  - exact (f_equal (fun r => snd (fst r))
             (proj1 (watch_changed_material _ cert0 new0 [] Hd))).
  - exact (proj2 (watch_changed_material _ cert0 new0 [] Hd)).
Defined.

(** C2 as the spec words it fails: with a single handler registered, the two
    stores into the held material are at positions 1 and 2 of the trace and
    the handler call at position 3, so the material is replaced before the
    handler runs, not after. *)
Lemma watch_replaces_before_handlers :
  Fullchain new0 <> Fullchain (Data cert0)
  /\ snd (watch_update cert0 new0 [])
     = [LogNotice ["example.com"]; StoreFullchain [x43; x31]; StoreKey [x4b; x31];
        CallHandler 0 [x43; x31] [x4b; x31]; CallHandler 1 [x43; x31] [x4b; x31]]
  /\ ~ stores_follow_calls (snd (watch_update cert0 new0 [])).
Proof.
  split; [discriminate|]. split; [reflexivity|].
  intros H.
  specialize (H 1%nat 3%nat (StoreFullchain [x43; x31])
                (CallHandler 0 [x43; x31] [x4b; x31])
                eq_refl eq_refl eq_refl eq_refl).
  lia.
Qed.

End WatchFacts.

(** ** The retry helper *)

Section RetryFacts.

Context {S : Type}.
Variable work : S -> error * S.

Lemma Retry_from_exhausted (n : nat) :
  forall s s', failing_run work (Datatypes.S n) s = Some s' ->
    exists e, Retry_from n work s = (Some e, s').
Proof.
  induction n as [|n IH]; intros s s'; simpl.
  - destruct (work s) as [[e|] s1]; [|discriminate].
    intros [= <-]. eauto.
  - destruct (work s) as [[e|] s1] eqn:Hw; [|discriminate].
    intros Hrun. apply IH. simpl. exact Hrun.
Qed.

Lemma Retry_from_first_success (n j : nat) :
  forall s s1 s2, (j <= n)%nat ->
    failing_run work j s = Some s1 -> work s1 = (None, s2) ->
    Retry_from n work s = (None, s2).
Proof.
  revert n; induction j as [|j IH]; intros n s s1 s2 Hj; simpl.
  - intros [= <-] Hw. destruct n; simpl; rewrite Hw; reflexivity.
  - destruct n as [|n]; [lia|].
    destruct (work s) as [[e|] s'] eqn:Hw; [|discriminate].
    intros Hrun Hw2. simpl. rewrite Hw. apply (IH n s' s1 s2); [lia|assumption..].
Qed.

(** The helper never runs the operation more than [n + 1] times: after
    [n + 1] failures it has returned. *)
Lemma Retry_from_bounded (n : nat) :
  forall s, (exists e s', Retry_from n work s = (Some e, s')
                          /\ failing_run work (Datatypes.S n) s = Some s')
            \/ (exists j s1 s2, (j <= n)%nat /\ failing_run work j s = Some s1
                                /\ work s1 = (None, s2)
                                /\ Retry_from n work s = (None, s2)).
Proof.
  induction n as [|n IH]; intros s; simpl.
  - destruct (work s) as [[e|] s1] eqn:Hw.
    + left. eauto.
    + right. exists 0%nat, s, s1. simpl. auto.
  - destruct (work s) as [[e|] s1] eqn:Hw.
    + destruct (IH s1) as [(e' & s' & Hr & Hf)|(j & sa & sb & Hj & Hf & Hwj & Hr)].
      * left. exists e', s'. split; [exact Hr|]. simpl in Hf. exact Hf.
      * right. exists (Datatypes.S j), sa, sb. simpl. rewrite Hw.
        repeat split; try assumption; lia.
    + right. exists 0%nat, s, s1. simpl. repeat split; auto; lia.
Qed.

End RetryFacts.

(** ** Polling mode *)

Module PollFacts.
Import Poll Scenario.

Section WithEnv.

Variable Env : Type.
Variable GetCert :
  ClientHttpServer -> list string -> Env -> (option HttpCertResp * error) * Env.

Abbreviation state := (state Env).
Abbreviation attempt := (attempt GetCert).
Abbreviation requestCert := (requestCert GetCert).
Abbreviation certWatchDog_cycle := (certWatchDog_cycle GetCert).
Abbreviation certWatchDog := (certWatchDog GetCert).

Lemma attempt_trace srv domains (s s' : option HttpCertResp * state) err :
  attempt srv domains s = (err, s') ->
  trace (snd s') = trace (snd s) ++ [CallGetCert srv domains].
Proof.
  unfold Poll.attempt. simpl.
  destruct (GetCert srv domains (env (snd s))) as [[resp e] env'].
  intros [= _ <-]. reflexivity.
Qed.

Lemma failing_run_trace srv domains (k : nat) :
  forall (s s' : option HttpCertResp * state),
    failing_run (attempt srv domains) k s = Some s' ->
    trace (snd s') = trace (snd s) ++ repeat (CallGetCert srv domains) k.
Proof.
  induction k as [|k IH]; intros s s'; simpl.
  - intros [= <-]. rewrite app_nil_r. reflexivity.
  - destruct (attempt srv domains s) as [[e|] s1] eqn:Ha; [|discriminate].
    intros Hrun. rewrite (IH _ _ Hrun), (attempt_trace _ _ _ _ _ Ha).
    rewrite <- app_assoc. reflexivity.
Qed.

Section Cycle.

Variable cfg : ClientConfigT.
Variable domains : list string.

Abbreviation main := (Http_MainServer cfg).
Abbreviation standby := (Http_StandbyServer cfg).
Abbreviation budget := (Z.to_nat (RetryCount (Server cfg) + 1)).

Hypothesis budget_nonneg : 0 <= RetryCount (Server cfg).

Lemma budget_S : budget = Datatypes.S (Z.to_nat (RetryCount (Server cfg))).
Proof. rewrite Z2Nat.inj_add by lia. simpl. lia. Qed.

(** The main server answers within the budget: nothing else is contacted. *)
Lemma requestCert_main_answers (st : state) (j : nat) r1 st1 resp st2 :
  (j < budget)%nat ->
  failing_run (attempt main domains) j (None, st) = Some (r1, st1) ->
  attempt main domains (r1, st1) = (None, (resp, st2)) ->
  requestCert cfg domains st = (resp, st2)
  /\ trace st2 = trace st ++ repeat (CallGetCert main domains) (Datatypes.S j).
Proof.
  intros Hj Hrun Hok. rewrite budget_S in Hj. split.
  - unfold Poll.requestCert, Retry.
    rewrite (Retry_from_first_success _ (Z.to_nat (RetryCount (Server cfg))) j _ _ _ ltac:(lia) Hrun Hok). reflexivity.
  - apply failing_run_trace in Hrun. apply attempt_trace in Hok. simpl in *.
    rewrite Hok, Hrun, <- app_assoc. f_equal.
    symmetry. apply repeat_cons.
Qed.

(** The main server fails [budget] times and no standby is configured. *)
Lemma requestCert_main_exhausted_no_standby (st : state) r1 st1 :
  failing_run (attempt main domains) budget (None, st) = Some (r1, st1) ->
  Url standby = "" ->
  exists e,
    requestCert cfg domains st = (None, emit (WarnMainFailed domains e) st1)
    /\ trace st1 = trace st ++ repeat (CallGetCert main domains) budget.
Proof.
  intros Hrun Hurl. rewrite budget_S in Hrun.
  destruct (Retry_from_exhausted _ _ _ _ Hrun) as [e He].
  exists e. split.
  - unfold Poll.requestCert, Retry. rewrite He, Hurl. reflexivity.
  - rewrite <- budget_S in Hrun. apply failing_run_trace in Hrun. exact Hrun.
Qed.

(** The main server fails [budget] times, a standby is configured and answers
    within the same budget. *)
Lemma requestCert_standby_answers (st : state) (j : nat) r1 st1 r2 st2 resp st3 :
  failing_run (attempt main domains) budget (None, st) = Some (r1, st1) ->
  Url standby <> "" ->
  (j < budget)%nat ->
  (forall e, failing_run (attempt standby domains) j
               (r1, emit (WarnMainFailed domains e) st1) = Some (r2, st2 e)) ->
  (forall e, attempt standby domains (r2, st2 e) = (None, (resp, st3 e))) ->
  exists e,
    requestCert cfg domains st = (resp, st3 e)
    /\ trace (st3 e)
       = trace st ++ repeat (CallGetCert main domains) budget
           ++ [WarnMainFailed domains e]
           ++ repeat (CallGetCert standby domains) (Datatypes.S j).
Proof.
  intros Hrun Hurl Hj Hrun2 Hok. pose proof Hrun as Hrun'.
  rewrite budget_S in Hrun, Hj.
  destruct (Retry_from_exhausted _ _ _ _ Hrun) as [e He].
  exists e. split.
  - unfold Poll.requestCert, Retry. rewrite He.
    apply String.eqb_neq in Hurl. rewrite Hurl. simpl.
    rewrite (Retry_from_first_success _ (Z.to_nat (RetryCount (Server cfg))) j _ _ _ ltac:(lia) (Hrun2 e) (Hok e)).
    reflexivity.
  - specialize (Hrun2 e). specialize (Hok e).
    apply failing_run_trace in Hrun', Hrun2. apply attempt_trace in Hok. simpl in *.
    rewrite Hok, Hrun2, Hrun', <- !app_assoc. do 3 f_equal.
    symmetry. apply repeat_cons.
Qed.

(** Both servers fail [budget] times each: the cycle has no response. *)
Lemma requestCert_both_exhausted (st : state) r1 st1 r2 st2 :
  failing_run (attempt main domains) budget (None, st) = Some (r1, st1) ->
  Url standby <> "" ->
  (forall e, failing_run (attempt standby domains) budget
               (r1, emit (WarnMainFailed domains e) st1) = Some (r2, st2 e)) ->
  exists e e',
    requestCert cfg domains st = (None, emit (WarnStandbyFailed domains e') (st2 e))
    /\ trace (st2 e)
       = trace st ++ repeat (CallGetCert main domains) budget
           ++ [WarnMainFailed domains e]
           ++ repeat (CallGetCert standby domains) budget.
Proof.
  intros Hrun Hurl Hrun2. pose proof Hrun as Hrun'.
  rewrite budget_S in Hrun.
  destruct (Retry_from_exhausted _ _ _ _ Hrun) as [e He].
  pose proof (Hrun2 e) as Hrun2e. pose proof Hrun2e as Hrun2'.
  rewrite budget_S in Hrun2e.
  destruct (Retry_from_exhausted _ _ _ _ Hrun2e) as [e' He'].
  exists e, e'. split.
  - unfold Poll.requestCert, Retry. rewrite He.
    apply String.eqb_neq in Hurl. rewrite Hurl. simpl. rewrite He'. reflexivity.
  - apply failing_run_trace in Hrun', Hrun2'. simpl in *.
    rewrite Hrun2', Hrun', <- !app_assoc. reflexivity.
Qed.

(** A cycle without a response leaves [sleepTime] as it was and waits that
    long; a response without error string sets it to a quarter of the lead
    time, hands the material to the watcher and waits that long. *)
Lemma certWatchDog_cycle_interval (sleepTime : Z) (st : state) :
  (forall st1, requestCert cfg domains (emit (InfoRequesting domains) st) = (None, st1) ->
     certWatchDog_cycle cfg domains sleepTime st
     = (sleepTime, emit (After sleepTime) (emit ErrorRetryNextRound st1)))
  /\ (forall r st1,
        requestCert cfg domains (emit (InfoRequesting domains) st) = (Some r, st1) ->
        Err r = "" ->
        certWatchDog_cycle cfg domains sleepTime st
        = (Z.quot (RenewTimeLeft r) 4,
           emit (After (Z.quot (RenewTimeLeft r) 4))
             (emit (SendUpdate {| Watch.Domains := domains;
                                  Watch.Fullchain := FullChain r;
                                  Watch.Key := RKey r |}) st1))).
Proof.
  split.
  - intros st1 Hr. unfold Poll.certWatchDog_cycle. rewrite Hr. reflexivity.
  - intros r st1 Hr He. unfold Poll.certWatchDog_cycle. rewrite Hr, He. reflexivity.
Qed.

End Cycle.


End WithEnv.

(** The scenario of the spec: a lead time of 4 hours schedules the next poll
    one hour later. *)
Example poll_lead_4h_next_in_1h :
  trace (snd (Poll.certWatchDog scripted_GetCert cfg0 ["example.com"] [false]
                (start [(Some (resp_lead (4 * Hour)), None)])))
  = [InfoRequesting ["example.com"];
     CallGetCert {| Url := "https://main.example" |} ["example.com"];
     SendUpdate {| Watch.Domains := ["example.com"];
                   Watch.Fullchain := [x43; x31]; Watch.Key := [x4b; x31] |};
     After (1 * Hour)].
Proof. reflexivity. Qed.



End PollFacts.

(** ** The streaming discovery client *)

Module SdsFacts.
Import Sds Scenario.

Section WithWire.

Variable Any : Type.
Variable UnmarshalTo : Any -> string + Secret.

Abbreviation DiscoveryResponse := (DiscoveryResponse Any).
Abbreviation recv_input := (recv_input Any).
Abbreviation receive := (receive Any UnmarshalTo).
Abbreviation serve_one := (serve_one Any UnmarshalTo).
Abbreviation serve := (serve Any UnmarshalTo).
Abbreviation Stream := (Stream Any UnmarshalTo).
Abbreviation decoded := (decoded Any UnmarshalTo).
Abbreviation acknowledges := (acknowledges Any UnmarshalTo).

(** *** The dispatch map *)

Lemma make_dispatch_absent (cs : list ClientCertification) :
  forall (i : nat) (m : gmap string nat) (n : string),
    n ∉ map Name cs -> make_dispatch cs i m !! n = m !! n.
Proof.
  induction cs as [|cert cs IH]; intros i m n Hn; simpl; [reflexivity|].
  simpl in Hn. apply not_elem_of_cons in Hn as [Hne Hn].
  rewrite IH by exact Hn. apply lookup_insert_ne. congruence.
Qed.

Lemma make_dispatch_present (cs : list ClientCertification) :
  forall (i : nat) (m : gmap string nat) (n : string) (ch : nat),
    make_dispatch cs i m !! n = Some ch ->
    (exists cert, (i <= ch)%nat /\ cs !! (ch - i)%nat = Some cert /\ Name cert = n)
    \/ m !! n = Some ch.
Proof.
  induction cs as [|cert cs IH]; intros i m n ch; simpl; [auto|].
  intros H. apply IH in H as [(cert' & Hle & Hl & Hn)|H].
  - left. exists cert'. split; [lia|]. split; [|exact Hn].
    replace (ch - i)%nat with (S (ch - S i)) by lia. exact Hl.
  - destruct (decide (Name cert = n)) as [Heq|Hne].
    + rewrite Heq, lookup_insert_eq in H. injection H as <-.
      left. exists cert. rewrite Nat.sub_diag. auto.
    + rewrite lookup_insert_ne in H by exact Hne. auto.
Qed.

Lemma dispatch_names_registered (cs : list ClientCertification) (n : string) (ch : nat) :
  make_dispatch cs 0 ∅ !! n = Some ch ->
  exists cert, cs !! ch = Some cert /\ Name cert = n.
Proof.
  intros H. apply make_dispatch_present in H as [(cert & _ & Hl & Hn)|H].
  - rewrite Nat.sub_0_r in Hl. eauto.
  - rewrite lookup_empty in H. discriminate.
Qed.

(** *** Traces *)

Lemma sent_app (a b : list event) : sent (a ++ b) = sent a ++ sent b.
Proof. apply omap_app. Qed.

Lemma updates_app (a b : list event) : updates (a ++ b) = updates a ++ updates b.
Proof. apply omap_app. Qed.

Lemma sent_go_handlers (cs : list ClientCertification) :
  forall i, sent (go_handlers cs i) = [].
Proof. induction cs as [|c cs IH]; intros i; simpl; [reflexivity|apply IH]. Qed.

Lemma updates_go_handlers (cs : list ClientCertification) :
  forall i, updates (go_handlers cs i) = [].
Proof. induction cs as [|c cs IH]; intros i; simpl; [reflexivity|apply IH]. Qed.

Lemma updates_sender_start se cs : updates (snd (sender_start se cs)) = [].
Proof.
  unfold sender_start. destruct (newStructErr se); [reflexivity|].
  destruct (sendErr se (packReq cs)); reflexivity.
Qed.

Lemma sent_sender_start se cs :
  sent (snd (sender_start se cs)) = []
  \/ sent (snd (sender_start se cs)) = [packReq cs].
Proof.
  unfold sender_start. destruct (newStructErr se); [left; reflexivity|].
  destruct (sendErr se (packReq cs)); right; reflexivity.
Qed.

(** *** The receiving goroutine *)

Lemma receive_certs dispatch c input :
  certs (snd (fst (receive dispatch c input))) = certs c.
Proof.
  destruct input as [| |resp]; simpl; try reflexivity.
  destruct (Resources resp) as [|a l]; [reflexivity|].
  destruct (UnmarshalTo a) as [e|s]; [reflexivity|].
  destruct (dispatch !! SecretName s); reflexivity.
Qed.

(** On a response the receiver swaps the last-received channel and closes
    the old one before anything else it does with the response. *)
Lemma receive_swaps_first dispatch c (resp : DiscoveryResponse) :
  exists tr,
    snd (receive dispatch c (RecvResponse resp))
    = SwapReceived (Received c) (S (Received c)) :: tr
    /\ snd (fst (receive dispatch c (RecvResponse resp))) = swap_Received c
    /\ Received c ∈ ReceivedClosed (swap_Received c).
Proof.
  simpl.
  assert (Hc : Received c ∈ ReceivedClosed (swap_Received c)).
  { simpl. apply elem_of_app. right. apply list_elem_of_singleton. reflexivity. }
  destruct (Resources resp) as [|a l]; [eauto|].
  destruct (UnmarshalTo a) as [e|s]; [eauto|].
  destruct (dispatch !! SecretName s); eauto.
Qed.

Lemma serve_one_sent se (c : CertDXgRPCClient) (input : recv_input) :
  let res := serve_one se (make_dispatch (certs c) 0 ∅) c input in
  certs (snd (fst res)) = certs c
  /\ Forall (acknowledges (certs c) [input]) (sent (snd res)).
Proof.
  cbv zeta. unfold Sds.serve_one.
  pose proof (receive_certs (make_dispatch (certs c) 0 ∅) c input) as Hc.
  destruct input as [| |resp]; simpl in *; try (split; [reflexivity|constructor]).
  unfold acknowledges, Sds.decoded.
  destruct (Resources resp) as [|a l] eqn:Hres; simpl; [split; [reflexivity|constructor]|].
  destruct (UnmarshalTo a) as [e|s] eqn:Hun; simpl; [split; [reflexivity|constructor]|].
  destruct (make_dispatch (certs c) 0 ∅ !! SecretName s) as [ch|] eqn:Hd; simpl;
    [|split; [reflexivity|constructor]].
  destruct (dispatch_names_registered _ _ _ Hd) as (cert & Hl & Hn).
  rewrite Hl. unfold handleCert; simpl.
  destruct (SecretType s); simpl; try (split; [reflexivity|constructor]).
  unfold sender_forward.
  assert (Hack : exists (resp0 : DiscoveryResponse) s0 cert0,
             RecvResponse resp0 ∈ [RecvResponse resp]
             /\ match Resources resp0 with
                | [] => None
                | first :: _ =>
                    match UnmarshalTo first with inr s1 => Some s1 | inl _ => None end
                end = Some s0
             /\ cert0 ∈ certs c /\ Name cert0 = SecretName s0
             /\ {| TypeUrl := typeUrl; VersionInfo := RespVersionInfo resp;
                   ResourceNames := [Name cert]; NodeMetadata := None |}
                = ack_of resp0 s0).
  { exists resp, s, cert. rewrite Hres, Hun.
    split; [apply list_elem_of_singleton; reflexivity|]. split; [reflexivity|].
    split; [eapply list_elem_of_lookup_2; exact Hl|]. split; [exact Hn|].
    unfold ack_of. rewrite Hn. reflexivity. }
  destruct (sendErr se _); simpl; (split; [reflexivity|]);
    repeat constructor; exact Hack.
Qed.

Lemma acknowledges_mono cs (l1 l2 : list recv_input) req :
  l1 ⊆ l2 -> acknowledges cs l1 req -> acknowledges cs l2 req.
Proof.
  intros Hsub (resp & s & cert & Hin & H). exists resp, s, cert.
  split; [apply Hsub, Hin|exact H].
Qed.

Lemma serve_sent se (inputs : list recv_input) :
  forall (c : CertDXgRPCClient),
    let res := serve se (make_dispatch (certs c) 0 ∅) c inputs in
    certs (snd (fst res)) = certs c
    /\ Forall (acknowledges (certs c) inputs) (sent (snd res)).
Proof.
  induction inputs as [|input rest IH]; intros c; cbv zeta.
  - simpl. split; [reflexivity|constructor].
  - pose proof (serve_one_sent se c input) as [Hc1 H1]. cbv zeta in Hc1, H1.
    assert (Hhead : Forall (acknowledges (certs c) (input :: rest))
                      (sent (snd (serve_one se (make_dispatch (certs c) 0 ∅) c input)))).
    { eapply Forall_impl; [exact H1|]. intros req. apply acknowledges_mono.
      intros x Hx. apply list_elem_of_singleton in Hx as ->. left. }
    assert (Hgen :
      let '(r, c', tr) := serve_one se (make_dispatch (certs c) 0 ∅) c input in
      let res := match r with
                 | Returned None =>
                     let '(r', c'', tr') := serve se (make_dispatch (certs c) 0 ∅) c' rest in
                     (r', c'', tr ++ tr')
                 | _ => (r, c', tr)
                 end in
      certs (snd (fst res)) = certs c
      /\ Forall (acknowledges (certs c) (input :: rest)) (sent (snd res))).
    { destruct (serve_one se (make_dispatch (certs c) 0 ∅) c input) as [[r c'] tr] eqn:Hs1.
      simpl in Hc1, Hhead.
      destruct r as [[msg|]|]; simpl; try (split; assumption).
      specialize (IH c'). cbv zeta in IH. rewrite Hc1 in IH.
      destruct (serve se (make_dispatch (certs c) 0 ∅) c' rest) as [[r' c''] tr'].
      simpl in *. destruct IH as [Hc2 H2]. split; [exact Hc2|].
      rewrite sent_app. apply Forall_app. split; [exact Hhead|].
      eapply Forall_impl; [exact H2|]. intros req. apply acknowledges_mono.
      intros x Hx. right. exact Hx. }
    destruct input as [| |resp]; cbn [Sds.serve].
    + split; [exact Hc1|exact Hhead].
    + revert Hgen.
      destruct (serve_one se (make_dispatch (certs c) 0 ∅) c (RecvError err))
        as [[[[msg|]|] c'] tr]; intros Hgen; exact Hgen.
    + revert Hgen.
      destruct (serve_one se (make_dispatch (certs c) 0 ∅) c (RecvResponse resp))
        as [[[[msg|]|] c'] tr]; intros Hgen; exact Hgen.
Qed.

Lemma serve_one_unknown_name se (c : CertDXgRPCClient) (resp : DiscoveryResponse) s :
  decoded resp = Some s ->
  SecretName s ∉ map Name (certs c) ->
  let msg := String.append "unexcepted cert: " (SecretName s) in
  receive (make_dispatch (certs c) 0 ∅) c (RecvResponse resp)
  = (RecvReported msg, swap_Received c,
     [SwapReceived (Received c) (S (Received c)); ErrChanSend msg])
  /\ serve_one se (make_dispatch (certs c) 0 ∅) c (RecvResponse resp)
     = (Returned (Some msg), swap_Received c,
        [SwapReceived (Received c) (S (Received c)); ErrChanSend msg]).
Proof.
  intros Hdec Hn msg.
  assert (Hr : receive (make_dispatch (certs c) 0 ∅) c (RecvResponse resp)
               = (RecvReported msg, swap_Received c,
                  [SwapReceived (Received c) (S (Received c)); ErrChanSend msg])).
  { unfold Sds.decoded in Hdec. simpl.
    destruct (Resources resp) as [|a l]; [discriminate|].
    destruct (UnmarshalTo a) as [e|s']; [discriminate|].
    injection Hdec as ->.
    rewrite make_dispatch_absent by exact Hn. rewrite lookup_empty. reflexivity. }
  split; [exact Hr|]. unfold Sds.serve_one. rewrite Hr. reflexivity.
Qed.

(** C7. A response whose decoded secret carries a name that no registered
    certificate has makes the receiver put a protocol error on the error
    channel and return: nothing is dispatched, no update channel receives
    material, the rest of the inbound traffic is not read, and [Stream]
    returns that error. *)
Theorem unknown_name_ends_stream se (c : CertDXgRPCClient) (resp : DiscoveryResponse)
    (s : Secret) (rest : list recv_input) :
  decoded resp = Some s ->
  SecretName s ∉ map Name (certs c) ->
  let dispatch := make_dispatch (certs c) 0 ∅ in
  let msg := String.append "unexcepted cert: " (SecretName s) in
  let tr := [SwapReceived (Received c) (S (Received c)); ErrChanSend msg] in
  receive dispatch c (RecvResponse resp) = (RecvReported msg, swap_Received c, tr)
  /\ serve se dispatch c (RecvResponse resp :: rest)
     = (Returned (Some msg), swap_Received c, tr)
  /\ updates tr = [] /\ reports tr = [msg]
  /\ (forall io,
        Kill c = [] -> newClientErr io = None -> streamSecretsErr io = None ->
        fst (sender_start (sending io) (certs c)) = None ->
        inbound io = RecvResponse resp :: rest ->
        fst (fst (Stream c io)) = Returned (Some (other_error msg))
        /\ updates (snd (Stream c io)) = []).
Proof.
  intros Hdec Hn dispatch msg tr.
  destruct (serve_one_unknown_name se c resp s Hdec Hn) as [Hr H1].
  assert (Hs : forall se', serve se' dispatch c (RecvResponse resp :: rest)
                           = (Returned (Some msg), swap_Received c, tr)).
  { intros se'. cbn [Sds.serve].
    destruct (serve_one_unknown_name se' c resp s Hdec Hn) as [_ H1'].
    unfold dispatch. rewrite H1'. reflexivity. }
  split; [exact Hr|]. split; [apply Hs|]. split; [reflexivity|]. split; [reflexivity|].
  intros io Hk Hnc Hss Hst Hin. unfold Sds.Stream.
  rewrite Hk, Hnc, Hss.
  pose proof (updates_sender_start (sending io) (certs c)) as Hus.
  destruct (sender_start (sending io) (certs (set_Running c true))) as [s0 tr_s] eqn:Hstart.
  simpl in Hst, Hus. change (certs (set_Running c true)) with (certs c) in Hstart.
  rewrite Hstart in Hst, Hus. simpl in Hst, Hus. subst s0.
  rewrite Hin.
  change (make_dispatch (certs (set_Running c true)) 0 ∅) with dispatch.
  assert (Hs' : serve (sending io) dispatch (set_Running c true) (RecvResponse resp :: rest)
                = (Returned (Some msg), swap_Received (set_Running c true), tr)).
  { cbn [Sds.serve].
    destruct (serve_one_unknown_name (sending io) (set_Running c true) resp s Hdec Hn)
      as [_ H'].
    change (certs (set_Running c true)) with (certs c) in H'.
    change (Received (set_Running c true)) with (Received c) in H'.
    unfold dispatch, tr, msg. rewrite H'. reflexivity. }
  rewrite Hs'. simpl. split; [reflexivity|].
  rewrite !updates_app, updates_go_handlers, Hus. reflexivity.
Qed.

(** C8. Every request [Stream] puts on the wire after the first one is an
    acknowledgment built by a handler from a response that was received: its
    only resource name is the name of that handler's certificate, which is
    the name in the response, and its version is the version of that
    response. *)
Theorem acks_answer_responses (c : CertDXgRPCClient) (io : stream_env Any) :
  (sent (snd (Stream c io)) = []
   \/ exists acks, sent (snd (Stream c io)) = packReq (certs c) :: acks
                   /\ Forall (acknowledges (certs c) (inbound io)) acks)
  /\ (forall req, acknowledges (certs c) (inbound io) req ->
        exists resp s cert,
          RecvResponse resp ∈ inbound io /\ decoded resp = Some s
          /\ cert ∈ certs c /\ Name cert = SecretName s
          /\ TypeUrl req = typeUrl
          /\ ResourceNames req = [Name cert]
          /\ ResourceNames req = [SecretName s]
          /\ VersionInfo req = RespVersionInfo resp).
Proof.
  split.
  - unfold Sds.Stream.
    destruct (Kill c) as [|u pending]; [|left; reflexivity].
    destruct (newClientErr io); [left; reflexivity|].
    destruct (streamSecretsErr io); [left; reflexivity|].
    pose proof (sent_sender_start (sending io) (certs c)) as Hss.
    change (certs (set_Running c true)) with (certs c).
    destruct (sender_start (sending io) (certs c)) as [s0 tr_s] eqn:Hstart.
    simpl in Hss.
    pose proof (serve_sent (sending io) (inbound io) (set_Running c true)) as Hsv.
    cbv zeta in Hsv. change (certs (set_Running c true)) with (certs c) in Hsv.
    destruct s0 as [msg|].
    + (* the sender reported before any acknowledgment *)
      simpl. rewrite !sent_app, sent_go_handlers. simpl. rewrite app_nil_r.
      destruct Hss as [-> | ->]; [left; reflexivity|right].
      exists []. split; [reflexivity|constructor].
    + assert (Hfirst : sent tr_s = [packReq (certs c)]).
      { unfold sender_start in Hstart. destruct (newStructErr (sending io)); [discriminate|].
        destruct (sendErr (sending io) (packReq (certs c))); [discriminate|].
        injection Hstart as <-. reflexivity. }
      destruct (serve (sending io) (make_dispatch (certs c) 0 ∅) (set_Running c true)
                  (inbound io)) as [[r c2] tr_r].
      simpl in Hsv. destruct Hsv as [_ Hacks].
      right. exists (sent tr_r). split; [|exact Hacks].
      destruct r as [fault|]; simpl;
        rewrite ?sent_app, ?sent_go_handlers, ?Hfirst; simpl;
        rewrite ?sent_app, ?app_nil_r; reflexivity.
  - intros req (resp & s & cert & Hin & Hdec & Hc & Hn & ->).
    exists resp, s, cert. unfold ack_of; simpl. rewrite Hn. auto 10.
Qed.

Lemma serve_never_panics se (inputs : list recv_input) :
  forall dispatch (c : CertDXgRPCClient),
    Forall (fun resp : DiscoveryResponse => Resources resp <> []) (responses inputs) ->
    fst (fst (serve se dispatch c inputs)) <> Panicked.
Proof.
  induction inputs as [|input rest IH]; intros dispatch c Hall; [discriminate|].
  assert (H1 : fst (fst (serve_one se dispatch c input)) <> Panicked).
  { unfold Sds.serve_one. destruct input as [| |resp]; simpl; try discriminate.
    simpl in Hall. apply Forall_cons in Hall as [Hne _].
    destruct (Resources resp) as [|a l]; [congruence|].
    destruct (UnmarshalTo a) as [e|s]; [discriminate|].
    destruct (dispatch !! SecretName s) as [ch|]; [|discriminate]. simpl.
    destruct (certs c !! ch) as [cert|]; [|discriminate].
    destruct (handleCert ch cert _) as [[m|ack] tr_h]; [discriminate|].
    destruct (sender_forward se ack); discriminate. }
  assert (Hrest : Forall (fun resp : DiscoveryResponse => Resources resp <> [])
                    (responses rest)).
  { destruct input; simpl in Hall; try exact Hall.
    apply Forall_cons in Hall as [_ Hall]. exact Hall. }
  destruct input as [| |resp]; cbn [Sds.serve]; [exact H1| |];
    (destruct (serve_one se dispatch c _) as [[[[m|]|] c'] tr];
       [discriminate| |exfalso; apply H1; reflexivity];
     specialize (IH dispatch c' Hrest);
     destruct (serve se dispatch c' rest) as [[r' c''] tr']; exact IH).
Qed.

(** C10. The receiver takes the first element of the resource list without
    looking at the length: on a response it panics exactly when the list is
    empty, and then nothing reaches the error channel; with at least one
    resource its turn ends in a dispatch or in a report on the error channel,
    so that a run over responses that all carry a resource never panics. *)
Theorem receive_needs_a_resource se dispatch (c : CertDXgRPCClient)
    (resp : DiscoveryResponse) :
  (fst (fst (receive dispatch c (RecvResponse resp))) = RecvPanicked
   <-> Resources resp = [])
  /\ (Resources resp = [] ->
      reports (snd (receive dispatch c (RecvResponse resp))) = []
      /\ forall rest, fst (fst (serve se dispatch c (RecvResponse resp :: rest))) = Panicked)
  /\ (Resources resp <> [] ->
      (exists msg, fst (fst (receive dispatch c (RecvResponse resp))) = RecvReported msg
                   /\ reports (snd (receive dispatch c (RecvResponse resp))) = [msg])
      \/ (exists ch d, fst (fst (receive dispatch c (RecvResponse resp)))
                       = RecvDispatched ch d))
  /\ (forall inputs,
        Forall (fun r : DiscoveryResponse => Resources r <> []) (responses inputs) ->
        fst (fst (serve se dispatch c inputs)) <> Panicked).
Proof.
  split; [|split; [|split]].
  - simpl. destruct (Resources resp) as [|a l]; [split; reflexivity|].
    destruct (UnmarshalTo a) as [e|s]; [split; discriminate|].
    destruct (dispatch !! SecretName s); split; discriminate.
  - intros Hnil. split.
    + simpl. rewrite Hnil. reflexivity.
    + intros rest. cbn [Sds.serve]. unfold Sds.serve_one. simpl. rewrite Hnil.
      reflexivity.
  - intros Hne. simpl. destruct (Resources resp) as [|a l]; [congruence|].
    destruct (UnmarshalTo a) as [e|s]; [left; eauto|].
    destruct (dispatch !! SecretName s); [right; eauto|left; eauto].
  - intros inputs. apply serve_never_panics.
Qed.

(** Where [Stream] leaves the [Running] flag, path by path: a pending kill
    leaves it as it was, a failing [grpc.NewClient] leaves it set, every
    later return clears it. *)
Lemma Stream_Running (c : CertDXgRPCClient) (io : stream_env Any) :
  match Kill c, newClientErr io with
  | _ :: _, _ => Running (snd (fst (Stream c io))) = Running c
  | [], Some _ => Running (snd (fst (Stream c io))) = true
  | [], None =>
      fst (fst (Stream c io)) <> Panicked ->
      Running (snd (fst (Stream c io))) = false
  end.
Proof.
  unfold Sds.Stream. destruct (Kill c) as [|u pending]; [|reflexivity].
  destruct (newClientErr io); [reflexivity|].
  destruct (streamSecretsErr io); [reflexivity|].
  destruct (sender_start _ _) as [[msg|] tr_s]; [reflexivity|].
  destruct (serve _ _ _ _) as [[[fault|] c2] tr_r]; [reflexivity|].
  intros H; exfalso; apply H; reflexivity.
Qed.

End WithWire.

(** The whole of a stream that receives version "7" of certificate "web". *)
Example stream_one_update :
  Sds.Stream wire wire_UnmarshalTo client0
    (io_of [RecvResponse (response_for "web" "7")])
  = (Returned (Some (other_error "context canceled")),
     {| server := {| GRPCServer := "main.example:443" |}; certs := [web];
        Kill := []; Running := false; Received := 1; ReceivedClosed := [0%nat] |},
     [StoreRunning true; NewClient "main.example:443"; StreamSecrets;
      GoHandleCert 0 "web";
      StreamSend (packReq [web]);
      SwapReceived 0 1;
      RespChanSend 0 {| Version := "7"; RSecret := secret_named "web" |};
      UpdateChanSend 0 {| Watch.Domains := ["example.com"];
                          Watch.Fullchain := [x43; x31]; Watch.Key := [x4b; x31] |};
      AckChanSend {| TypeUrl := typeUrl; VersionInfo := "7";
                     ResourceNames := ["web"]; NodeMetadata := None |};
      StreamSend {| TypeUrl := typeUrl; VersionInfo := "7";
                    ResourceNames := ["web"]; NodeMetadata := None |};
      ConnClose; StoreRunning false]).
Proof. vm_compute. reflexivity. Qed.

Lemma unknown_name_ends_stream_witness :
  Sds.decoded wire wire_UnmarshalTo (response_for "mail" "7") = Some (secret_named "mail")
  /\ ("mail" ∉ map Name (certs client0))
  /\ Sds.serve wire wire_UnmarshalTo quiet (make_dispatch [web] 0 ∅) client0
       [RecvResponse (response_for "mail" "7"); RecvResponse (response_for "web" "8")]
     = (Returned (Some "unexcepted cert: mail"), swap_Received client0,
        [SwapReceived 0 1; ErrChanSend "unexcepted cert: mail"]).
Proof.
  assert (Hn : "mail" ∉ map Name (certs client0)).
  { simpl. intros H. apply list_elem_of_singleton in H. discriminate. }
  split; [reflexivity|]. split; [exact Hn|].
  exact (proj1 (proj2 (unknown_name_ends_stream wire wire_UnmarshalTo quiet client0
                         (response_for "mail" "7") (secret_named "mail")
                         [RecvResponse (response_for "web" "8")] eq_refl Hn))).
Defined.

Lemma acks_answer_responses_witness :
  sent (snd (Sds.Stream wire wire_UnmarshalTo client0
               (io_of [RecvResponse (response_for "web" "7")]))) = []
  \/ exists acks,
       sent (snd (Sds.Stream wire wire_UnmarshalTo client0
                    (io_of [RecvResponse (response_for "web" "7")])))
       = packReq [web] :: acks
       /\ Forall (acknowledges wire wire_UnmarshalTo [web]
                    [RecvResponse (response_for "web" "7")]) acks.
Proof.
  exact (proj1 (acks_answer_responses wire wire_UnmarshalTo client0
                  (io_of [RecvResponse (response_for "web" "7")]))).
Defined.

Lemma receive_needs_a_resource_witness :
  fst (fst (Sds.receive wire wire_UnmarshalTo (make_dispatch [web] 0 ∅) client0
              (RecvResponse {| RespVersionInfo := "7"; Resources := [] |})))
  = RecvPanicked.
Proof.
  apply (proj1 (receive_needs_a_resource wire wire_UnmarshalTo quiet
                  (make_dispatch [web] 0 ∅) client0
                  {| RespVersionInfo := "7"; Resources := [] |})).
  reflexivity.
Defined.

(** C9 does not hold of the code: [Running] is set before [grpc.NewClient],
    and the return on its failure comes before the deferred function that
    clears the flag is registered.  Here the client is fresh, no kill is
    pending and [grpc.NewClient] fails: [Stream] has returned an error that
    is not the kill sentinel, and the flag is still set. *)
Theorem Stream_NewClient_failure_leaves_Running :
  Sds.Stream wire wire_UnmarshalTo client0
    {| newClientErr := Some "invalid target"; streamSecretsErr := None;
       sending := quiet; inbound := []; ending := KillReceived |}
  = (Returned (Some (other_error "new grpc client failed: invalid target")),
     {| server := {| GRPCServer := "main.example:443" |}; certs := [web];
        Kill := []; Running := true; Received := 0; ReceivedClosed := [] |},
     [StoreRunning true; NewClient "main.example:443"])
  /\ Running client0 = false.
Proof. split; reflexivity. Qed.

(** The sibling path: when it is [StreamSecrets] that fails, the deferred
    function has been registered and the flag is cleared. *)
Example Stream_StreamSecrets_failure_clears_Running :
  Running (snd (fst (Sds.Stream wire wire_UnmarshalTo client0
    {| newClientErr := None; streamSecretsErr := Some "connection refused";
       sending := quiet; inbound := []; ending := KillReceived |}))) = false.
Proof. reflexivity. Qed.

End SdsFacts.
(** ** The failover loops *)

Module FailoverFacts.
Import Sds Failover Scenario.

(** The counter of a loop stays far from the point where [int] wraps. *)
Lemma int_add_1 (retryCount : Z) :
  0 <= retryCount < 2 ^ 63 - 1 -> int_add retryCount 1 = retryCount + 1.
Proof.
  unfold int_add, int_wrap. intros H.
  change (2 ^ 63) with 9223372036854775808 in *.
  change (2 ^ 64) with 18446744073709551616.
  rewrite Z.mod_small; lia.
Qed.

Lemma sleeps_app tr1 tr2 : sleeps (tr1 ++ tr2) = sleeps tr1 ++ sleeps tr2.
Proof. apply omap_app. Qed.

Lemma reconnect_waits_app tr1 tr2 :
  reconnect_waits (tr1 ++ tr2) = reconnect_waits tr1 ++ reconnect_waits tr2.
Proof. apply omap_app. Qed.

Lemma logged_counts_app tr1 tr2 :
  logged_counts (tr1 ++ tr2) = logged_counts tr1 ++ logged_counts tr2.
Proof. apply omap_app. Qed.

(** The stream itself neither sleeps, nor waits for a reconnect, nor logs a
    count. *)
Lemma quiet_InStream (tr : list Sds.event) :
  sleeps (map InStream tr) = [] /\ reconnect_waits (map InStream tr) = []
  /\ logged_counts (map InStream tr) = [].
Proof. induction tr as [|e tr (IH1 & IH2 & IH3)]; simpl; auto. Qed.

Lemma quiet_stopped r tr_s err :
  sleeps (stopped r tr_s err) = [] /\ reconnect_waits (stopped r tr_s err) = []
  /\ logged_counts (stopped r tr_s err) = [].
Proof.
  unfold stopped. destruct (quiet_InStream tr_s) as (H1 & H2 & H3).
  cbn [sleeps reconnect_waits logged_counts omap list_omap].
  fold (sleeps (map InStream tr_s ++ [InfoStopped r err])).
  fold (reconnect_waits (map InStream tr_s ++ [InfoStopped r err])).
  fold (logged_counts (map InStream tr_s ++ [InfoStopped r err])).
  rewrite sleeps_app, reconnect_waits_app, logged_counts_app, H1, H2, H3.
  auto.
Qed.

Lemma main_threshold_below {Any} cfg (t : main_turn Any) n :
  n < RetryCount (Server cfg) ->
  main_threshold Any cfg t n = (Again n, [InfoRetryCount Main n; Sleep (15 * Second)]).
Proof.
  intros H. unfold main_threshold.
  destruct (Z.ltb_spec n (RetryCount (Server cfg))); [reflexivity|lia].
Qed.

Lemma main_threshold_spent {Any} cfg (t : main_turn Any) n :
  RetryCount (Server cfg) <= n ->
  exists tr_go,
    main_threshold Any cfg t n
    = (if m_timer t then Again 0 else Exit,
       [InfoRetryCount Main n] ++ tr_go
       ++ [InfoWillReconnect Main; AfterReconnect (ReconnectDuration (Server cfg))])
    /\ (tr_go = [] \/ tr_go = [GoStandbyLoop; GoForwardKill]).
Proof.
  intros H. unfold main_threshold.
  destruct (Z.ltb_spec n (RetryCount (Server cfg))); [lia|].
  destruct (standByExists cfg && negb (m_standbyRunning t)).
  - exists [GoStandbyLoop; GoForwardKill]. destruct (m_timer t); auto.
  - exists []. destruct (m_timer t); auto.
Qed.

Lemma main_threshold_logs {Any} cfg (t : main_turn Any) n :
  logged_counts (snd (main_threshold Any cfg t n)) = [n].
Proof.
  destruct (Z.lt_ge_cases n (RetryCount (Server cfg))) as [H|H].
  - rewrite main_threshold_below by exact H. reflexivity.
  - destruct (main_threshold_spent cfg t n H) as (tr_go & -> & [-> | ->]); reflexivity.
Qed.

Lemma main_threshold_next {Any} cfg (t : main_turn Any) n n' :
  fst (main_threshold Any cfg t n) = Again n' -> n' = n \/ n' = 0.
Proof.
  destruct (Z.lt_ge_cases n (RetryCount (Server cfg))) as [H|H].
  - rewrite main_threshold_below by exact H. simpl. intros [= <-]. auto.
  - destruct (main_threshold_spent cfg t n H) as (tr_go & -> & _). simpl.
    destruct (m_timer t); [intros [= <-]; auto|discriminate].
Qed.

Section WithWire.

Variable Any : Type.
Variable UnmarshalTo : Any -> string + Secret.

Abbreviation Stream := (Stream Any UnmarshalTo).
Abbreviation main_turn := (main_turn Any).
Abbreviation standby_turn := (standby_turn Any).
Abbreviation main_threshold := (main_threshold Any).
Abbreviation main_step := (main_step Any UnmarshalTo).
Abbreviation standby_step := (standby_step Any UnmarshalTo).
Abbreviation main_loop := (main_loop Any UnmarshalTo).
Abbreviation standby_loop := (standby_loop Any UnmarshalTo).

(** *** The main loop, case by case *)

Lemma main_step_killed cfg retryCount c (t : main_turn) e c' tr_s :
  Stream c (m_io t) = (Returned (Some (killed e)), c', tr_s) ->
  main_step cfg retryCount c t = (Exit, c', stopped Main tr_s (Some (killed e))).
Proof. intros H. unfold Failover.main_step. rewrite H. reflexivity. Qed.

Lemma main_step_late cfg retryCount c (t : main_turn) msg c' tr_s :
  Stream c (m_io t) = (Returned (Some (other_error msg)), c', tr_s) ->
  in_window (m_startTime t) (m_now t) = false ->
  main_step cfg retryCount c t = (Again 0, c', stopped Main tr_s (Some (other_error msg))).
Proof. intros H Hw. unfold Failover.main_step. rewrite H, Hw. reflexivity. Qed.

Lemma main_step_in_window cfg retryCount c (t : main_turn) msg c' tr_s :
  Stream c (m_io t) = (Returned (Some (other_error msg)), c', tr_s) ->
  in_window (m_startTime t) (m_now t) = true ->
  main_step cfg retryCount c t
  = (fst (main_threshold cfg t (int_add retryCount 1)), c',
     stopped Main tr_s (Some (other_error msg))
     ++ snd (main_threshold cfg t (int_add retryCount 1))).
Proof.
  intros H Hw. unfold Failover.main_step. rewrite H, Hw.
  destruct (main_threshold cfg t (int_add retryCount 1)). reflexivity.
Qed.

(** *** The standby loop, case by case *)

Lemma standby_step_killed cfg startTime retryCount c (t : standby_turn) e c' tr_s :
  Stream c (s_io t) = (Returned (Some (killed e)), c', tr_s) ->
  standby_step cfg startTime retryCount c t
  = (Exit, c', stopped Standby tr_s (Some (killed e))).
Proof. intros H. unfold Failover.standby_step. rewrite H. reflexivity. Qed.

Lemma standby_step_late cfg startTime retryCount c (t : standby_turn) msg c' tr_s :
  Stream c (s_io t) = (Returned (Some (other_error msg)), c', tr_s) ->
  in_window startTime (s_now t) = false ->
  standby_step cfg startTime retryCount c t
  = (Again 0, c', stopped Standby tr_s (Some (other_error msg))).
Proof. intros H Hw. unfold Failover.standby_step. rewrite H, Hw. reflexivity. Qed.

Lemma standby_step_below cfg startTime retryCount c (t : standby_turn) msg c' tr_s :
  Stream c (s_io t) = (Returned (Some (other_error msg)), c', tr_s) ->
  in_window startTime (s_now t) = true ->
  int_add retryCount 1 < RetryCount (Server cfg) ->
  standby_step cfg startTime retryCount c t
  = (Again (int_add retryCount 1), c',
     stopped Standby tr_s (Some (other_error msg))
     ++ [InfoRetryCount Standby (int_add retryCount 1); Sleep (15 * Second)]).
Proof.
  intros H Hw Hlt. unfold Failover.standby_step. rewrite H, Hw.
  destruct (Z.ltb_spec (int_add retryCount 1) (RetryCount (Server cfg))); [|lia].
  unfold stopped. simpl. rewrite <- ?app_assoc. reflexivity.
Qed.

Lemma standby_step_spent cfg startTime retryCount c (t : standby_turn) msg c' tr_s :
  Stream c (s_io t) = (Returned (Some (other_error msg)), c', tr_s) ->
  in_window startTime (s_now t) = true ->
  RetryCount (Server cfg) <= int_add retryCount 1 ->
  standby_step cfg startTime retryCount c t
  = (Again 0, c',
     stopped Standby tr_s (Some (other_error msg))
     ++ [InfoRetryCount Standby (int_add retryCount 1); InfoWillReconnect Standby;
         AfterReconnect (ReconnectDuration (Server cfg))]).
Proof.
  intros H Hw Hge. unfold Failover.standby_step. rewrite H, Hw.
  destruct (Z.ltb_spec (int_add retryCount 1) (RetryCount (Server cfg))); [lia|].
  unfold stopped. simpl. rewrite <- ?app_assoc. reflexivity.
Qed.

Lemma in_window_later startTime cycleStart now :
  startTime <= cycleStart -> in_window startTime now = true ->
  in_window cycleStart now = true.
Proof. unfold in_window. intros H1 H2. apply Z.ltb_lt in H2. apply Z.ltb_lt. lia. Qed.

Lemma in_window_earlier startTime cycleStart now :
  startTime <= cycleStart -> in_window cycleStart now = false ->
  in_window startTime now = false.
Proof.
  unfold in_window. intros H1 H2. apply Z.ltb_ge in H2. apply Z.ltb_ge. lia.
Qed.

(** The counters stay between 0 and the budget, so the increment never
    wraps. *)
Lemma main_step_counter cfg retryCount c (t : main_turn) retryCount' c' tr :
  RetryCount (Server cfg) <= 2 ^ 63 - 1 ->
  0 <= retryCount < 2 ^ 63 - 1 ->
  main_step cfg retryCount c t = (Again retryCount', c', tr) ->
  0 <= retryCount' < 2 ^ 63 - 1.
Proof.
  intros Hmax Hrc. unfold Failover.main_step.
  change (2 ^ 63) with 9223372036854775808 in Hmax.
  destruct (Stream c (m_io t)) as [[r c1] tr_s].
  destruct r as [[[e|msg]|]|]; try discriminate.
  - destruct (in_window (m_startTime t) (m_now t)); [|intros [= <- _ _]; lia].
    rewrite int_add_1 by exact Hrc.
    destruct (Z.lt_ge_cases (retryCount + 1) (RetryCount (Server cfg))) as [Hlt|Hge].
    + rewrite main_threshold_below by exact Hlt. intros [= <- _ _]. lia.
    + destruct (main_threshold_spent cfg t (retryCount + 1) Hge) as (tr_go & -> & _).
      destruct (m_timer t); [intros [= <- _ _]; lia|discriminate].
  - destruct (Z.lt_ge_cases retryCount (RetryCount (Server cfg))) as [Hlt|Hge].
    + rewrite main_threshold_below by exact Hlt. intros [= <- _ _]. lia.
    + destruct (main_threshold_spent cfg t retryCount Hge) as (tr_go & -> & _).
      destruct (m_timer t); [intros [= <- _ _]; lia|discriminate].
Qed.

Lemma standby_step_counter cfg startTime retryCount c (t : standby_turn)
    retryCount' c' tr :
  RetryCount (Server cfg) <= 2 ^ 63 - 1 ->
  0 <= retryCount < 2 ^ 63 - 1 ->
  standby_step cfg startTime retryCount c t = (Again retryCount', c', tr) ->
  0 <= retryCount' < 2 ^ 63 - 1.
Proof.
  intros Hmax Hrc. unfold Failover.standby_step.
  change (2 ^ 63) with 9223372036854775808 in Hmax.
  destruct (Stream c (s_io t)) as [[r c1] tr_s].
  destruct r as [err|]; [|discriminate].
  assert (Hgo :
    (if in_window startTime (s_now t)
     then
       let retryCount'0 := int_add retryCount 1 in
       let tr2 := (InfoStarting Standby :: map InStream tr_s ++ [InfoStopped Standby err])
                  ++ [InfoRetryCount Standby retryCount'0] in
       if retryCount'0 <? RetryCount (Server cfg)
       then (Again retryCount'0, c1, tr2 ++ [Sleep (15 * Second)])
       else (Again 0, c1,
             tr2 ++ [InfoWillReconnect Standby;
                     AfterReconnect (ReconnectDuration (Server cfg))])
     else (Again 0, c1,
           InfoStarting Standby :: map InStream tr_s ++ [InfoStopped Standby err]))
    = (Again retryCount', c', tr) -> 0 <= retryCount' < 9223372036854775808 - 1).
  { destruct (in_window startTime (s_now t)); [|intros [= <- _ _]; lia].
    cbv zeta. rewrite int_add_1 by exact Hrc.
    destruct (Z.ltb_spec (retryCount + 1) (RetryCount (Server cfg)));
      intros [= <- _ _]; lia. }
  destruct err as [[e|msg]|]; [discriminate|exact Hgo|exact Hgo].
Qed.

Lemma main_loop_counter cfg (turns : list main_turn) :
  RetryCount (Server cfg) <= 2 ^ 63 - 1 ->
  forall retryCount c retryCount' c' tr,
    0 <= retryCount < 2 ^ 63 - 1 ->
    main_loop cfg turns retryCount c = (Again retryCount', c', tr) ->
    0 <= retryCount' < 2 ^ 63 - 1.
Proof.
  intros Hmax. induction turns as [|t rest IH]; intros rc c rc' c' tr Hrc.
  - simpl. intros [= <- _ _]. exact Hrc.
  - cbn [Failover.main_loop].
    pose proof (main_step_counter cfg rc c t) as Hstep.
    destruct (Failover.main_step Any UnmarshalTo cfg rc c t) as [[n c1] tr1].
    destruct n as [|rc1|]; try discriminate.
    specialize (Hstep rc1 c1 tr1 Hmax Hrc eq_refl).
    specialize (IH rc1 c1).
    destruct (Failover.main_loop Any UnmarshalTo cfg rest rc1 c1) as [[n2 c2] tr2].
    intros [= -> _ _]. exact (IH rc' c2 tr2 Hstep eq_refl).
Qed.

Lemma standby_loop_counter cfg startTime (turns : list standby_turn) :
  RetryCount (Server cfg) <= 2 ^ 63 - 1 ->
  forall retryCount c retryCount' c' tr,
    0 <= retryCount < 2 ^ 63 - 1 ->
    standby_loop cfg startTime turns retryCount c = (Again retryCount', c', tr) ->
    0 <= retryCount' < 2 ^ 63 - 1.
Proof.
  intros Hmax. induction turns as [|t rest IH]; intros rc c rc' c' tr Hrc.
  - simpl. intros [= <- _ _]. exact Hrc.
  - cbn [Failover.standby_loop].
    pose proof (standby_step_counter cfg startTime rc c t) as Hstep.
    destruct (Failover.standby_step Any UnmarshalTo cfg startTime rc c t) as [[n c1] tr1].
    destruct n as [|rc1|]; try discriminate.
    specialize (Hstep rc1 c1 tr1 Hmax Hrc eq_refl).
    specialize (IH rc1 c1).
    destruct (Failover.standby_loop Any UnmarshalTo cfg startTime rest rc1 c1)
      as [[n2 c2] tr2].
    intros [= -> _ _]. exact (IH rc' c2 tr2 Hstep eq_refl).
Qed.


(** C5, as the code has it.  [Stream] looks at its kill channel before
    anything else: with a kill pending it returns the sentinel, having done
    nothing but consume that kill.  When [Stream] returns the sentinel, the
    loop that called it returns: no count is logged, no sleep, no reconnect
    wait.  Any other error that ended inside the 5-minute window, with the
    incremented counter below the retry budget, is followed by exactly one
    sleep of 15 seconds and a new turn of the loop. *)
Theorem killed_exits_others_back_off cfg (retryCount : Z) :
  (forall c io u pending,
      Kill c = u :: pending ->
      Stream c io = (Returned (Some (killed "stream killed")), set_Kill c pending, []))
  /\ (forall c (t : main_turn) e c' tr_s,
        Stream c (m_io t) = (Returned (Some (killed e)), c', tr_s) ->
        main_step cfg retryCount c t = (Exit, c', stopped Main tr_s (Some (killed e)))
        /\ sleeps (snd (main_step cfg retryCount c t)) = []
        /\ reconnect_waits (snd (main_step cfg retryCount c t)) = []
        /\ logged_counts (snd (main_step cfg retryCount c t)) = [])
  /\ (forall startTime c (t : standby_turn) e c' tr_s,
        Stream c (s_io t) = (Returned (Some (killed e)), c', tr_s) ->
        standby_step cfg startTime retryCount c t
        = (Exit, c', stopped Standby tr_s (Some (killed e)))
        /\ sleeps (snd (standby_step cfg startTime retryCount c t)) = []
        /\ reconnect_waits (snd (standby_step cfg startTime retryCount c t)) = []
        /\ logged_counts (snd (standby_step cfg startTime retryCount c t)) = [])
  /\ (forall c (t : main_turn) msg c' tr_s,
        Stream c (m_io t) = (Returned (Some (other_error msg)), c', tr_s) ->
        in_window (m_startTime t) (m_now t) = true ->
        0 <= retryCount -> retryCount + 1 < RetryCount (Server cfg) ->
        RetryCount (Server cfg) <= 2 ^ 63 - 1 ->
        main_step cfg retryCount c t
        = (Again (retryCount + 1), c',
           stopped Main tr_s (Some (other_error msg))
           ++ [InfoRetryCount Main (retryCount + 1); Sleep (15 * Second)])
        /\ sleeps (snd (main_step cfg retryCount c t)) = [15 * Second]
        /\ reconnect_waits (snd (main_step cfg retryCount c t)) = [])
  /\ (forall startTime c (t : standby_turn) msg c' tr_s,
        Stream c (s_io t) = (Returned (Some (other_error msg)), c', tr_s) ->
        in_window startTime (s_now t) = true ->
        0 <= retryCount -> retryCount + 1 < RetryCount (Server cfg) ->
        RetryCount (Server cfg) <= 2 ^ 63 - 1 ->
        standby_step cfg startTime retryCount c t
        = (Again (retryCount + 1), c',
           stopped Standby tr_s (Some (other_error msg))
           ++ [InfoRetryCount Standby (retryCount + 1); Sleep (15 * Second)])
        /\ sleeps (snd (standby_step cfg startTime retryCount c t)) = [15 * Second]
        /\ reconnect_waits (snd (standby_step cfg startTime retryCount c t)) = []).
Proof.
  split; [|split; [|split; [|split]]].
  - intros c io u pending HK. unfold Sds.Stream. rewrite HK. reflexivity.
  - intros c t e c' tr_s HS. rewrite (main_step_killed cfg retryCount c t e c' tr_s HS).
    destruct (quiet_stopped Main tr_s (Some (killed e))) as (H1 & H2 & H3). auto.
  - intros startTime c t e c' tr_s HS.
    rewrite (standby_step_killed cfg startTime retryCount c t e c' tr_s HS).
    destruct (quiet_stopped Standby tr_s (Some (killed e))) as (H1 & H2 & H3). auto.
  - intros c t msg c' tr_s HS Hw H0 Hlt Hmax.
    assert (Hrc : 0 <= retryCount < 2 ^ 63 - 1) by lia.
    rewrite (main_step_in_window cfg retryCount c t msg c' tr_s HS Hw).
    rewrite int_add_1 by exact Hrc. rewrite main_threshold_below by exact Hlt.
    cbn [fst snd]. rewrite sleeps_app, reconnect_waits_app.
    destruct (quiet_stopped Main tr_s (Some (other_error msg))) as (-> & -> & _). auto.
  - intros startTime c t msg c' tr_s HS Hw H0 Hlt Hmax.
    assert (Hrc : 0 <= retryCount < 2 ^ 63 - 1) by lia.
    rewrite <- (int_add_1 retryCount Hrc) in Hlt.
    rewrite (standby_step_below cfg startTime retryCount c t msg c' tr_s HS Hw Hlt).
    rewrite int_add_1 by exact Hrc.
    cbn [fst snd]. rewrite sleeps_app, reconnect_waits_app.
    destruct (quiet_stopped Standby tr_s (Some (other_error msg))) as (-> & -> & _). auto.
Qed.

End WithWire.

(** The failing stream of the scenario. *)
Lemma Stream_broken :
  Sds.Stream wire wire_UnmarshalTo client0 broken
  = (Returned (Some (other_error "failed receiving request: unavailable")),
     client0,
     [StoreRunning true; NewClient "main.example:443"; StreamSecrets;
      GoHandleCert 0 "web"; StreamSend (packReq [web]);
      ErrChanSend "failed receiving request: unavailable";
      ConnClose; StoreRunning false]).
Proof. reflexivity. Qed.


(** The window of the standby loop opens when the loop starts, not with each
    attempt: an attempt that began 5 minutes and a half after the loop was
    started and failed 30 seconds later resets the counter, however short it
    was. *)
Example standby_window_opens_once :
  Failover.standby_step wire wire_UnmarshalTo cfg3 0 1 client0
    (standby_turn_at (6 * Minute))
  = (Again 0, client0, broken_trace Standby).
Proof. reflexivity. Qed.

Lemma killed_exits_others_back_off_witness :
  Kill client_killed = [tt]
  /\ Sds.Stream wire wire_UnmarshalTo client_killed broken
     = (Returned (Some (killed "stream killed")), client0, [])
  /\ Failover.main_step wire wire_UnmarshalTo cfg3 1 client_killed (main_turn_at 0 0)
     = (Exit, client0, [InfoStarting Main;
                        InfoStopped Main (Some (killed "stream killed"))])
  /\ Failover.main_step wire wire_UnmarshalTo cfg3 1 client0 (main_turn_at 0 (1 * Minute))
     = (Again 2, client0,
        broken_trace Main ++ [InfoRetryCount Main 2; Sleep (15 * Second)]).
Proof.
  pose proof (killed_exits_others_back_off wire wire_UnmarshalTo cfg3 1)
    as (Hfirst & Hmain & _ & Hback & _).
  split; [reflexivity|].
  split; [exact (Hfirst client_killed broken tt [] eq_refl)|].
  split.
  - exact (proj1 (Hmain client_killed (main_turn_at 0 0) _ _ _
                    (Hfirst client_killed broken tt [] eq_refl))).
  - refine (proj1 (Hback client0 (main_turn_at 0 (1 * Minute)) _ _ _ Stream_broken
                     eq_refl _ _ _)); simpl; lia.
Defined.

(** The sentence of C5 on errors does not hold once the window has elapsed:
    with a budget of 3 and the counter at 0, a stream that fails 6 minutes
    after its start is restarted at once, without the 15-second sleep. *)
Lemma late_error_restarts_without_sleep :
  (0 <? RetryCount (Server cfg3)) = true
  /\ Failover.main_step wire wire_UnmarshalTo cfg3 0 client0 (main_turn_at 0 (6 * Minute))
     = (Again 0, client0, broken_trace Main)
  /\ sleeps (broken_trace Main) = []
  /\ Failover.standby_step wire wire_UnmarshalTo cfg3 0 0 client0
       (standby_turn_at (6 * Minute))
     = (Again 0, client0, broken_trace Standby)
  /\ sleeps (broken_trace Standby) = [].
Proof. repeat split. Qed.

End FailoverFacts.

(** ** Runs of the watch loop *)

Module WatchLoopFacts.
Import Watch WatchLoop.

Section WithWorld.

Variable World : Type.

Abbreviation watchingCert := (watchingCert World).
Abbreviation certUpdateHandler := (certUpdateHandler World).

(** The handlers can rewrite the configuration, nothing else of the
    certificate. *)
Lemma range_handlers_keeps (hs : list certUpdateHandler) :
  forall i (c : watchingCert) (w : World),
    Data (fst (fst (range_handlers hs i c w))) = Data c
    /\ UpdateHandlers (fst (fst (range_handlers hs i c w))) = UpdateHandlers c
    /\ length (handler_calls (snd (range_handlers hs i c w))) = length hs
    /\ notices (snd (range_handlers hs i c w)) = []
    /\ infos (snd (range_handlers hs i c w)) = [].
Proof.
  induction hs as [|h hs IH]; intros i c w; simpl; [auto|].
  destruct (h (Fullchain (Data c)) (Key (Data c)) (Config c) w) as [cfg' w'].
  specialize (IH (S i) (set_Config c cfg') w').
  destruct (range_handlers hs (S i) (set_Config c cfg') w') as [[c'' w''] tr].
  simpl in *. destruct IH as (H1 & H2 & H3 & H4 & H5).
  repeat split; auto.
Qed.

(** After one turn on an update, the held chain and key are those of the
    update, whether the turn changed anything or not. *)
Lemma watch_update_holds (c : watchingCert) (newCert : certData) (w : World) :
  Fullchain (Data (fst (fst (watch_update c newCert w)))) = Fullchain newCert
  /\ Key (Data (fst (fst (watch_update c newCert w)))) = Key newCert
  /\ Domains (Data (fst (fst (watch_update c newCert w)))) = Domains (Data c)
  /\ UpdateHandlers (fst (fst (watch_update c newCert w))) = UpdateHandlers c.
Proof.
  unfold watch_update.
  destruct (bytes_Equal (Fullchain (Data c)) (Fullchain newCert)) eqn:Hfc;
    destruct (bytes_Equal (Key (Data c)) (Key newCert)) eqn:Hk; simpl;
    try (apply bytes_Equal_eq in Hfc); try (apply bytes_Equal_eq in Hk);
    try (repeat split; congruence).
  all: pose proof (range_handlers_keeps (UpdateHandlers c) 0
         (set_Key (set_Fullchain c (Fullchain newCert)) (Key newCert)) w)
         as (H1 & H2 & _);
       destruct (range_handlers (UpdateHandlers c) 0
         (set_Key (set_Fullchain c (Fullchain newCert)) (Key newCert)) w)
         as [[c3 w3] tr];
       simpl in *; rewrite H1, H2; simpl; auto.
Qed.

(** The handler calls of a turn that finds the material changed. *)
Lemma watch_update_changed (c : watchingCert) (newCert : certData) (w : World) :
  Fullchain newCert <> Fullchain (Data c) \/ Key newCert <> Key (Data c) ->
  handler_calls (snd (watch_update c newCert w))
  = imap (fun n _ => (n, Fullchain newCert, Key newCert)) (UpdateHandlers c).
Proof.
  intros Hd. unfold watch_update.
  assert (Hb : negb (bytes_Equal (Fullchain (Data c)) (Fullchain newCert))
               || negb (bytes_Equal (Key (Data c)) (Key newCert)) = true).
  { apply orb_true_iff. destruct Hd as [Hd|Hd]; [left|right];
      apply negb_true_iff, bytes_Equal_neq; congruence. }
  rewrite Hb, WatchFacts.range_handlers_spec. simpl.
  generalize (UpdateHandlers c) as hs. intros hs.
  change (omap (fun e => match e with
                         | CallHandler i fc0 k0 => Some (i, fc0, k0)
                         | _ => None end)
               (imap (fun n _ => CallHandler (0 + n) (Fullchain newCert) (Key newCert)) hs)
          = imap (fun n _ => ((0 + n)%nat, Fullchain newCert, Key newCert)) hs).
  generalize 0%nat as i.
  induction hs as [|h hs IH]; intros i; simpl; [reflexivity|].
  f_equal.
  rewrite <- (imap_ext (fun n _ => CallHandler (S i + n) (Fullchain newCert)
                                     (Key newCert))), IH
    by (intros; simpl; f_equal; lia).
  apply imap_ext; intros; simpl; repeat f_equal; lia.
Qed.

(** X1.  However long the run, the watch loop leaves the held domains and the
    handler list as they were, also when an update carries other domains,
    and the chain and key it holds at the end are those of the last update
    it took from the channel (the initial ones when it took none). *)
Theorem watch_holds_last_update (inputs : list select_case) :
  forall (c : watchingCert) (w : World),
    let c' := fst (fst (fst (watch inputs c w))) in
    Domains (Data c') = Domains (Data c)
    /\ UpdateHandlers c' = UpdateHandlers c
    /\ match list.last (consumed inputs) with
       | None => Data c' = Data c
       | Some newCert =>
           Fullchain (Data c') = Fullchain newCert /\ Key (Data c') = Key newCert
       end.
Proof.
  induction inputs as [|[|newCert] rest IH]; intros c w; cbv zeta; simpl; auto.
  pose proof (watch_update_holds c newCert w) as (Hfc & Hk & Hd & Hh).
  destruct (watch_update c newCert w) as [[c1 w1] tr1]. simpl in *.
  specialize (IH c1 w1). cbv zeta in IH.
  destruct (watch rest c1 w1) as [[[c2 w2] tr2] st]. simpl in *.
  destruct IH as (IH1 & IH2 & IH3).
  split; [congruence|]. split; [congruence|].
  destruct (consumed rest) as [|u us]; simpl in *.
  - rewrite IH3. auto.
  - destruct (list.last (u :: us)) eqn:E; [exact IH3|].
    apply last_None in E. discriminate.
Qed.

(** X2.  Material delivered a second time in a row is ignored: whatever the first
    delivery did, the second changes nothing and calls no handler. *)
Theorem repeated_update_is_ignored (c : watchingCert) (newCert : certData) (w : World) :
  let c1 := fst (fst (watch_update c newCert w)) in
  let w1 := snd (fst (watch_update c newCert w)) in
  watch_update c1 newCert w1 = (c1, w1, [LogInfo (Domains newCert)])
  /\ handler_calls (snd (fst (watch [CaseUpdate newCert; CaseUpdate newCert] c w)))
     = handler_calls (snd (watch_update c newCert w)).
Proof.
  cbv zeta.
  pose proof (watch_update_holds c newCert w) as (Hfc & Hk & _ & _).
  assert (H2 : watch_update (fst (fst (watch_update c newCert w))) newCert
                 (snd (fst (watch_update c newCert w)))
               = (fst (fst (watch_update c newCert w)),
                  snd (fst (watch_update c newCert w)),
                  [LogInfo (Domains newCert)])).
  { unfold watch_update at 1. rewrite Hfc, Hk, !bytes_Equal_refl. reflexivity. }
  split; [exact H2|].
  simpl. destruct (watch_update c newCert w) as [[c1 w1] tr1]. simpl in *.
  rewrite H2. simpl. unfold handler_calls. rewrite omap_app. simpl.
  apply app_nil_r.
Qed.

Lemma watch_update_logs (c : watchingCert) (newCert : certData) (w : World) :
  let tr := snd (watch_update c newCert w) in
  (length (notices tr) + length (infos tr) = 1)%nat
  /\ length (handler_calls tr)
     = (length (UpdateHandlers c) * length (notices tr))%nat.
Proof.
  cbv zeta. unfold watch_update.
  destruct (negb (bytes_Equal (Fullchain (Data c)) (Fullchain newCert))
            || negb (bytes_Equal (Key (Data c)) (Key newCert))).
  - pose proof (range_handlers_keeps (UpdateHandlers c) 0
         (set_Key (set_Fullchain c (Fullchain newCert)) (Key newCert)) w)
         as (_ & _ & H3 & H4 & H5).
    simpl. destruct (range_handlers (UpdateHandlers c) 0
         (set_Key (set_Fullchain c (Fullchain newCert)) (Key newCert)) w)
         as [[c3 w3] tr]. simpl in *.
    fold (notices tr). fold (infos tr). fold (handler_calls tr).
    rewrite H3, H4, H5. simpl. lia.
  - simpl. lia.
Qed.

(** X3.  Every update the loop takes from the channel is logged exactly once, as
    changed or as not changed, and the handlers are called all together once
    for each update logged as changed, and never otherwise. *)
Theorem handlers_run_once_per_change (inputs : list select_case) :
  forall (c : watchingCert) (w : World),
    let tr := snd (fst (watch inputs c w)) in
    (length (notices tr) + length (infos tr))%nat = length (consumed inputs)
    /\ length (handler_calls tr)
       = (length (UpdateHandlers c) * length (notices tr))%nat.
Proof.
  induction inputs as [|[|newCert] rest IH]; intros c w; cbv zeta; simpl;
    [lia|lia|].
  pose proof (watch_update_logs c newCert w) as (Hl & Hc).
  pose proof (watch_update_holds c newCert w) as (_ & _ & _ & Hh).
  destruct (watch_update c newCert w) as [[c1 w1] tr1]. simpl in *.
  specialize (IH c1 w1). cbv zeta in IH.
  destruct (watch rest c1 w1) as [[[c2 w2] tr2] st]. simpl in *.
  destruct IH as (IH1 & IH2).
  unfold notices, infos, handler_calls in *. rewrite !omap_app, !length_app.
  rewrite Hh in IH2. nia.
Qed.


End WithWorld.

End WatchLoopFacts.

(** ** Polling: responses that carry a server error *)

Module PollObsFacts.
Import Poll PollObs.

Section WithEnv.

Variable Env : Type.
Variable GetCert :
  ClientHttpServer -> list string -> Env -> (option HttpCertResp * error) * Env.

Abbreviation state := (state Env).
Abbreviation attempt := (attempt GetCert).
Abbreviation requestCert := (requestCert GetCert).
Abbreviation certWatchDog_cycle := (certWatchDog_cycle GetCert).
Abbreviation certWatchDog_loop := (certWatchDog_loop GetCert).

Lemma sent_updates_app a b : sent_updates (a ++ b) = sent_updates a ++ sent_updates b.
Proof. apply omap_app. Qed.

Lemma attempt_sends_nothing srv domains (s : option HttpCertResp * state) :
  sent_updates (trace (snd (snd (attempt srv domains s))))
  = sent_updates (trace (snd s)).
Proof.
  unfold Poll.attempt. simpl.
  destruct (GetCert srv domains (env (snd s))) as [[resp err] env']. simpl.
  rewrite sent_updates_app. simpl. apply app_nil_r.
Qed.

Lemma Retry_from_sends_nothing srv domains (n : nat) :
  forall s : option HttpCertResp * state,
    sent_updates (trace (snd (snd (Retry_from n (attempt srv domains) s))))
    = sent_updates (trace (snd s)).
Proof.
  induction n as [|n IH]; intros s; simpl;
    pose proof (attempt_sends_nothing srv domains s) as H;
    destruct (attempt srv domains s) as [[e|] s']; simpl in *; try exact H.
  rewrite IH. exact H.
Qed.

(** Asking the servers sends nothing to the watcher. *)
Lemma requestCert_sends_nothing cfg domains (st : state) :
  sent_updates (trace (snd (requestCert cfg domains st))) = sent_updates (trace st).
Proof.
  unfold Poll.requestCert, Retry.
  pose proof (Retry_from_sends_nothing (Http_MainServer cfg) domains
                (Z.to_nat (RetryCount (Server cfg))) (None, st)) as H1.
  destruct (Retry_from _ (attempt (Http_MainServer cfg) domains) (None, st))
    as [[e|] [resp st1]]; simpl in *; [|exact H1].
  destruct (negb (String.eqb (Url (Http_StandbyServer cfg)) "")).
  - pose proof (Retry_from_sends_nothing (Http_StandbyServer cfg) domains
                  (Z.to_nat (RetryCount (Server cfg)))
                  (resp, emit (WarnMainFailed domains e) st1)) as H2.
    destruct (Retry_from _ (attempt (Http_StandbyServer cfg) domains) _)
      as [[e'|] [resp' st3]]; simpl in *.
    + rewrite sent_updates_app. simpl. rewrite app_nil_r, H2, sent_updates_app, H1.
      simpl. apply app_nil_r.
    + rewrite H2, sent_updates_app, H1. simpl. apply app_nil_r.
  - simpl. rewrite sent_updates_app, H1. simpl. apply app_nil_r.
Qed.

(** X5.  A polling cycle sends the watcher at most one update, and only for a
    response without server error; that update carries the domains of the
    local configuration and the chain and key of the response.  A response
    that carries a server error is dropped, chain and key included: nothing
    is sent, and the interval stays as it was. *)
Theorem server_error_response_is_dropped cfg domains (sleepTime : Z) (st : state) :
  let res := certWatchDog_cycle cfg domains sleepTime st in
  let resp := fst (requestCert cfg domains (emit (InfoRequesting domains) st)) in
  match resp with
  | Some r =>
      if String.eqb (Err r) "" then
        sent_updates (trace (snd res))
        = sent_updates (trace st)
          ++ [{| Watch.Domains := domains; Watch.Fullchain := FullChain r;
                 Watch.Key := RKey r |}]
        /\ fst res = Z.quot (RenewTimeLeft r) 4
      else
        sent_updates (trace (snd res)) = sent_updates (trace st)
        /\ fst res = sleepTime
  | None =>
      sent_updates (trace (snd res)) = sent_updates (trace st) /\ fst res = sleepTime
  end.
Proof.
  cbv zeta. unfold Poll.certWatchDog_cycle.
  pose proof (requestCert_sends_nothing cfg domains (emit (InfoRequesting domains) st))
    as H.
  destruct (requestCert cfg domains (emit (InfoRequesting domains) st)) as [[r|] st1];
    simpl in *; rewrite sent_updates_app in H; simpl in H; rewrite app_nil_r in H.
  - destruct (String.eqb (Err r) ""); simpl;
      rewrite !sent_updates_app, H; simpl; rewrite ?app_nil_r; auto.
  - rewrite !sent_updates_app, H. simpl. rewrite !app_nil_r. auto.
Qed.

End WithEnv.

Lemma server_error_response_is_dropped_witness :
  sent_updates
    (trace (snd (Poll.certWatchDog_cycle scripted_GetCert Scenario.cfg0 ["example.com"]
                   (2 * Hour)
                   (Scenario.start [(Some Cases.resp_refused, None)]))))
  = []
  /\ fst (Poll.certWatchDog_cycle scripted_GetCert Scenario.cfg0 ["example.com"]
            (2 * Hour) (Scenario.start [(Some Cases.resp_refused, None)]))
     = 2 * Hour.
Proof.
  exact (server_error_response_is_dropped _ scripted_GetCert Scenario.cfg0
           ["example.com"] (2 * Hour)
           (Scenario.start [(Some Cases.resp_refused, None)])).
Defined.

End PollObsFacts.

(** ** The daemon *)

Module DaemonFacts.
Import Watch Daemon.

Section WithFiles.

Variable World : Type.
Variable writeCertAndDoCommand : certUpdateHandler World.
Variable GetFullChainAndKeyPath : ClientCertification -> string * string.
Variable FileExists : string -> bool.
Variable ReadFile : string -> bytes * error.

Abbreviation loadSavedCert :=
  (loadSavedCert GetFullChainAndKeyPath FileExists ReadFile).
Abbreviation saved := (saved GetFullChainAndKeyPath FileExists ReadFile).
Abbreviation registered_as :=
  (registered_as World writeCertAndDoCommand GetFullChainAndKeyPath FileExists ReadFile).
Abbreviation init_one :=
  (init_one World writeCertAndDoCommand GetFullChainAndKeyPath FileExists ReadFile).
Abbreviation init_range :=
  (init_range World writeCertAndDoCommand GetFullChainAndKeyPath FileExists ReadFile).
Abbreviation init :=
  (init World writeCertAndDoCommand GetFullChainAndKeyPath FileExists ReadFile).
Abbreviation GRPCMain_clients :=
  (GRPCMain_clients World writeCertAndDoCommand GetFullChainAndKeyPath FileExists
     ReadFile).
Abbreviation CertDXClientDaemon := (CertDXClientDaemon World).

(** X6.  [loadSavedCert] returns without error exactly when both files exist and
    both are read without error, and then it returns their contents.  When
    one of the two is missing, the error is [os.ErrNotExist] and no file is
    read; when the chain is missing, the key is not even looked for. *)
Theorem saved_material_needs_both_files (c : ClientCertification) :
  let fullchanPath := fst (GetFullChainAndKeyPath c) in
  let keyPath := snd (GetFullChainAndKeyPath c) in
  let res := fst (loadSavedCert c) in
  let tr := snd (loadSavedCert c) in
  (snd res = None <-> saved c)
  /\ (snd res = None ->
      fst (fst res) = fst (ReadFile fullchanPath)
      /\ snd (fst res) = fst (ReadFile keyPath))
  /\ (FileExists fullchanPath = false \/ FileExists keyPath = false ->
      res = ([], [], Some ErrNotExist) /\ reads tr = [])
  /\ (FileExists fullchanPath = false -> tr = [CallFileExists fullchanPath]).
Proof.
  cbv zeta. unfold Daemon.loadSavedCert, Daemon.saved.
  destruct (GetFullChainAndKeyPath c) as [fp kp]. simpl.
  destruct (FileExists fp) eqn:Hf; [destruct (FileExists kp) eqn:Hk|].
  - destruct (ReadFile fp) as [fullchan [e|]] eqn:Hr1; simpl.
    + split; [split; [discriminate|intros (_ & _ & H & _); discriminate]|].
      split; [discriminate|]. split; [intros [H|H]; discriminate|discriminate].
    + destruct (ReadFile kp) as [key err'] eqn:Hr2; simpl.
      split; [split; [intros ->; auto|intros (_ & _ & _ & H); exact H]|].
      split; [auto|]. split; [intros [H|H]; discriminate|discriminate].
  - simpl. split; [split; [discriminate|intros (_ & H & _); discriminate]|].
    split; [discriminate|]. split; [auto|discriminate].
  - simpl. split; [split; [discriminate|intros (H & _); discriminate]|].
    split; [discriminate|]. auto.
Qed.

Lemma loadSavedCert_cases (c : ClientCertification) :
  watches (snd (loadSavedCert c)) = []
  /\ ((saved c
       /\ fst (loadSavedCert c)
          = (fst (ReadFile (fst (GetFullChainAndKeyPath c))),
             fst (ReadFile (snd (GetFullChainAndKeyPath c))), None))
      \/ (~ saved c /\ exists e, snd (fst (loadSavedCert c)) = Some e)).
Proof.
  unfold Daemon.loadSavedCert, Daemon.saved.
  destruct (GetFullChainAndKeyPath c) as [fp kp]. simpl.
  destruct (FileExists fp) eqn:Hf; [destruct (FileExists kp) eqn:Hk|].
  - destruct (ReadFile fp) as [fullchan [e|]] eqn:Hr1; simpl.
    + split; [reflexivity|]. right. split; [|eauto].
      intros (_ & _ & H & _). discriminate.
    + destruct (ReadFile kp) as [key [e|]] eqn:Hr2; simpl.
      * split; [reflexivity|]. right. split; [|eauto].
        intros (_ & _ & _ & H). discriminate.
      * split; [reflexivity|]. left. auto.
  - split; [reflexivity|]. right. split; [|simpl; eauto].
    intros (_ & H & _). discriminate.
  - split; [reflexivity|]. right. split; [|simpl; eauto].
    intros (H & _). discriminate.
Qed.

Lemma init_one_registers (r : CertDXClientDaemon) (c : ClientCertification) :
  exists cert,
    fst (init_one r c)
    = {| Certifications := Certifications r; certs := certs r ++ [cert];
         stops := stops r ++ [false] |}
    /\ registered_as c cert
    /\ watches (snd (init_one r c)) = [length (certs r)].
Proof.
  unfold Daemon.init_one.
  destruct (loadSavedCert_cases c) as (Hw & Hcase).
  destruct (loadSavedCert c) as [[[fullchan key] err] tr]. simpl in *.
  eexists. split; [reflexivity|]. split.
  - unfold Daemon.registered_as. simpl. split; [reflexivity|].
    destruct Hcase as [(Hs & [= -> -> ->]) | (Hs & e & ->)]; simpl; auto 10.
  - unfold watches in *. rewrite omap_app, Hw. reflexivity.
Qed.

Lemma init_range_spec (cs : list ClientCertification) :
  forall r : CertDXClientDaemon,
  exists news,
    fst (init_range cs r)
    = {| Certifications := Certifications r; certs := certs r ++ news;
         stops := stops r ++ repeat false (length cs) |}
    /\ Forall2 registered_as cs news
    /\ watches (snd (init_range cs r)) = seq (length (certs r)) (length cs).
Proof.
  induction cs as [|c cs IH]; intros r.
  - exists []. simpl. rewrite !app_nil_r. destruct r; auto.
  - simpl. destruct (init_one_registers r c) as (cert & H1 & H2 & H3).
    destruct (init_one r c) as [r1 tr1]. simpl in H1, H3. subst r1.
    destruct (IH {| Certifications := Certifications r; certs := certs r ++ [cert];
                    stops := stops r ++ [false] |}) as (news & E & HF & HW).
    destruct (init_range cs _) as [r2 tr2]. simpl in *. subst r2.
    exists (cert :: news). rewrite <- !app_assoc. simpl.
    split; [reflexivity|]. split; [constructor; assumption|].
    unfold watches in *. rewrite omap_app, H3, HW, length_app. simpl.
    f_equal. f_equal. lia.
Qed.

Lemma registered_as_Config cs (news : list (watchingCert World)) :
  Forall2 registered_as cs news -> map (@Config World) news = cs.
Proof.
  induction 1 as [|c cert cs certs0 Hr HF IH]; simpl; [reflexivity|].
  destruct Hr as (-> & _). f_equal. exact IH.
Qed.

(** X7.  [init] leaves what is registered as it is and appends one certificate
    for each certification of the configuration, in the order of the
    configuration, each with a stop channel that is open and a watch
    goroutine of its own.  It does not start from scratch: called a second
    time it registers every certification a second time. *)
Theorem init_appends_in_order (r : CertDXClientDaemon) :
  let r' := fst (init r) in
  Certifications r' = Certifications r
  /\ (exists news, certs r' = certs r ++ news)
  /\ map (@Config World) (certs r')
     = map (@Config World) (certs r) ++ Certifications r
  /\ stops r' = stops r ++ repeat false (length (Certifications r))
  /\ watches (snd (init r)) = seq (length (certs r)) (length (Certifications r))
  /\ map (@Config World) (certs (fst (init r')))
     = map (@Config World) (certs r) ++ Certifications r ++ Certifications r.
Proof.
  cbv zeta. unfold Daemon.init.
  destruct (init_range_spec (Certifications r) r) as (news & E & HF & HW).
  pose proof (registered_as_Config _ _ HF) as Hmap.
  rewrite E. simpl. split; [reflexivity|]. split; [eauto|].
  rewrite map_app, Hmap. split; [reflexivity|]. split; [reflexivity|].
  split; [exact HW|].
  destruct (init_range_spec (Certifications r)
              {| Certifications := Certifications r; certs := certs r ++ news;
                 stops := stops r ++ repeat false (length (Certifications r)) |})
    as (news2 & E2 & HF2 & _).
  pose proof (registered_as_Config _ _ HF2) as Hmap2. simpl in Hmap2.
  rewrite E2. simpl. rewrite !map_app, Hmap, Hmap2, <- app_assoc. reflexivity.
Qed.

(** X8.  Each certificate [init] registers carries the domains of its
    certification and the one handler [writeCertAndDoCommand]; it holds the
    saved chain and key when both files are there and both are read without
    error, and otherwise neither: never a chain without its key, nor what a
    failed read has returned. *)
Theorem init_holds_chain_and_key_or_neither (r : CertDXClientDaemon) :
  exists news,
    certs (fst (init r)) = certs r ++ news
    /\ Forall2 registered_as (Certifications r) news
    /\ Forall (fun cert : watchingCert World =>
                 (Fullchain (Data cert) = [] /\ Key (Data cert) = [])
                 \/ saved (Config cert)) news.
Proof.
  unfold Daemon.init.
  destruct (init_range_spec (Certifications r) r) as (news & E & HF & _).
  exists news. rewrite E. simpl. split; [reflexivity|]. split; [exact HF|].
  clear E. generalize (Certifications r) HF. clear HF.
  intros cs HF. induction HF as [|c cert cs' certs0 Hr HF IH]; constructor;
    [|exact IH].
  destruct Hr as (-> & _ & _ & [(Hs & _) | (_ & H1 & H2)]); auto.
Qed.

Lemma stop_range_open (n : nat) :
  forall i, stop_range i (repeat false n)
            = (Returned tt, repeat true n, map CloseStop (seq i n)).
Proof.
  induction n as [|n IH]; intros i; simpl; [reflexivity|].
  rewrite IH. reflexivity.
Qed.

Lemma closes_CloseStop (l : list nat) : closes (map CloseStop l) = l.
Proof. induction l as [|i l IH]; simpl; [reflexivity|]. f_equal. exact IH. Qed.

Lemma all_open (flags : list bool) :
  Forall (fun closed => closed = false) flags -> flags = repeat false (length flags).
Proof.
  induction 1 as [|b l Hb _ IH]; simpl; [reflexivity|]. rewrite Hb. f_equal. exact IH.
Qed.

Lemma repeat_open (n : nat) :
  Forall (fun closed : bool => closed = false) (repeat false n).
Proof. induction n as [|n IH]; simpl; constructor; auto. Qed.

(** X9.  [stop] closes the stop channel of every registered certificate, once and
    in registration order, when they are all open, which is how [init]
    leaves them; after that a second [stop] panics on the first channel,
    unless no certificate is registered. *)
Theorem stop_closes_each_channel_once :
  (forall r : CertDXClientDaemon,
      Forall (fun closed => closed = false) (stops r) ->
      let r1 := snd (fst (stop r)) in
      fst (fst (stop r)) = Returned tt
      /\ stops r1 = repeat true (length (stops r))
      /\ certs r1 = certs r
      /\ closes (snd (stop r)) = seq 0 (length (stops r))
      /\ (stops r <> [] ->
          fst (fst (stop r1)) = Panicked /\ closes (snd (stop r1)) = [])
      /\ (stops r = [] -> stop r1 = (Returned tt, r1, [])))
  /\ (forall cs : list ClientCertification,
        let r := fst (init (daemon_of cs)) in
        stops r = repeat false (length cs)
        /\ length (certs r) = length cs
        /\ fst (fst (stop r)) = Returned tt
        /\ closes (snd (stop r)) = seq 0 (length cs)).
Proof.
  assert (Hopen : forall r : CertDXClientDaemon,
             Forall (fun closed => closed = false) (stops r) ->
             stop r = (Returned tt,
                       {| Certifications := Certifications r; certs := certs r;
                          stops := repeat true (length (stops r)) |},
                       map CloseStop (seq 0 (length (stops r))))).
  { intros r Hr. unfold Daemon.stop. rewrite (all_open _ Hr) at 1.
    rewrite stop_range_open. reflexivity. }
  split.
  - intros r Hr. cbv zeta. rewrite (Hopen r Hr). simpl.
    split; [reflexivity|]. split; [reflexivity|]. split; [reflexivity|].
    split; [apply closes_CloseStop|].
    destruct (stops r) as [|b l]; split; try congruence; intros _;
      [reflexivity|split; reflexivity].
  - intros cs. cbv zeta. unfold Daemon.init. simpl.
    destruct (init_range_spec cs (daemon_of cs)) as (news & E & HF & _).
    rewrite E. simpl in *.
    pose proof (repeat_open (length cs)) as Hr.
    split; [reflexivity|].
    split; [apply Forall2_length in HF; symmetry; exact HF|].
    rewrite (Hopen {| Certifications := cs; certs := news;
                      stops := repeat false (length cs) |} Hr). simpl.
    rewrite closes_CloseStop, repeat_length. auto.
Qed.


End WithFiles.

Lemma saved_material_needs_both_files_witness :
  Daemon.saved Cases.paths_of Cases.every_file Cases.two_bytes Scenario.web
  /\ fst (fst (fst (Daemon.loadSavedCert Cases.paths_of Cases.every_file
                      Cases.two_bytes Scenario.web)))
     = [x43; x30].
Proof.
  pose proof (saved_material_needs_both_files Cases.paths_of Cases.every_file
                Cases.two_bytes Scenario.web) as (Hiff & Hok & _).
  split.
  - exact (proj1 Hiff eq_refl).
  - exact (proj1 (Hok eq_refl)).
Defined.

Lemma stop_closes_each_channel_once_witness :
  Forall (fun closed => closed = false) (Daemon.stops Cases.daemon1)
  /\ fst (fst (Daemon.stop Cases.daemon1)) = Returned tt
  /\ closes (snd (Daemon.stop Cases.daemon1)) = [0%nat]
  /\ fst (fst (Daemon.stop (snd (fst (Daemon.stop Cases.daemon1))))) = Panicked.
Proof.
  assert (Hopen : Forall (fun closed => closed = false) (Daemon.stops Cases.daemon1))
    by (repeat constructor).
  pose proof (proj1 (stop_closes_each_channel_once (list (nat * bytes * bytes))
                       (Scenario.recording_handler 0) Cases.paths_of Cases.every_file
                       Cases.two_bytes)
                Cases.daemon1 Hopen) as (H1 & _ & _ & H4 & H5 & _).
  split; [exact Hopen|]. split; [exact H1|]. split; [exact H4|].
  exact (proj1 (H5 ltac:(discriminate))).
Defined.

End DaemonFacts.

(** ** The stream client: dispatch, updates, the last-received signal *)

Module StreamFacts.
Import Sds StreamObs.

(** *** Names *)

Lemma last_index_Some (n : string) (cs : list ClientCertification) (k : nat) :
  last_index n cs = Some k ->
  exists cert, cs !! k = Some cert /\ Name cert = n
    /\ forall j cert', (k < j)%nat -> cs !! j = Some cert' -> Name cert' <> n.
Proof.
  revert k. induction cs as [|cert cs IH]; intros k; simpl; [discriminate|].
  destruct (last_index n cs) as [k'|] eqn:E.
  - intros [= <-]. destruct (IH k' eq_refl) as (cert0 & Hl & Hn & Hlast).
    exists cert0. split; [exact Hl|]. split; [exact Hn|].
    intros [|j] cert' Hj; [lia|]. simpl. apply Hlast. lia.
  - destruct (String.eqb_spec (Name cert) n) as [He|He]; [|discriminate].
    intros [= <-]. exists cert. split; [reflexivity|]. split; [exact He|].
    intros [|j] cert' Hj Hl; [lia|]. simpl in Hl.
    intros Hn. clear IH.
    assert (Hin : exists k, last_index n cs = Some k).
    { clear E Hj He. revert j Hl. induction cs as [|c0 cs IHcs]; intros j Hl;
        [destruct j; discriminate|].
      simpl. destruct j as [|j]; simpl in Hl.
      - injection Hl as ->. destruct (last_index n cs); [eauto|].
        rewrite Hn, String.eqb_refl. eauto.
      - destruct (IHcs j Hl) as (k & ->). eauto. }
    destruct Hin as (k & Hk). congruence.
Qed.

Lemma last_index_None (n : string) (cs : list ClientCertification) :
  last_index n cs = None <-> n ∉ map Name cs.
Proof.
  induction cs as [|cert cs IH]; simpl.
  - split; [intros _ H; inversion H|reflexivity].
  - rewrite not_elem_of_cons. destruct (last_index n cs) as [k|].
    + split; [discriminate|]. intros [_ H]. apply IH in H. discriminate.
    + destruct (String.eqb_spec (Name cert) n) as [He|He].
      * split; [discriminate|]. intros [H _]. congruence.
      * split; [intros _|reflexivity]. split; [congruence|]. apply IH. reflexivity.
Qed.

Lemma make_dispatch_last_index (cs : list ClientCertification) :
  forall (i : nat) (m : gmap string nat) (n : string),
    make_dispatch cs i m !! n
    = match last_index n cs with
      | Some k => Some (i + k)%nat
      | None => m !! n
      end.
Proof.
  induction cs as [|cert cs IH]; intros i m n; simpl; [reflexivity|].
  rewrite IH. destruct (last_index n cs) as [k|].
  - f_equal. lia.
  - destruct (String.eqb_spec (Name cert) n) as [He|He].
    + rewrite He, lookup_insert_eq. f_equal. lia.
    + rewrite lookup_insert_ne by exact He. reflexivity.
Qed.

Lemma domainSets_last_index (cs : list ClientCertification) :
  forall (m : gmap string (list string)) (n : string),
    domainSets cs m !! n
    = match last_index n cs with
      | Some k => CDomains <$> cs !! k
      | None => m !! n
      end.
Proof.
  induction cs as [|cert cs IH]; intros m n; simpl; [reflexivity|].
  rewrite IH. destruct (last_index n cs) as [k|]; [reflexivity|].
  destruct (String.eqb_spec (Name cert) n) as [He|He].
  - rewrite He, lookup_insert_eq. reflexivity.
  - rewrite lookup_insert_ne by exact He. reflexivity.
Qed.

(** X11.  The dispatch table of a stream maps a name to the channel of the last
    registered certificate of that name, and nothing else: when two
    certificates share a name, the handler of the earlier one is never sent
    a response. *)
Theorem dispatch_goes_to_last_of_name (cs : list ClientCertification) (n : string) :
  make_dispatch cs 0 ∅ !! n = last_index n cs
  /\ (forall ch, make_dispatch cs 0 ∅ !! n = Some ch ->
        exists cert, cs !! ch = Some cert /\ Name cert = n
          /\ forall j cert', (ch < j)%nat -> cs !! j = Some cert' -> Name cert' <> n)
  /\ (make_dispatch cs 0 ∅ !! n = None <-> n ∉ map Name cs).
Proof.
  assert (H : make_dispatch cs 0 ∅ !! n = last_index n cs).
  { rewrite make_dispatch_last_index. destruct (last_index n cs); [reflexivity|].
    apply lookup_empty. }
  split; [exact H|]. rewrite H. split.
  - intros ch. apply last_index_Some.
  - apply last_index_None.
Qed.

(** X12.  The first request of a stream asks for the names of the registered
    certificates, in registration order, and its metadata gives for each
    name the domains of the last certificate registered under it; with
    names that are all different, every certificate finds its own domains
    there. *)
Theorem subscription_carries_domains (cs : list ClientCertification) :
  ResourceNames (packReq cs) = map Name cs
  /\ VersionInfo (packReq cs) = ""
  /\ (exists m, NodeMetadata (packReq cs) = Some m
       /\ (forall n, m !! n = match last_index n cs with
                              | Some k => CDomains <$> cs !! k
                              | None => None
                              end)
       /\ (forall n, m !! n = None <-> n ∉ map Name cs)
       /\ (NoDup (map Name cs) ->
           forall cert, cert ∈ cs -> m !! Name cert = Some (CDomains cert))).
Proof.
  split; [reflexivity|]. split; [reflexivity|].
  exists (domainSets cs ∅). split; [reflexivity|].
  assert (H : forall n, domainSets cs ∅ !! n
                        = match last_index n cs with
                          | Some k => CDomains <$> cs !! k
                          | None => None
                          end).
  { intros n. rewrite domainSets_last_index. destruct (last_index n cs); [reflexivity|].
    apply lookup_empty. }
  split; [exact H|]. split.
  - intros n. rewrite H. rewrite <- last_index_None.
    destruct (last_index n cs) as [k|] eqn:E; [|tauto].
    destruct (last_index_Some n cs k E) as (cert & -> & _). split; discriminate.
  - intros Hnd cert Hin. rewrite H.
    apply list_elem_of_lookup in Hin as (i & Hi).
    destruct (last_index (Name cert) cs) as [k|] eqn:E.
    + destruct (last_index_Some _ cs k E) as (cert' & Hk & Hn & _).
      assert (i = k).
      { eapply NoDup_lookup; [exact Hnd| |].
        - rewrite list_lookup_fmap, Hi. reflexivity.
        - rewrite list_lookup_fmap, Hk. simpl. f_equal. exact Hn. }
      subst k. rewrite Hi. reflexivity.
    + apply last_index_None in E. exfalso. apply E.
      apply list_elem_of_fmap. exists cert. split; [reflexivity|].
      apply list_elem_of_lookup. eauto.
Qed.

(** *** The goroutines of a stream, turn by turn *)

Section WithWire.

Variable Any : Type.
Variable UnmarshalTo : Any -> string + Secret.

Abbreviation DiscoveryResponse := (DiscoveryResponse Any).
Abbreviation recv_input := (recv_input Any).
Abbreviation receive := (receive Any UnmarshalTo).
Abbreviation serve_one := (serve_one Any UnmarshalTo).
Abbreviation serve := (serve Any UnmarshalTo).
Abbreviation Stream := (Stream Any UnmarshalTo).
Abbreviation decoded := (decoded Any UnmarshalTo).
Abbreviation delivers := (delivers Any UnmarshalTo).
Abbreviation fails_by_itself := (fails_by_itself Any).

(** The client a turn leaves behind: the last-received channel swapped when
    the turn was on a response, nothing else. *)
Lemma serve_one_client se d (c : CertDXgRPCClient) (input : recv_input) :
  snd (fst (serve_one se d c input))
  = match input with RecvResponse _ => swap_Received c | _ => c end.
Proof.
  unfold Sds.serve_one. destruct input as [| |resp]; simpl; try reflexivity.
  destruct (Resources resp) as [|a l]; [reflexivity|].
  destruct (UnmarshalTo a) as [e|s]; [reflexivity|].
  destruct (d !! SecretName s) as [ch|]; [|reflexivity]. simpl.
  destruct (certs c !! ch) as [cert|]; [|reflexivity].
  destruct (handleCert ch cert _) as [[m|ack] tr_h]; [reflexivity|].
  destruct (sender_forward se ack); reflexivity.
Qed.

Lemma serve_one_certs se d (c : CertDXgRPCClient) (input : recv_input) :
  certs (snd (fst (serve_one se d c input))) = certs c.
Proof. rewrite serve_one_client. destruct input; reflexivity. Qed.

(** A relation between the client before, the trace and the client after
    that holds of every turn, of the empty run, and of two runs one after
    the other, holds of every run of the goroutines. *)
Lemma serve_steps (R : CertDXgRPCClient -> list event -> CertDXgRPCClient -> Prop)
    se d (cs : list ClientCertification) (all : list recv_input) :
  (forall c, R c [] c) ->
  (forall c1 t1 c2 t2 c3, R c1 t1 c2 -> R c2 t2 c3 -> R c1 (t1 ++ t2) c3) ->
  (forall c input, input ∈ all -> certs c = cs ->
     R c (snd (serve_one se d c input)) (snd (fst (serve_one se d c input)))) ->
  forall inputs, inputs ⊆ all ->
  forall c, certs c = cs ->
    R c (snd (serve se d c inputs)) (snd (fst (serve se d c inputs))).
Proof.
  intros Hrefl Htrans Hstep. induction inputs as [|input rest IH]; intros Hsub c Hc.
  - simpl. apply Hrefl.
  - assert (Hin : input ∈ all) by (apply Hsub; left).
    assert (Hrest : rest ⊆ all) by (intros x Hx; apply Hsub; right; exact Hx).
    pose proof (Hstep c input Hin Hc) as H1.
    pose proof (serve_one_certs se d c input) as Hc1.
    destruct input as [| |resp]; cbn [Sds.serve]; [exact H1| |];
      (destruct (serve_one se d c _) as [[[[m|]|] c'] tr]; [exact H1| |exact H1];
       simpl in H1, Hc1;
       assert (Hc' : certs c' = cs) by congruence;
       specialize (IH Hrest c' Hc');
       destruct (Sds.serve Any UnmarshalTo se d c' rest) as [[r' c''] tr'];
       simpl in *; eapply Htrans; eassumption).
Qed.

Lemma keeps_refl cs all (c : CertDXgRPCClient) : keeps Any UnmarshalTo cs all c [] c.
Proof.
  unfold keeps. simpl. rewrite Nat.add_0_r, app_nil_r. repeat split; auto.
Qed.

Lemma keeps_trans cs all (c1 c2 c3 : CertDXgRPCClient) t1 t2 :
  keeps Any UnmarshalTo cs all c1 t1 c2 -> keeps Any UnmarshalTo cs all c2 t2 c3 ->
  keeps Any UnmarshalTo cs all c1 (t1 ++ t2) c3.
Proof.
  unfold keeps, swaps, conn_closes, sent, updates.
  intros (A1 & A2 & A3 & A4 & A5 & A6 & A7 & A8 & A9 & A10 & A11)
         (B1 & B2 & B3 & B4 & B5 & B6 & B7 & B8 & B9 & B10 & B11).
  rewrite !omap_app, !length_app, map_app.
  split; [lia|]. split; [rewrite B2, A2, app_assoc; reflexivity|].
  split.
  { rewrite seq_app, map_app. rewrite <- A3. f_equal.
    rewrite <- A1. exact B3. }
  split; [congruence|]. split; [congruence|]. split; [congruence|].
  split; [congruence|]. split; [rewrite A8, B8; reflexivity|].
  split; [lia|]. split; [lia|]. apply Forall_app. auto.
Qed.

Lemma keeps_turn se cs all (c : CertDXgRPCClient) (input : recv_input) :
  input ∈ all -> certs c = cs ->
  keeps Any UnmarshalTo cs all c
    (snd (serve_one se (make_dispatch cs 0 ∅) c input))
    (snd (fst (serve_one se (make_dispatch cs 0 ∅) c input))).
Proof.
  intros Hin Hc. unfold keeps. rewrite serve_one_client.
  unfold Sds.serve_one.
  destruct input as [|e|resp]; simpl.
  - rewrite Nat.add_0_r, app_nil_r. repeat split; auto.
  - rewrite Nat.add_0_r, app_nil_r. repeat split; auto.
  - assert (Hsw : (Received c + 1)%nat = S (Received c)) by lia.
    destruct (Resources resp) as [|a l] eqn:Hres; simpl;
      [rewrite ?Hsw; repeat split; auto|].
    destruct (UnmarshalTo a) as [e|s] eqn:Hun; simpl;
      [rewrite ?Hsw; repeat split; auto|].
    rewrite make_dispatch_last_index, lookup_empty.
    destruct (last_index (SecretName s) cs) as [ch|] eqn:Hli; simpl;
      [|rewrite ?Hsw; repeat split; auto].
    rewrite Hc.
    destruct (last_index_Some _ _ _ Hli) as (cert & Hl & Hn & _). rewrite Hl.
    unfold handleCert. simpl.
    destruct (SecretType s) as [tls| | | |] eqn:Hty; simpl;
      try (rewrite ?Hsw; repeat split; auto; fail).
    destruct (sender_forward se _) as [r tr_s] eqn:Hsf.
    assert (Hobs : swaps tr_s = [] /\ conn_closes tr_s = [] /\ updates tr_s = []
                   /\ length (sent tr_s) = 1%nat).
    { unfold sender_forward in Hsf. destruct (sendErr se _); injection Hsf as <- <-;
        auto. }
    destruct Hobs as (O1 & O2 & O3 & O4). simpl.
    fold (swaps tr_s). fold (conn_closes tr_s). fold (updates tr_s). fold (sent tr_s).
    rewrite O1, O2, O3, O4. simpl. rewrite ?Hsw.
    repeat split; auto.
    constructor; [|constructor].
    exists resp, s, tls, cert. simpl.
    split; [exact Hin|]. split; [unfold Sds.decoded; rewrite Hres, Hun; reflexivity|].
    auto 10.
Qed.

Lemma keeps_serve se cs (inputs : list recv_input) (c : CertDXgRPCClient) :
  certs c = cs ->
  keeps Any UnmarshalTo cs inputs c
    (snd (serve se (make_dispatch cs 0 ∅) c inputs))
    (snd (fst (serve se (make_dispatch cs 0 ∅) c inputs))).
Proof.
  intros Hc.
  apply (serve_steps (keeps Any UnmarshalTo cs inputs) se (make_dispatch cs 0 ∅)
           cs inputs); auto.
  - apply keeps_refl.
  - intros. eapply keeps_trans; eassumption.
  - intros. apply keeps_turn; assumption.
Qed.

(** A run swaps the last-received channel at most once for each response it
    is given. *)
Lemma serve_swaps_bounded se d (inputs : list recv_input) :
  forall c : CertDXgRPCClient,
    (length (swaps (snd (serve se d c inputs))) <= length (responses inputs))%nat.
Proof.
  induction inputs as [|input rest IH]; intros c; [simpl; lia|].
  assert (H1 : (length (swaps (snd (serve_one se d c input)))
                <= length (responses [input]))%nat).
  { unfold Sds.serve_one. destruct input as [| |resp]; simpl; try lia.
    destruct (Resources resp) as [|a l]; [simpl; lia|].
    destruct (UnmarshalTo a) as [e|s]; [simpl; lia|].
    destruct (d !! SecretName s) as [ch|]; [|simpl; lia]. simpl.
    destruct (certs c !! ch) as [cert|]; [|simpl; lia].
    unfold handleCert. simpl. destruct (SecretType s); simpl; try lia.
    unfold sender_forward.
    match goal with |- context [sendErr se ?a] => destruct (sendErr se a) end;
      simpl; lia. }
  destruct input as [| |resp]; cbn [Sds.serve]; [simpl in *; lia| |];
    (destruct (serve_one se d c _) as [[[[m|]|] c'] tr]; simpl in H1 |- *; try lia;
     specialize (IH c');
     destruct (Sds.serve Any UnmarshalTo se d c' rest) as [[r' c''] tr'];
     simpl in *; unfold swaps in *; rewrite omap_app, length_app; lia).
Qed.

(** The paths through [Stream]. *)
Lemma Stream_cases (c : CertDXgRPCClient) (io : stream_env Any) :
  let head := [StoreRunning true; NewClient (GRPCServer (server c)); StreamSecrets]
              ++ go_handlers (certs c) 0 in
  let tail := [ConnClose; StoreRunning false] in
  (exists u pending,
      Kill c = u :: pending
      /\ Stream c io = (Returned (Some (killed "stream killed")), set_Kill c pending, []))
  \/ (Kill c = []
      /\ ((exists e msg,
              newClientErr io = Some e
              /\ Stream c io
                 = (Returned (Some (other_error msg)), set_Running c true,
                    [StoreRunning true; NewClient (GRPCServer (server c))]))
          \/ (exists e msg,
                newClientErr io = None /\ streamSecretsErr io = Some e
                /\ Stream c io
                   = (Returned (Some (other_error msg)), set_Running c false,
                      [StoreRunning true; NewClient (GRPCServer (server c));
                       StreamSecrets] ++ tail))
          \/ (exists msg tr_s,
                newClientErr io = None /\ streamSecretsErr io = None
                /\ sender_start (sending io) (certs c) = (Some msg, tr_s)
                /\ Stream c io
                   = (Returned (Some (other_error msg)), set_Running c false,
                      head ++ tr_s ++ tail))
          \/ (exists r c2 tr_r,
                newClientErr io = None /\ streamSecretsErr io = None
                /\ sender_start (sending io) (certs c)
                   = (None, [StreamSend (packReq (certs c))])
                /\ serve (sending io) (make_dispatch (certs c) 0 ∅)
                     (set_Running c true) (inbound io) = (r, c2, tr_r)
                /\ ((r = Panicked
                     /\ Stream c io
                        = (Panicked, c2,
                           head ++ [StreamSend (packReq (certs c))] ++ tr_r))
                    \/ (exists msg,
                          r = Returned (Some msg)
                          /\ Stream c io
                             = (Returned (Some (other_error msg)), set_Running c2 false,
                                head ++ [StreamSend (packReq (certs c))] ++ tr_r
                                ++ tail))
                    \/ (r = Returned None
                        /\ Stream c io
                           = (Returned (Some match ending io with
                                             | CtxDone e => other_error e
                                             | KillReceived => killed "stream killed"
                                             end),
                              set_Running c2 false,
                              head ++ [StreamSend (packReq (certs c))] ++ tr_r
                              ++ tail)))))).
Proof.
  cbv zeta. unfold Sds.Stream.
  destruct (Kill c) as [|u pending] eqn:HK; [right; split; [reflexivity|]|left; eauto].
  destruct (newClientErr io) as [e|]; [left; eauto|right].
  destruct (streamSecretsErr io) as [e|]; [left; eauto|right].
  change (certs (set_Running c true)) with (certs c).
  destruct (sender_start (sending io) (certs c)) as [[msg|] tr_s] eqn:Hs.
  - left. exists msg, tr_s. simpl. auto.
  - right.
    assert (Htr : tr_s = [StreamSend (packReq (certs c))]).
    { unfold sender_start in Hs. destruct (newStructErr (sending io)); [discriminate|].
      destruct (sendErr (sending io) (packReq (certs c))); [discriminate|].
      injection Hs as <-. reflexivity. }
    subst tr_s.
    destruct (Sds.serve Any UnmarshalTo (sending io) (make_dispatch (certs c) 0 ∅)
                (set_Running c true) (inbound io)) as [[r c2] tr_r].
    exists r, c2, tr_r. split; [reflexivity|]. split; [reflexivity|].
    split; [reflexivity|]. split; [reflexivity|].
    destruct r as [[msg|]|]; simpl; eauto 10.
Qed.

Lemma go_handlers_quiet (cs : list ClientCertification) :
  forall i, swaps (go_handlers cs i) = [] /\ conn_closes (go_handlers cs i) = []
            /\ updates (go_handlers cs i) = [] /\ sent (go_handlers cs i) = [].
Proof.
  induction cs as [|cert cs IH]; intros i; simpl; [auto|]. apply IH.
Qed.

Lemma sender_start_quiet se cs :
  swaps (snd (sender_start se cs)) = [] /\ conn_closes (snd (sender_start se cs)) = []
  /\ updates (snd (sender_start se cs)) = []
  /\ (length (sent (snd (sender_start se cs))) <= 1)%nat.
Proof.
  unfold sender_start. destruct (newStructErr se); [simpl; auto|].
  destruct (sendErr se (packReq cs)); simpl; auto.
Qed.

Lemma swaps_app (a b : list event) : swaps (a ++ b) = swaps a ++ swaps b.
Proof. apply omap_app. Qed.

Lemma conn_closes_app (a b : list event) :
  conn_closes (a ++ b) = conn_closes a ++ conn_closes b.
Proof. apply omap_app. Qed.

Ltac observe :=
  rewrite ?swaps_app, ?conn_closes_app, ?SdsFacts.updates_app, ?SdsFacts.sent_app.

(** What a call of [Stream] shows, whatever its path. *)
Lemma Stream_observed (c : CertDXgRPCClient) (io : stream_env Any) :
  let c' := snd (fst (Stream c io)) in
  let tr := snd (Stream c io) in
  Forall (delivers (certs c) (inbound io)) (updates tr)
  /\ (length (sent tr) <= S (length (updates tr)))%nat
  /\ (length (updates tr) <= length (swaps tr))%nat
  /\ (length (swaps tr) <= length (responses (inbound io)))%nat
  /\ Received c' = (Received c + length (swaps tr))%nat
  /\ ReceivedClosed c' = ReceivedClosed c ++ map fst (swaps tr)
  /\ swaps tr = map (fun k => (k, S k)) (seq (Received c) (length (swaps tr)))
  /\ certs c' = certs c /\ server c' = server c
  /\ (Kill c' = Kill c \/ exists u, Kill c = u :: Kill c').
Proof.
  cbv zeta.
  assert (Hbase : Received c = (Received c + 0)%nat
                  /\ ReceivedClosed c = ReceivedClosed c ++ []).
  { rewrite Nat.add_0_r, app_nil_r. auto. }
  destruct Hbase as (Hb1 & Hb2).
  destruct (go_handlers_quiet (certs c) 0) as (G1 & G2 & G3 & G4).
  destruct (Stream_cases c io) as
    [(u & pending & HK & ->)
    |(HK & [(e & msg & _ & ->)
           |[(e & msg & _ & _ & ->)
            |[(msg & tr_s & _ & _ & Hs & ->)
             |(r & c2 & tr_r & _ & _ & Hs & Hsv & Hr)]]])]; cbn [fst snd].
  - simpl. repeat split; auto; try lia. right. exists u. exact HK.
  - simpl. repeat split; auto; lia.
  - simpl. repeat split; auto; lia.
  - destruct (sender_start_quiet (sending io) (certs c)) as (Q1 & Q2 & Q3 & Q4).
    rewrite Hs in Q1, Q2, Q3, Q4. cbn [fst snd] in Q1, Q2, Q3, Q4.
    observe. rewrite G1, G3, G4, Q1, Q3. simpl. rewrite !length_app. simpl.
    repeat split; auto; lia.
  - pose proof (keeps_serve (sending io) (certs c) (inbound io) (set_Running c true)
                  eq_refl) as Hk.
    pose proof (serve_swaps_bounded (sending io) (make_dispatch (certs c) 0 ∅)
                  (inbound io) (set_Running c true)) as Hb.
    rewrite Hsv in Hk, Hb. cbn [fst snd] in Hk, Hb.
    destruct Hk as (K1 & K2 & K3 & K4 & K5 & K6 & K7 & K8 & K9 & K10 & K11).
    assert (Hall : forall c3 tail,
               swaps tail = [] -> updates tail = [] -> sent tail = [] ->
               certs c3 = certs c2 -> server c3 = server c2 -> Kill c3 = Kill c2 ->
               Received c3 = Received c2 -> ReceivedClosed c3 = ReceivedClosed c2 ->
               let tr := ([StoreRunning true; NewClient (GRPCServer (server c));
                           StreamSecrets] ++ go_handlers (certs c) 0)
                         ++ [StreamSend (packReq (certs c))] ++ tr_r ++ tail in
               Forall (delivers (certs c) (inbound io)) (updates tr)
               /\ (length (sent tr) <= S (length (updates tr)))%nat
               /\ (length (updates tr) <= length (swaps tr))%nat
               /\ (length (swaps tr) <= length (responses (inbound io)))%nat
               /\ Received c3 = (Received c + length (swaps tr))%nat
               /\ ReceivedClosed c3 = ReceivedClosed c ++ map fst (swaps tr)
               /\ swaps tr
                  = map (fun k => (k, S k)) (seq (Received c) (length (swaps tr)))
               /\ certs c3 = certs c /\ server c3 = server c
               /\ (Kill c3 = Kill c \/ exists u, Kill c = u :: Kill c3)).
    { intros c3 tail T1 T2 T3 E1 E2 E3 E4 E5. cbv zeta. observe.
      rewrite G1, G3, G4, T1, T2, T3. simpl. rewrite !app_nil_r.
      rewrite E1, E2, E3, E4, E5. simpl in *.
      repeat split; auto; try lia; try congruence. }
    destruct Hr as [(-> & ->)|[(msg & -> & ->)|(-> & ->)]]; cbn [fst snd].
    + specialize (Hall c2 [] eq_refl eq_refl eq_refl eq_refl eq_refl eq_refl
                    eq_refl eq_refl).
      cbv zeta in Hall. rewrite app_nil_r in Hall. exact Hall.
    + exact (Hall (set_Running c2 false) [ConnClose; StoreRunning false]
               eq_refl eq_refl eq_refl eq_refl eq_refl eq_refl eq_refl eq_refl).
    + exact (Hall (set_Running c2 false) [ConnClose; StoreRunning false]
               eq_refl eq_refl eq_refl eq_refl eq_refl eq_refl eq_refl eq_refl).
Qed.

(** X13.  Every update a stream hands to a watcher comes from a response it has
    received: the response decodes to a certificate secret that bears the
    name of the certificate, the channel is that of the last certificate
    registered under this name, the domains are those of the local
    configuration and the chain and key are the inline bytes of the secret.
    There is at most one update for each response. *)
Theorem updates_come_from_responses (c : CertDXgRPCClient) (io : stream_env Any) :
  (forall i newCert,
      (i, newCert) ∈ updates (snd (Stream c io)) ->
      exists (resp : DiscoveryResponse) (s : Secret) (tls : TlsCertificate)
             (cert : ClientCertification),
        RecvResponse resp ∈ inbound io
        /\ decoded resp = Some s
        /\ SecretType s = Secret_TlsCertificate tls
        /\ certs c !! i = Some cert
        /\ Name cert = SecretName s
        /\ (forall j cert', (i < j)%nat -> certs c !! j = Some cert' ->
              Name cert' <> SecretName s)
        /\ newCert = {| Watch.Domains := CDomains cert;
                        Watch.Fullchain := GetInlineBytes (CertificateChain tls);
                        Watch.Key := GetInlineBytes (PrivateKey tls) |})
  /\ (length (updates (snd (Stream c io))) <= length (responses (inbound io)))%nat.
Proof.
  destruct (Stream_observed c io) as (H1 & _ & H3 & H4 & _).
  split; [|lia].
  intros i newCert Hin.
  rewrite Forall_forall in H1. specialize (H1 _ Hin).
  destruct H1 as (resp & s & tls & cert & Hr & Hd & Ht & Hli & Hl & Hn & Hu).
  simpl in *. exists resp, s, tls, cert.
  destruct (last_index_Some _ _ _ Hli) as (cert0 & Hl0 & _ & Hlast).
  auto 10.
Qed.

(** X14.  A stream never sends more acknowledgments than it has handed updates to
    watchers: besides the first request, each request it puts on the wire
    follows an update, and each update follows the reception of a
    response. *)
Theorem acks_follow_updates (c : CertDXgRPCClient) (io : stream_env Any) :
  let tr := snd (Stream c io) in
  (length (sent tr) <= S (length (updates tr)))%nat
  /\ (length (updates tr) <= length (swaps tr))%nat
  /\ (length (swaps tr) <= length (responses (inbound io)))%nat.
Proof.
  destruct (Stream_observed c io) as (_ & H2 & H3 & H4 & _). auto.
Qed.

Lemma fst_swaps (a n : nat) : map fst (map (fun k => (k, S k)) (seq a n)) = seq a n.
Proof.
  revert a. induction n as [|n IH]; intros a; simpl; [reflexivity|].
  f_equal. apply IH.
Qed.

(** X15.  The last-received signal fires on every response the receiver gets, also
    one it then rejects, and never on a receive error.  Over a call of
    [Stream] the channels swapped out are the successive ones, each closed
    once, in the order they were made; none is closed twice. *)
Theorem last_received_closed_once (c : CertDXgRPCClient) (io : stream_env Any) :
  let c' := snd (fst (Stream c io)) in
  let n := length (swaps (snd (Stream c io))) in
  (forall d resp, snd (fst (receive d c (RecvResponse resp))) = swap_Received c)
  /\ (forall d e, snd (fst (receive d c (RecvError e))) = c)
  /\ Received c' = (Received c + n)%nat
  /\ ReceivedClosed c' = ReceivedClosed c ++ seq (Received c) n
  /\ (n <= length (responses (inbound io)))%nat
  /\ (NoDup (ReceivedClosed c) ->
      Forall (fun k => (k < Received c)%nat) (ReceivedClosed c) ->
      NoDup (ReceivedClosed c')
      /\ Forall (fun k => (k < Received c')%nat) (ReceivedClosed c')).
Proof.
  cbv zeta.
  destruct (Stream_observed c io) as (_ & _ & _ & H4 & H5 & H6 & H7 & _).
  rewrite H7, fst_swaps in H6.
  split.
  { intros d resp. simpl. destruct (Resources resp) as [|a l]; [reflexivity|].
    destruct (UnmarshalTo a) as [e|s]; [reflexivity|].
    destruct (d !! SecretName s); reflexivity. }
  split; [reflexivity|]. split; [exact H5|]. split; [exact H6|]. split; [exact H4|].
  intros Hnd Hlt. rewrite H6, H5. split.
  - apply NoDup_app. split; [exact Hnd|]. split; [|apply NoDup_seq].
    intros k Hk Hk'. rewrite Forall_forall in Hlt. specialize (Hlt k Hk).
    apply elem_of_seq in Hk'. lia.
  - apply Forall_app. split.
    + eapply Forall_impl; [exact Hlt|]. intros k Hk. simpl in Hk. lia.
    + apply Forall_forall. intros k Hk. apply elem_of_seq in Hk. lia.
Qed.

(** X16.  [Stream] closes the connection it has opened, once and as its last
    action but one, and then clears [Running], on every path on which
    [grpc.NewClient] has succeeded and that returns; it closes nothing when
    a kill was pending, when [grpc.NewClient] has failed, or when a
    goroutine has panicked. *)
Theorem Stream_closes_what_it_opened (c : CertDXgRPCClient) (io : stream_env Any) :
  let r := fst (fst (Stream c io)) in
  let c' := snd (fst (Stream c io)) in
  let tr := snd (Stream c io) in
  (Kill c = [] -> newClientErr io = None -> r <> Panicked ->
     conn_closes tr = [tt]
     /\ (exists tr0, tr = tr0 ++ [ConnClose; StoreRunning false])
     /\ Running c' = false)
  /\ (Kill c <> [] \/ newClientErr io <> None \/ r = Panicked -> conn_closes tr = []).
Proof.
  cbv zeta.
  destruct (go_handlers_quiet (certs c) 0) as (G1 & G2 & G3 & G4).
  destruct (Stream_cases c io) as
    [(u & pending & HK & ->)
    |(HK & [(e & msg & He & ->)
           |[(e & msg & He & _ & ->)
            |[(msg & tr_s & He & _ & Hs & ->)
             |(r & c2 & tr_r & He & _ & Hs & Hsv & Hr)]]])]; cbn [fst snd].
  - split; [intros H; congruence|reflexivity].
  - split; [intros _ H; congruence|reflexivity].
  - split.
    + intros _ _ _. split; [reflexivity|]. split; [|reflexivity].
      eexists. reflexivity.
    + intros [H|[H|H]]; congruence.
  - destruct (sender_start_quiet (sending io) (certs c)) as (_ & Q2 & _).
    rewrite Hs in Q2. cbn [snd] in Q2. split.
    + intros _ _ _. observe. rewrite G2, Q2. split; [reflexivity|].
      split; [|reflexivity]. eexists. rewrite !app_assoc. reflexivity.
    + intros [H|[H|H]]; congruence.
  - pose proof (keeps_serve (sending io) (certs c) (inbound io) (set_Running c true)
                  eq_refl) as Hk.
    rewrite Hsv in Hk. cbn [fst snd] in Hk.
    destruct Hk as (_ & _ & _ & _ & _ & _ & _ & K8 & _).
    destruct Hr as [(-> & ->)|[(msg & -> & ->)|(-> & ->)]]; cbn [fst snd].
    + split; [intros _ _ H; congruence|]. intros _. observe. rewrite G2, K8. reflexivity.
    + split; [|intros [H|[H|H]]; congruence].
      intros _ _ _. observe. rewrite G2, K8. split; [reflexivity|].
      split; [|reflexivity]. eexists. rewrite !app_assoc. reflexivity.
    + split; [|intros [H|[H|H]]; congruence].
      intros _ _ _. observe. rewrite G2, K8. split; [reflexivity|].
      split; [|reflexivity]. eexists. rewrite !app_assoc. reflexivity.
Qed.


(** With no kill pending, a stream that can only end on an error of its own
    returns an error that is not the kill sentinel, and leaves the kill
    channel empty. *)
Lemma Stream_fails (c : CertDXgRPCClient) (io : stream_env Any) :
  Kill c = [] -> fails_by_itself io ->
  exists msg c' tr,
    Stream c io = (Returned (Some (other_error msg)), c', tr) /\ Kill c' = [].
Proof.
  intros HK ((e0 & Hend) & Hres).
  destruct (Stream_cases c io) as
    [(u & pending & HK' & _)
    |(_ & [(e & msg & _ & ->)
          |[(e & msg & _ & _ & ->)
           |[(msg & tr_s & _ & _ & _ & ->)
            |(r & c2 & tr_r & _ & _ & _ & Hsv & Hr)]]])]; try congruence; eauto.
  pose proof (keeps_serve (sending io) (certs c) (inbound io) (set_Running c true)
                eq_refl) as Hk.
  pose proof (SdsFacts.serve_never_panics Any UnmarshalTo (sending io) (inbound io)
                (make_dispatch (certs c) 0 ∅) (set_Running c true) Hres) as Hnp.
  rewrite Hsv in Hk, Hnp. cbn [fst snd] in Hk, Hnp.
  destruct Hk as (_ & _ & _ & K4 & _). simpl in K4.
  destruct Hr as [(-> & _)|[(msg & -> & ->)|(-> & ->)]]; [congruence| |].
  - do 3 eexists. split; [reflexivity|]. simpl. congruence.
  - rewrite Hend. do 3 eexists. split; [reflexivity|]. simpl. congruence.
Qed.

End WithWire.

(** X18.  A certificate secret whose chain is not given as inline bytes is not
    rejected: the watcher is handed an empty chain, the response is
    acknowledged as usual, and a watch loop that holds a chain replaces it
    by the empty one and calls every handler with it. *)
Theorem chain_without_inline_bytes_is_delivered_empty (i : nat)
    (cert : ClientCertification) (d : respData) (tls : TlsCertificate) :
  SecretType (RSecret d) = Secret_TlsCertificate tls ->
  (forall b, CertificateChain tls <> DataSource_InlineBytes b) ->
  let newCert := {| Watch.Domains := CDomains cert; Watch.Fullchain := [];
                    Watch.Key := GetInlineBytes (PrivateKey tls) |} in
  let ack := {| TypeUrl := typeUrl; VersionInfo := Version d;
                ResourceNames := [Name cert]; NodeMetadata := None |} in
  handleCert i cert d = (HandleAcked ack, [UpdateChanSend i newCert; AckChanSend ack])
  /\ forall (World : Type) (wc : Watch.watchingCert World) (w : World),
      Watch.Fullchain (Watch.Data wc) <> [] ->
      Watch.Fullchain (Watch.Data (fst (fst (Watch.watch_update wc newCert w)))) = []
      /\ Watch.handler_calls (snd (Watch.watch_update wc newCert w))
         = imap (fun n _ => (n, [], GetInlineBytes (PrivateKey tls)))
             (Watch.UpdateHandlers wc).
Proof.
  intros Hty Hchain newCert ack.
  assert (Hempty : GetInlineBytes (CertificateChain tls) = []).
  { destruct (CertificateChain tls) as [|b| | |] eqn:E; try reflexivity.
    exfalso. exact (Hchain b eq_refl). }
  split.
  - unfold handleCert. rewrite Hty, Hempty. reflexivity.
  - intros World wc w Hheld. split.
    + apply (WatchLoopFacts.watch_update_holds World wc newCert w).
    + apply (WatchLoopFacts.watch_update_changed World wc newCert w).
      left. simpl. congruence.
Qed.

Lemma subscription_carries_domains_witness :
  NoDup (map Name [Scenario.web])
  /\ exists m, NodeMetadata (packReq [Scenario.web]) = Some m
               /\ m !! "web" = Some ["example.com"].
Proof.
  assert (Hnd : NoDup (map Name [Scenario.web])) by (repeat constructor; inversion 1).
  split; [exact Hnd|].
  destruct (subscription_carries_domains [Scenario.web])
    as (_ & _ & m & Hm & _ & _ & Hall).
  exists m. split; [exact Hm|].
  exact (Hall Hnd Scenario.web ltac:(left)).
Defined.

Lemma updates_come_from_responses_witness :
  (0%nat, {| Watch.Domains := ["example.com"]; Watch.Fullchain := [x43; x31];
             Watch.Key := [x4b; x31] |})
  ∈ updates (snd (Sds.Stream Scenario.wire Scenario.wire_UnmarshalTo Scenario.client0
                    (Scenario.io_of [RecvResponse (Scenario.response_for "web" "7")])))
  /\ exists resp s tls cert,
       RecvResponse resp ∈ [RecvResponse (Scenario.response_for "web" "7")]
       /\ Sds.decoded Scenario.wire Scenario.wire_UnmarshalTo resp = Some s
       /\ SecretType s = Secret_TlsCertificate tls
       /\ [Scenario.web] !! 0%nat = Some cert
       /\ Name cert = SecretName s.
Proof.
  assert (Hin : (0%nat, {| Watch.Domains := ["example.com"];
                           Watch.Fullchain := [x43; x31];
                           Watch.Key := [x4b; x31] |})
                ∈ updates (snd (Sds.Stream Scenario.wire Scenario.wire_UnmarshalTo
                                  Scenario.client0
                                  (Scenario.io_of
                                     [RecvResponse (Scenario.response_for "web" "7")]))))
    by left.
  split; [exact Hin|].
  destruct (proj1 (updates_come_from_responses Scenario.wire Scenario.wire_UnmarshalTo
                     Scenario.client0
                     (Scenario.io_of [RecvResponse (Scenario.response_for "web" "7")]))
              _ _ Hin)
    as (resp & s & tls & cert & H1 & H2 & H3 & H4 & H5 & _).
  exists resp, s, tls, cert. auto.
Defined.

Lemma last_received_closed_once_witness :
  NoDup (ReceivedClosed Scenario.client0)
  /\ ReceivedClosed
       (snd (fst (Sds.Stream Scenario.wire Scenario.wire_UnmarshalTo Scenario.client0
                    (Scenario.io_of
                       [RecvResponse (Scenario.response_for "web" "7");
                        RecvResponse (Scenario.response_for "mail" "8")]))))
     = [0%nat; 1%nat]
  /\ NoDup (ReceivedClosed
              (snd (fst (Sds.Stream Scenario.wire Scenario.wire_UnmarshalTo
                           Scenario.client0
                           (Scenario.io_of
                              [RecvResponse (Scenario.response_for "web" "7");
                               RecvResponse (Scenario.response_for "mail" "8")]))))).
Proof.
  assert (Hnd : NoDup (ReceivedClosed Scenario.client0)) by constructor.
  pose proof (last_received_closed_once Scenario.wire Scenario.wire_UnmarshalTo
                Scenario.client0
                (Scenario.io_of [RecvResponse (Scenario.response_for "web" "7");
                                 RecvResponse (Scenario.response_for "mail" "8")]))
    as (_ & _ & _ & H4 & _ & H6).
  split; [exact Hnd|]. split; [exact H4|].
  exact (proj1 (H6 Hnd ltac:(constructor))).
Defined.

Lemma Stream_closes_what_it_opened_witness :
  Kill Scenario.client0 = [] /\ newClientErr Scenario.broken = None
  /\ conn_closes (snd (Sds.Stream Scenario.wire Scenario.wire_UnmarshalTo
                         Scenario.client0 Scenario.broken)) = [tt]
  /\ conn_closes (snd (Sds.Stream Scenario.wire Scenario.wire_UnmarshalTo
                         Scenario.client0 Cases.no_dial)) = [].
Proof.
  split; [reflexivity|]. split; [reflexivity|]. split.
  - exact (proj1 (proj1 (Stream_closes_what_it_opened Scenario.wire
                           Scenario.wire_UnmarshalTo Scenario.client0 Scenario.broken)
                    eq_refl eq_refl ltac:(discriminate))).
  - exact (proj2 (Stream_closes_what_it_opened Scenario.wire
                    Scenario.wire_UnmarshalTo Scenario.client0 Cases.no_dial)
             ltac:(right; left; discriminate)).
Defined.


Lemma chain_without_inline_bytes_is_delivered_empty_witness :
  SecretType (RSecret Cases.data_by_filename)
  = Secret_TlsCertificate Cases.tls_by_filename
  /\ Watch.Fullchain (Watch.Data Scenario.cert0) <> []
  /\ updates (snd (handleCert 0 Scenario.web Cases.data_by_filename))
     = [(0%nat, {| Watch.Domains := ["example.com"]; Watch.Fullchain := [];
                   Watch.Key := [x4b; x31] |})]
  /\ Watch.handler_calls
       (snd (Watch.watch_update Scenario.cert0
               {| Watch.Domains := ["example.com"]; Watch.Fullchain := [];
                  Watch.Key := [x4b; x31] |} []))
     = [(0%nat, [], [x4b; x31]); (1%nat, [], [x4b; x31])].
Proof.
  assert (Hheld : Watch.Fullchain (Watch.Data Scenario.cert0) <> []) by discriminate.
  destruct (chain_without_inline_bytes_is_delivered_empty 0 Scenario.web
              Cases.data_by_filename Cases.tls_by_filename eq_refl
              ltac:(discriminate))
    as (Hh & Hw).
  split; [reflexivity|]. split; [exact Hheld|]. split.
  - exact (f_equal (fun r => updates (snd r)) Hh).
  - exact (proj2 (Hw _ Scenario.cert0 [] Hheld)).
Defined.

End StreamFacts.

(** ** Runs of the failover loops *)

Module LoopFacts.
Import Sds StreamObs Failover LoopObs.

Lemma starts_app a b : starts (a ++ b) = starts a ++ starts b.
Proof. apply omap_app. Qed.

Lemma standby_starts_app a b : standby_starts (a ++ b) = standby_starts a ++ standby_starts b.
Proof. apply omap_app. Qed.

Lemma forwarders_app a b : forwarders (a ++ b) = forwarders a ++ forwarders b.
Proof. apply omap_app. Qed.

Lemma InStream_launches_nothing (tr : list Sds.event) :
  starts (map InStream tr) = [] /\ standby_starts (map InStream tr) = []
  /\ forwarders (map InStream tr) = [].
Proof. induction tr as [|e tr (IH1 & IH2 & IH3)]; simpl; auto. Qed.

Lemma stopped_launches r tr_s err :
  starts (stopped r tr_s err) = [r] /\ standby_starts (stopped r tr_s err) = []
  /\ forwarders (stopped r tr_s err) = [].
Proof.
  unfold stopped. destruct (InStream_launches_nothing tr_s) as (H1 & H2 & H3).
  change (InfoStarting r :: map InStream tr_s ++ [InfoStopped r err])
    with ([InfoStarting r] ++ map InStream tr_s ++ [InfoStopped r err]).
  rewrite !starts_app, !standby_starts_app, !forwarders_app, H1, H2, H3. auto.
Qed.

Section WithWire.

Variable Any : Type.
Variable UnmarshalTo : Any -> string + Secret.

Abbreviation Stream := (Stream Any UnmarshalTo).
Abbreviation main_turn := (main_turn Any).
Abbreviation standby_turn := (standby_turn Any).
Abbreviation main_threshold := (main_threshold Any).
Abbreviation main_step := (main_step Any UnmarshalTo).
Abbreviation standby_step := (standby_step Any UnmarshalTo).
Abbreviation main_loop := (main_loop Any UnmarshalTo).
Abbreviation standby_loop := (standby_loop Any UnmarshalTo).
Abbreviation fails_by_itself := (fails_by_itself Any).

Lemma main_loop_app cfg (a b : list main_turn) :
  forall retryCount c,
    main_loop cfg (a ++ b) retryCount c
    = let '(n, c1, tr1) := main_loop cfg a retryCount c in
      match n with
      | Again retryCount1 =>
          let '(n2, c2, tr2) := main_loop cfg b retryCount1 c1 in
          (n2, c2, tr1 ++ tr2)
      | _ => (n, c1, tr1)
      end.
Proof.
  induction a as [|t a IH]; intros rc c; simpl.
  - destruct (main_loop cfg b rc c) as [[n2 c2] tr2]. reflexivity.
  - destruct (main_step cfg rc c t) as [[n c1] tr1].
    destruct n as [|rc1|]; try reflexivity.
    rewrite IH. destruct (main_loop cfg a rc1 c1) as [[n' c'] tr'].
    destruct n' as [|rc2|]; try reflexivity.
    destruct (main_loop cfg b rc2 c') as [[n2 c2] tr2].
    rewrite app_assoc. reflexivity.
Qed.

(** A failing turn inside the window, with the incremented counter still
    below the budget. *)
Lemma main_step_retry cfg retryCount c (t : main_turn) :
  Kill c = [] -> fails_by_itself (m_io t) ->
  in_window (m_startTime t) (m_now t) = true ->
  0 <= retryCount -> retryCount + 1 < RetryCount (Server cfg) ->
  RetryCount (Server cfg) <= 2 ^ 63 - 1 ->
  exists c' tr,
    main_step cfg retryCount c t = (Again (retryCount + 1), c', tr)
    /\ sleeps tr = [15 * Second] /\ reconnect_waits tr = []
    /\ logged_counts tr = [retryCount + 1] /\ Kill c' = [].
Proof.
  intros HK Hf Hw H0 Hlt Hmax.
  destruct (StreamFacts.Stream_fails Any UnmarshalTo c (m_io t) HK Hf)
    as (msg & c' & tr_s & HS & HK').
  exists c'. eexists.
  rewrite (FailoverFacts.main_step_in_window Any UnmarshalTo cfg retryCount c t
             msg c' tr_s HS Hw).
  rewrite FailoverFacts.int_add_1 by lia.
  rewrite FailoverFacts.main_threshold_below by exact Hlt. cbn [fst snd].
  split; [reflexivity|].
  rewrite FailoverFacts.sleeps_app, FailoverFacts.reconnect_waits_app,
    FailoverFacts.logged_counts_app.
  destruct (FailoverFacts.quiet_stopped Main tr_s (Some (other_error msg)))
    as (-> & -> & ->).
  auto.
Qed.

(** A failing turn inside the window that uses the budget up. *)
Lemma main_step_spent cfg retryCount c (t : main_turn) :
  Kill c = [] -> fails_by_itself (m_io t) ->
  in_window (m_startTime t) (m_now t) = true ->
  0 <= retryCount < 2 ^ 63 - 1 -> RetryCount (Server cfg) <= retryCount + 1 ->
  m_timer t = true ->
  exists c' tr,
    main_step cfg retryCount c t = (Again 0, c', tr)
    /\ sleeps tr = [] /\ reconnect_waits tr = [ReconnectDuration (Server cfg)]
    /\ logged_counts tr = [retryCount + 1] /\ Kill c' = [].
Proof.
  intros HK Hf Hw H0 Hge Ht.
  destruct (StreamFacts.Stream_fails Any UnmarshalTo c (m_io t) HK Hf)
    as (msg & c' & tr_s & HS & HK').
  destruct (FailoverFacts.main_threshold_spent cfg t (retryCount + 1) Hge)
    as (tr_go & Hth & Hgo).
  exists c'. eexists.
  rewrite (FailoverFacts.main_step_in_window Any UnmarshalTo cfg retryCount c t
             msg c' tr_s HS Hw).
  rewrite FailoverFacts.int_add_1 by lia. rewrite Hth.
  rewrite Ht. cbn [fst snd]. split; [reflexivity|].
  rewrite !FailoverFacts.sleeps_app, !FailoverFacts.reconnect_waits_app,
    !FailoverFacts.logged_counts_app.
  destruct (FailoverFacts.quiet_stopped Main tr_s (Some (other_error msg)))
    as (-> & -> & ->).
  destruct Hgo as [-> | ->]; auto.
Qed.

Lemma main_loop_retries cfg (turns : list main_turn) :
  forall retryCount c,
    Kill c = [] ->
    Forall (fun t : main_turn =>
              in_window (m_startTime t) (m_now t) = true /\ fails_by_itself (m_io t))
      turns ->
    0 <= retryCount ->
    retryCount + Z.of_nat (length turns) < RetryCount (Server cfg) ->
    RetryCount (Server cfg) <= 2 ^ 63 - 1 ->
    exists c' tr,
      main_loop cfg turns retryCount c
      = (Again (retryCount + Z.of_nat (length turns)), c', tr)
      /\ sleeps tr = repeat (15 * Second) (length turns)
      /\ reconnect_waits tr = []
      /\ logged_counts tr
         = map (fun k => retryCount + Z.of_nat k) (seq 1 (length turns))
      /\ Kill c' = [].
Proof.
  induction turns as [|t turns IH]; intros rc c HK Hall H0 Hlt Hmax.
  - exists c, []. simpl. rewrite Z.add_0_r. auto.
  - apply Forall_cons in Hall as [[Hw Hf] Hall]. simpl length in Hlt.
    destruct (main_step_retry cfg rc c t HK Hf Hw H0 ltac:(lia) Hmax)
      as (c1 & tr1 & E1 & S1 & W1 & L1 & K1).
    destruct (IH (rc + 1) c1 K1 Hall ltac:(lia) ltac:(lia) Hmax)
      as (c2 & tr2 & E2 & S2 & W2 & L2 & K2).
    exists c2, (tr1 ++ tr2). cbn [Failover.main_loop]. rewrite E1, E2.
    split; [f_equal; f_equal; f_equal; simpl length; lia|].
    rewrite FailoverFacts.sleeps_app, FailoverFacts.reconnect_waits_app,
      FailoverFacts.logged_counts_app, S1, S2, W1, W2, L1, L2.
    split; [reflexivity|]. split; [reflexivity|]. split; [|exact K2].
    cbn [length seq map app]. f_equal.
    rewrite <- (seq_shift (length turns) 1), map_map. apply map_ext. intros k. lia.
Qed.

(** X19.  Starting from a counter at zero, a run of failures that each end inside
    the 5-minute window of their attempt uses the budget up as follows: the
    main loop sleeps 15 seconds after each of the first [RetryCount - 1]
    failures, and after the next one it waits for the reconnect delay and
    sets the counter back to zero. *)
Theorem budget_is_spent_in_retries cfg (turns : list main_turn) (last : main_turn)
    (c : CertDXgRPCClient) :
  1 <= RetryCount (Server cfg) <= 2 ^ 63 - 1 ->
  Z.of_nat (length turns) = RetryCount (Server cfg) - 1 ->
  Forall (fun t : main_turn =>
            in_window (m_startTime t) (m_now t) = true /\ fails_by_itself (m_io t))
    (turns ++ [last]) ->
  m_timer last = true ->
  Kill c = [] ->
  exists c' tr,
    main_loop cfg (turns ++ [last]) 0 c = (Again 0, c', tr)
    /\ sleeps tr = repeat (15 * Second) (length turns)
    /\ reconnect_waits tr = [ReconnectDuration (Server cfg)]
    /\ logged_counts tr = map Z.of_nat (seq 1 (S (length turns)))
    /\ Kill c' = [].
Proof.
  intros Hn Hlen Hall Ht HK.
  apply Forall_app in Hall as [Hall Hlast].
  apply Forall_cons in Hlast as [[Hw Hf] _].
  destruct (main_loop_retries cfg turns 0 c HK Hall ltac:(lia) ltac:(lia) ltac:(lia))
    as (c1 & tr1 & E1 & S1 & W1 & L1 & K1).
  destruct (main_step_spent cfg (0 + Z.of_nat (length turns)) c1 last K1 Hf Hw
              ltac:(lia) ltac:(lia) Ht)
    as (c2 & tr2 & E2 & S2 & W2 & L2 & K2).
  exists c2, (tr1 ++ tr2). rewrite main_loop_app, E1. cbn [Failover.main_loop].
  rewrite E2. split; [rewrite app_nil_r; reflexivity|].
  rewrite FailoverFacts.sleeps_app, FailoverFacts.reconnect_waits_app,
    FailoverFacts.logged_counts_app, S1, S2, W1, W2, L1, L2.
  split; [apply app_nil_r|]. split; [reflexivity|]. split; [|exact K2].
  rewrite seq_S, map_app. cbn [map].
  f_equal. f_equal. lia.
Qed.

(** X20.  Once 5 minutes have passed since the standby loop was started, a
    failing attempt is restarted at once, however many times in a row: the
    loop neither sleeps nor waits for the reconnect delay, logs no count,
    and keeps its counter at zero. *)
Theorem standby_spins_once_window_is_over cfg (startTime : Z)
    (turns : list standby_turn) (retryCount : Z) (c : CertDXgRPCClient) :
  Forall (fun t : standby_turn =>
            startTime + 5 * Minute <= s_now t /\ fails_by_itself (s_io t)) turns ->
  Kill c = [] ->
  exists c' tr,
    standby_loop cfg startTime turns retryCount c
    = (Again (match turns with [] => retryCount | _ => 0 end), c', tr)
    /\ starts tr = repeat Standby (length turns)
    /\ sleeps tr = [] /\ reconnect_waits tr = [] /\ logged_counts tr = []
    /\ Kill c' = [].
Proof.
  revert retryCount c.
  induction turns as [|t turns IH]; intros rc c Hall HK.
  - exists c, []. simpl. auto 10.
  - apply Forall_cons in Hall as [[Hw Hf] Hall].
    destruct (StreamFacts.Stream_fails Any UnmarshalTo c (s_io t) HK Hf)
      as (msg & c1 & tr_s & HS & HK1).
    assert (Hout : in_window startTime (s_now t) = false).
    { unfold in_window. apply Z.ltb_ge. exact Hw. }
    pose proof (FailoverFacts.standby_step_late Any UnmarshalTo cfg startTime rc c t
                  msg c1 tr_s HS Hout) as E1.
    destruct (IH 0 c1 Hall HK1) as (c2 & tr2 & E2 & A2 & S2 & W2 & L2 & K2).
    exists c2, (stopped Standby tr_s (Some (other_error msg)) ++ tr2).
    cbn [Failover.standby_loop]. rewrite E1, E2.
    split; [destruct turns; reflexivity|].
    rewrite starts_app, FailoverFacts.sleeps_app, FailoverFacts.reconnect_waits_app,
      FailoverFacts.logged_counts_app, A2, S2, W2, L2.
    destruct (FailoverFacts.quiet_stopped Standby tr_s (Some (other_error msg)))
      as (-> & -> & ->).
    destruct (stopped_launches Standby tr_s (Some (other_error msg))) as (-> & _).
    auto 10.
Qed.

Lemma main_threshold_launches cfg (t : main_turn) n :
  let tr := snd (main_threshold cfg t n) in
  forwarders tr = standby_starts tr
  /\ logged_counts tr = [n]
  /\ ((standby_starts tr = [tt]
       /\ RetryCount (Server cfg) <= n
       /\ GRPCServer (GRPC_StandbyServer cfg) <> ""
       /\ m_standbyRunning t = false)
      \/ (standby_starts tr = []
          /\ (n < RetryCount (Server cfg)
              \/ GRPCServer (GRPC_StandbyServer cfg) = ""
              \/ m_standbyRunning t = true))).
Proof.
  cbv zeta. unfold Failover.main_threshold.
  destruct (Z.ltb_spec n (RetryCount (Server cfg))) as [Hlt|Hge].
  - simpl. auto 10.
  - unfold standByExists.
    destruct (String.eqb_spec (GRPCServer (GRPC_StandbyServer cfg)) "") as [He|He];
      destruct (m_standbyRunning t) eqn:Hr; destruct (m_timer t); simpl; auto 10.
Qed.

(** X21.  The main loop launches the standby loop in a turn exactly when that turn
    consults the threshold with a count that has reached the budget, a
    standby server is configured and the standby client is not marked
    running; it launches at most one, and always together with the goroutine
    that forwards the kill. *)
Theorem standby_started_only_when_needed cfg (retryCount : Z)
    (c : CertDXgRPCClient) (t : main_turn) :
  let tr := snd (main_step cfg retryCount c t) in
  forwarders tr = standby_starts tr
  /\ (length (standby_starts tr) <= 1)%nat
  /\ (standby_starts tr = [tt] <->
      GRPCServer (GRPC_StandbyServer cfg) <> ""
      /\ m_standbyRunning t = false
      /\ exists n, logged_counts tr = [n] /\ RetryCount (Server cfg) <= n).
Proof.
  cbv zeta.
  assert (Hth : forall tr_s err n,
             let tr := stopped Main tr_s err ++ snd (main_threshold cfg t n) in
             forwarders tr = standby_starts tr
             /\ (length (standby_starts tr) <= 1)%nat
             /\ (standby_starts tr = [tt] <->
                 GRPCServer (GRPC_StandbyServer cfg) <> ""
                 /\ m_standbyRunning t = false
                 /\ exists n, logged_counts tr = [n] /\ RetryCount (Server cfg) <= n)).
  { intros tr_s err n. cbv zeta.
    rewrite forwarders_app, standby_starts_app, FailoverFacts.logged_counts_app.
    destruct (stopped_launches Main tr_s err) as (_ & -> & ->).
    destruct (FailoverFacts.quiet_stopped Main tr_s err) as (_ & _ & ->).
    destruct (main_threshold_launches cfg t n) as (F & L & Hcase).
    cbv zeta in F, L, Hcase. rewrite F, L. simpl.
    split; [reflexivity|].
    destruct Hcase as [(-> & Hge & He & Hr) | (-> & Hno)].
    - split; [simpl; lia|]. split; [eauto 10|reflexivity].
    - split; [simpl; lia|]. split; [discriminate|].
      intros (He & Hr & n' & [= <-] & Hge).
      destruct Hno as [H|[H|H]]; [lia|congruence|congruence]. }
  assert (Hst : forall tr_s err,
             let tr := stopped Main tr_s err in
             forwarders tr = standby_starts tr
             /\ (length (standby_starts tr) <= 1)%nat
             /\ (standby_starts tr = [tt] <->
                 GRPCServer (GRPC_StandbyServer cfg) <> ""
                 /\ m_standbyRunning t = false
                 /\ exists n, logged_counts tr = [n] /\ RetryCount (Server cfg) <= n)).
  { intros tr_s err. cbv zeta.
    destruct (stopped_launches Main tr_s err) as (_ & -> & ->).
    destruct (FailoverFacts.quiet_stopped Main tr_s err) as (_ & _ & ->).
    split; [reflexivity|]. split; [simpl; lia|]. split; [discriminate|].
    intros (_ & _ & n & H & _). discriminate. }
  unfold Failover.main_step.
  destruct (Stream c (m_io t)) as [[r c1] tr_s].
  destruct r as [[[e|msg]|]|].
  - exact (Hst tr_s (Some (killed e))).
  - destruct (in_window (m_startTime t) (m_now t)).
    + pose proof (Hth tr_s (Some (other_error msg)) (int_add retryCount 1)) as H.
      destruct (Failover.main_threshold Any cfg t (int_add retryCount 1)) as [n tr'].
      exact H.
    + exact (Hst tr_s (Some (other_error msg))).
  - destruct (InStream_launches_nothing tr_s) as (_ & H2 & H3).
    destruct (FailoverFacts.quiet_InStream tr_s) as (_ & _ & Hl).
    destruct (main_threshold_launches cfg t retryCount) as (F & L & Hcase).
    destruct (Failover.main_threshold Any cfg t retryCount) as [n tr'].
    cbv zeta in F, L, Hcase. cbn [snd] in *.
    change (InfoStarting Main :: map InStream tr_s)
      with ([InfoStarting Main] ++ map InStream tr_s).
    rewrite !forwarders_app, !standby_starts_app, !FailoverFacts.logged_counts_app.
    rewrite H2, H3, Hl, F, L. simpl.
    split; [reflexivity|].
    destruct Hcase as [(-> & Hge & He & Hr) | (-> & Hno)].
    + split; [simpl; lia|]. split; [eauto 10|reflexivity].
    + split; [simpl; lia|]. split; [discriminate|].
      intros (He & Hr & n' & [= <-] & Hge).
      destruct Hno as [H|[H|H]]; [lia|congruence|congruence].
  - destruct (InStream_launches_nothing tr_s) as (_ & H2 & H3).
    destruct (FailoverFacts.quiet_InStream tr_s) as (_ & _ & Hl).
    cbn [snd].
    change (InfoStarting Main :: map InStream tr_s)
      with ([InfoStarting Main] ++ map InStream tr_s).
    rewrite !forwarders_app, !standby_starts_app, !FailoverFacts.logged_counts_app.
    rewrite H2, H3, Hl. simpl.
    split; [reflexivity|]. split; [lia|]. split; [discriminate|].
    intros (_ & _ & n & H & _). discriminate.
Qed.

Lemma main_threshold_exit cfg (t : main_turn) n :
  fst (main_threshold cfg t n) = Exit
  <-> m_timer t = false /\ RetryCount (Server cfg) <= n.
Proof.
  unfold Failover.main_threshold.
  destruct (Z.ltb_spec n (RetryCount (Server cfg))) as [Hlt|Hge]; simpl.
  - split; [discriminate|]. intros (_ & H). lia.
  - destruct (m_timer t); simpl; split; try discriminate; auto.
    intros (H & _). discriminate.
Qed.

(** X22.  The loops do not give up on errors.  The standby loop returns only when
    [Stream] returns the kill sentinel; the main loop returns then, and
    besides only when its kill channel fires during the reconnect wait that
    follows an exhausted budget. *)
Theorem loops_return_only_when_killed cfg (retryCount : Z) (c : CertDXgRPCClient) :
  (forall t : main_turn,
      fst (fst (main_step cfg retryCount c t)) = Exit
      <-> (exists e, fst (fst (Stream c (m_io t))) = Returned (Some (killed e)))
          \/ (m_timer t = false
              /\ exists n, logged_counts (snd (main_step cfg retryCount c t)) = [n]
                           /\ RetryCount (Server cfg) <= n))
  /\ (forall startTime (t : standby_turn),
        fst (fst (standby_step cfg startTime retryCount c t)) = Exit
        <-> exists e, fst (fst (Stream c (s_io t))) = Returned (Some (killed e))).
Proof.
  split.
  - intros t. unfold Failover.main_step.
    destruct (Stream c (m_io t)) as [[r c1] tr_s]. cbn [fst snd].
    destruct r as [[[e|msg]|]|].
    + cbn [fst]. split; [eauto|reflexivity].
    + destruct (in_window (m_startTime t) (m_now t)).
      * pose proof (main_threshold_exit cfg t (int_add retryCount 1)) as Hx.
        pose proof (main_threshold_launches cfg t (int_add retryCount 1))
          as (_ & L & _).
        destruct (Failover.main_threshold Any cfg t (int_add retryCount 1))
          as [n tr']. cbn [fst snd] in *.
        rewrite FailoverFacts.logged_counts_app, L.
        change ((InfoStarting Main :: map InStream tr_s)
                ++ [InfoStopped Main (Some (other_error msg))])
          with (stopped Main tr_s (Some (other_error msg))).
        destruct (FailoverFacts.quiet_stopped Main tr_s (Some (other_error msg)))
          as (_ & _ & ->).
        simpl. rewrite Hx. split.
        -- intros (H1 & H2). right. eauto.
        -- intros [(e & H)|(H1 & n' & [= <-] & H2)]; [discriminate|auto].
      * cbn [fst snd]. split; [discriminate|].
        change ((InfoStarting Main :: map InStream tr_s)
                ++ [InfoStopped Main (Some (other_error msg))])
          with (stopped Main tr_s (Some (other_error msg))).
        destruct (FailoverFacts.quiet_stopped Main tr_s (Some (other_error msg)))
          as (_ & _ & ->).
        intros [(e & H)|(_ & n & H & _)]; discriminate.
    + pose proof (main_threshold_exit cfg t retryCount) as Hx.
      pose proof (main_threshold_launches cfg t retryCount) as (_ & L & _).
      destruct (Failover.main_threshold Any cfg t retryCount) as [n tr'].
      cbn [fst snd] in *.
      change (InfoStarting Main :: map InStream tr_s)
        with ([InfoStarting Main] ++ map InStream tr_s).
      rewrite !FailoverFacts.logged_counts_app, L.
      destruct (FailoverFacts.quiet_InStream tr_s) as (_ & _ & ->). simpl.
      rewrite Hx. split.
      * intros (H1 & H2). right. eauto.
      * intros [(e & H)|(H1 & n' & [= <-] & H2)]; [discriminate|auto].
    + cbn [fst snd]. split; [discriminate|].
      change (InfoStarting Main :: map InStream tr_s)
        with ([InfoStarting Main] ++ map InStream tr_s).
      rewrite !FailoverFacts.logged_counts_app.
      destruct (FailoverFacts.quiet_InStream tr_s) as (_ & _ & ->). simpl.
      intros [(e & H)|(_ & n & H & _)]; discriminate.
  - intros startTime t. unfold Failover.standby_step.
    destruct (Stream c (s_io t)) as [[r c1] tr_s]. cbn [fst snd].
    destruct r as [[[e|msg]|]|]; cbn [fst].
    + split; [eauto|reflexivity].
    + destruct (in_window startTime (s_now t)); cbv zeta;
        [destruct (int_add retryCount 1 <? RetryCount (Server cfg))|];
        (split; [discriminate|intros (e & H); discriminate]).
    + destruct (in_window startTime (s_now t)); cbv zeta;
        [destruct (int_add retryCount 1 <? RetryCount (Server cfg))|];
        (split; [discriminate|intros (e & H); discriminate]).
    + split; [discriminate|intros (e & H); discriminate].
Qed.

(** X23.  A failure of [grpc.NewClient] in the standby loop followed by a kill
    that is found pending at the next call leaves the standby client marked
    running although its loop has returned: from then on the main loop does
    not launch the standby loop again, whatever the count. *)
Theorem failed_dial_then_kill_blocks_standby cfg (startTime retryCount retryCount' : Z)
    (c : CertDXgRPCClient) (t1 t2 : standby_turn) (e : string) :
  Kill c = [] ->
  newClientErr (s_io t1) = Some e ->
  let c1 := snd (fst (standby_step cfg startTime retryCount c t1)) in
  let next := standby_step cfg startTime retryCount' (set_Kill c1 [tt]) t2 in
  let c2 := snd (fst next) in
  Running c1 = true
  /\ fst (fst next) = Exit
  /\ Kill c2 = []
  /\ Running c2 = true
  /\ forall (t : main_turn) n,
      m_standbyRunning t = Running c2 ->
      standby_starts (snd (main_threshold cfg t n)) = [].
Proof.
  intros HK He. cbv zeta.
  assert (H1 : snd (fst (standby_step cfg startTime retryCount c t1))
               = set_Running c true).
  { unfold Failover.standby_step, Sds.Stream. rewrite HK, He.
    destruct (in_window startTime (s_now t1)); [|reflexivity]. cbv zeta.
    destruct (int_add retryCount 1 <? RetryCount (Server cfg)); reflexivity. }
  rewrite H1.
  assert (H2 : standby_step cfg startTime retryCount' (set_Kill (set_Running c true) [tt]) t2
               = (Exit, set_Kill (set_Running c true) [],
                  stopped Standby [] (Some (killed "stream killed")))).
  { unfold Failover.standby_step, Sds.Stream. reflexivity. }
  rewrite H2. cbn [fst snd]. split; [reflexivity|]. split; [reflexivity|].
  split; [reflexivity|]. split; [reflexivity|].
  intros t n Hr. simpl in Hr.
  destruct (main_threshold_launches cfg t n) as (_ & _ & [(_ & _ & _ & H)|(H & _)]);
    [congruence|exact H].
Qed.

End WithWire.

Lemma broken_fails_by_itself : StreamObs.fails_by_itself Scenario.wire Scenario.broken.
Proof. split; [eexists; reflexivity|constructor]. Qed.

Lemma budget_is_spent_in_retries_witness :
  (1 <= RetryCount (Server Scenario.cfg3) <= 2 ^ 63 - 1)
  /\ exists c' tr,
       Failover.main_loop Scenario.wire Scenario.wire_UnmarshalTo Scenario.cfg3
         ([Scenario.main_turn_at 0 (1 * Minute);
           Scenario.main_turn_at (2 * Minute) (3 * Minute)]
          ++ [Scenario.main_turn_at (4 * Minute) (5 * Minute)]) 0 Scenario.client0
       = (Again 0, c', tr)
       /\ sleeps tr = [15 * Second; 15 * Second]
       /\ reconnect_waits tr = [10 * Minute].
Proof.
  assert (Hn : 1 <= RetryCount (Server Scenario.cfg3) <= 2 ^ 63 - 1) by (simpl; lia).
  split; [exact Hn|].
  destruct (budget_is_spent_in_retries Scenario.wire Scenario.wire_UnmarshalTo
              Scenario.cfg3
              [Scenario.main_turn_at 0 (1 * Minute);
               Scenario.main_turn_at (2 * Minute) (3 * Minute)]
              (Scenario.main_turn_at (4 * Minute) (5 * Minute))
              Scenario.client0 Hn eq_refl
              ltac:(simpl;
                    repeat (constructor;
                            [split; [reflexivity|exact broken_fails_by_itself]|]);
                    constructor)
              eq_refl eq_refl)
    as (c' & tr & E & S & W & _).
  exists c', tr. auto.
Defined.

Lemma standby_spins_once_window_is_over_witness :
  exists c' tr,
    Failover.standby_loop Scenario.wire Scenario.wire_UnmarshalTo Scenario.cfg3 0
      [Scenario.standby_turn_at (6 * Minute); Scenario.standby_turn_at (6 * Minute);
       Scenario.standby_turn_at (7 * Minute)] 2 Scenario.client0
    = (Again 0, c', tr)
    /\ starts tr = [Standby; Standby; Standby]
    /\ sleeps tr = [] /\ reconnect_waits tr = [].
Proof.
  destruct (standby_spins_once_window_is_over Scenario.wire Scenario.wire_UnmarshalTo
              Scenario.cfg3 0
              [Scenario.standby_turn_at (6 * Minute);
               Scenario.standby_turn_at (6 * Minute);
               Scenario.standby_turn_at (7 * Minute)] 2 Scenario.client0
              ltac:(repeat (constructor;
                            [split; [unfold Minute, Second; simpl; lia
                                    |exact broken_fails_by_itself]|]);
                    constructor)
              eq_refl)
    as (c' & tr & E & A & S & W & _).
  exists c', tr. auto.
Defined.

Lemma failed_dial_then_kill_blocks_standby_witness :
  Kill Scenario.client0 = []
  /\ Running Scenario.client0 = false
  /\ fst (fst (Failover.standby_step Scenario.wire Scenario.wire_UnmarshalTo
                 Scenario.cfg3 0 1
                 (set_Kill
                    (snd (fst (Failover.standby_step Scenario.wire
                                 Scenario.wire_UnmarshalTo Scenario.cfg3 0 0
                                 Scenario.client0
                                 {| s_io := Cases.no_dial; s_now := 1 * Minute |})))
                    [tt])
                 (Scenario.standby_turn_at (2 * Minute)))) = Exit
  /\ Running
       (snd (fst (Failover.standby_step Scenario.wire Scenario.wire_UnmarshalTo
                    Scenario.cfg3 0 1
                    (set_Kill
                       (snd (fst (Failover.standby_step Scenario.wire
                                    Scenario.wire_UnmarshalTo Scenario.cfg3 0 0
                                    Scenario.client0
                                    {| s_io := Cases.no_dial; s_now := 1 * Minute |})))
                       [tt])
                    (Scenario.standby_turn_at (2 * Minute))))) = true.
Proof.
  destruct (failed_dial_then_kill_blocks_standby Scenario.wire
              Scenario.wire_UnmarshalTo Scenario.cfg3 0 0 1 Scenario.client0
              {| s_io := Cases.no_dial; s_now := 1 * Minute |}
              (Scenario.standby_turn_at (2 * Minute)) "invalid target"
              eq_refl eq_refl)
    as (_ & H2 & _ & H4 & _).
  split; [reflexivity|]. split; [reflexivity|]. split; [exact H2|exact H4].
Defined.

End LoopFacts.

(** ** The command line *)

Module CliFacts.
Import Cli.

Lemma check_certifications_None (cs : list ClientCertification) :
  check_certifications cs = None
  <-> Forall (fun c => CDomains c <> [] /\ Name c <> "" /\ SavePath c <> "") cs.
Proof.
  induction cs as [|c cs IH]; simpl.
  - split; [constructor|reflexivity].
  - rewrite Forall_cons.
    destruct (CDomains c) as [|d ds] eqn:Hd; simpl.
    + split; [discriminate|]. intros [(H & _) _]. congruence.
    + destruct (String.eqb_spec (Name c) "") as [Hn|Hn]; simpl.
      * split; [discriminate|]. intros [(_ & H & _) _]. congruence.
      * destruct (String.eqb_spec (SavePath c) "") as [Hs|Hs]; simpl.
        -- split; [discriminate|]. intros [(_ & _ & H) _]. congruence.
        -- rewrite IH. split; [intros H; split; [split; [discriminate|]|]|]; tauto.
Qed.

Lemma check_config_None (config : ClientConfig) :
  check_config config = None
  <-> MainUrl config <> "" /\ Certifications config <> []
      /\ Forall (fun c => CDomains c <> [] /\ Name c <> "" /\ SavePath c <> "")
           (Certifications config).
Proof.
  unfold check_config.
  destruct (String.eqb_spec (MainUrl config) "") as [Hu|Hu].
  - split; [discriminate|]. intros (H & _). congruence.
  - destruct (Certifications config) as [|c cs] eqn:Hc; simpl.
    + split; [discriminate|]. intros (_ & H & _). congruence.
    + rewrite <- (check_certifications_None (c :: cs)). simpl.
      split; [intros H; split; [exact Hu|split; [discriminate|exact H]]|].
      intros (_ & _ & H). exact H.
Qed.

Section WithSystem.

Variable OpenFile : string -> error.
Variable Open : string -> error.
Variable ReadAll : string -> bytes * error.
Variable SetDefault : ClientConfig -> ClientConfig.
Variable Unmarshal : bytes -> ClientConfig -> ClientConfig * error.

Abbreviation load := (load Open ReadAll SetDefault Unmarshal).
Abbreviation init := (init OpenFile Open ReadAll SetDefault Unmarshal).
Abbreviation run := (run OpenFile Open ReadAll SetDefault Unmarshal).

Lemma not_in_app_fatal (tr : list event) (msg : string) :
  ClientHttpMain ∈ tr ++ [Fatalf msg] <-> ClientHttpMain ∈ tr.
Proof.
  rewrite elem_of_app. split; [intros [H|H]; [exact H|]|auto].
  apply list_elem_of_singleton in H. discriminate.
Qed.

(** From [config.SetDefault] on. *)
Lemma load_reaches_http_main (f : flags) (config : ClientConfig) (tr0 : list event) :
  ClientHttpMain ∉ tr0 ->
  ClientHttpMain ∈ match fst (load f config tr0) with
                   | Exit _ => snd (load f config tr0)
                   | Loaded config' => snd (load f config tr0) ++ main config'
                   end
  <-> Open (conf f) = None
      /\ exists b config',
           ReadAll (conf f) = (b, None)
           /\ Unmarshal b (SetDefault config) = (config', None)
           /\ MainUrl config' <> "" /\ Certifications config' <> []
           /\ Forall (fun c => CDomains c <> [] /\ Name c <> "" /\ SavePath c <> "")
                (Certifications config')
           /\ Mode config' = "http".
Proof.
  intros Hno. unfold Cli.load.
  assert (Hopen : ClientHttpMain ∉ tr0 ++ [OpenConfig (conf f)]).
  { rewrite elem_of_app. intros [H|H]; [auto|].
    apply list_elem_of_singleton in H. discriminate. }
  destruct (Open (conf f)) as [err|]; cbn [fst snd].
  { rewrite not_in_app_fatal. split; [tauto|intros (H & _); discriminate]. }
  destruct (ReadAll (conf f)) as [b [e|]]; cbn [fst snd].
  { rewrite not_in_app_fatal. split; [tauto|].
    intros (_ & b' & c' & H & _). discriminate. }
  destruct (Unmarshal b (SetDefault config)) as [config2 [e|]] eqn:Hun; cbn [fst snd].
  { rewrite not_in_app_fatal. split; [tauto|].
    intros (_ & b' & c' & [= <-] & H & _). congruence. }
  assert (Hloaded : ClientHttpMain ∉ (tr0 ++ [OpenConfig (conf f)])
                                      ++ [Printf "[INF] Config loaded"]).
  { rewrite elem_of_app. intros [H|H]; [auto|].
    apply list_elem_of_singleton in H. discriminate. }
  destruct (check_config config2) as [msg|] eqn:Hck; cbn [fst snd].
  { rewrite not_in_app_fatal. split; [tauto|].
    intros (_ & b' & c' & [= <-] & H & Hu & Hc & Hf & _).
    rewrite Hun in H. injection H as <-.
    assert (check_config config2 = None) by (apply check_config_None; auto).
    congruence. }
  apply check_config_None in Hck as (Hu & Hc & Hf).
  rewrite elem_of_app. unfold main.
  destruct (String.eqb_spec (Mode config2) "http") as [Hm|Hm].
  - split; [intros _|intros _; right; left].
    split; [reflexivity|]. exists b, config2. auto 10.
  - split.
    + intros [H|H]; [tauto|]. apply list_elem_of_singleton in H. discriminate.
    + intros (_ & b' & c' & [= <-] & H & _ & _ & _ & Hm').
      rewrite Hun in H. injection H as <-. congruence.
Qed.

Lemma load_opens_config (f : flags) (config : ClientConfig) (tr0 : list event) :
  exists rest, snd (load f config tr0) = tr0 ++ OpenConfig (conf f) :: rest.
Proof.
  unfold Cli.load.
  destruct (Open (conf f)); [rewrite <- app_assoc; simpl; eauto|].
  destruct (ReadAll (conf f)) as [b [e|]]; [rewrite <- app_assoc; simpl; eauto|].
  destruct (Unmarshal b (SetDefault config)) as [config2 [e|]];
    [rewrite <- app_assoc; simpl; eauto|].
  destruct (check_config config2); rewrite <- ?app_assoc; simpl; eauto.
Qed.

(** X24.  The program reaches [ClientHttpMain] exactly when neither help nor
    version is asked for, the log file (when one is named) and the
    configuration file open, the configuration is read and decoded without
    error, its main server URL is not empty, it has at least one
    certification, every certification has a domain, a name and a save
    path, and the mode is "http"; no other mode is served. *)
Theorem program_reaches_http_main (f : flags) (config : ClientConfig) :
  ClientHttpMain ∈ run f config
  <-> help f = false /\ version f = false
      /\ (pLogPath f = "" \/ OpenFile (pLogPath f) = None)
      /\ Open (conf f) = None
      /\ exists b config',
           ReadAll (conf f) = (b, None)
           /\ Unmarshal b (SetDefault config) = (config', None)
           /\ MainUrl config' <> "" /\ Certifications config' <> []
           /\ Forall (fun c => CDomains c <> [] /\ Name c <> "" /\ SavePath c <> "")
                (Certifications config')
           /\ Mode config' = "http".
Proof.
  unfold Cli.run, Cli.init.
  destruct (help f).
  { simpl. split; [intros H|intros (H & _); discriminate].
    apply list_elem_of_singleton in H. discriminate. }
  destruct (version f).
  { simpl. split; [intros H|intros (_ & H & _); discriminate].
    apply list_elem_of_singleton in H. discriminate. }
  assert (Hrun : forall tr0,
             (let '(r, tr) := load f config tr0 in
              match r with
              | Exit _ => tr
              | Loaded config' => tr ++ main config'
              end)
             = match fst (load f config tr0) with
               | Exit _ => snd (load f config tr0)
               | Loaded config' => snd (load f config tr0) ++ main config'
               end).
  { intros tr0. destruct (load f config tr0) as [r tr]. reflexivity. }
  destruct (String.eqb_spec (pLogPath f) "") as [Hp|Hp]; simpl.
  - rewrite Hrun, load_reaches_http_main by (intros H; inversion H).
    split; [intros (H1 & H2); auto 10|intros (_ & _ & _ & H1 & H2); auto].
  - destruct (OpenFile (pLogPath f)) as [err|] eqn:Ho.
    + split.
      * intros H. apply elem_of_cons in H as [H|H]; [discriminate|].
        apply list_elem_of_singleton in H. discriminate.
      * intros (_ & _ & [H|H] & _); congruence.
    + rewrite Hrun, load_reaches_http_main.
      * split; [intros (H1 & H2); auto 10|intros (_ & _ & _ & H1 & H2); auto].
      * intros H. apply elem_of_cons in H as [H|H]; [discriminate|].
        apply list_elem_of_singleton in H. discriminate.
Qed.

(** X25.  With help or version asked for, and only then, the program opens no
    file, whatever the log and configuration paths are. *)
Theorem help_and_version_open_nothing (f : flags) (config : ClientConfig) :
  (opened (run f config) = [] <-> help f = true \/ version f = true)
  /\ (help f = true -> run f config = [PrintDefaults])
  /\ (help f = false -> version f = true -> run f config = [PrintVersion]).
Proof.
  unfold Cli.run, Cli.init.
  destruct (help f); [simpl; split; [tauto|]; split; [reflexivity|discriminate]|].
  destruct (version f); [simpl; split; [tauto|]; split; [discriminate|reflexivity]|].
  split; [|split; discriminate].
  split; [|intros [H|H]; discriminate].
  intros H. exfalso. revert H.
  destruct (negb (String.eqb (pLogPath f) "")).
  - destruct (OpenFile (pLogPath f)); [simpl; discriminate|].
    destruct (load_opens_config f config
                [OpenLogFile (pLogPath f);
                 Printf (String.append "[INF] Log to file: " (pLogPath f))])
      as (rest & E).
    destruct (load f config _) as [r tr]. simpl in E. subst tr.
    destruct r; simpl; discriminate.
  - destruct (load_opens_config f config []) as (rest & E).
    destruct (load f config []) as [r tr]. simpl in E. subst tr.
    destruct r; simpl; discriminate.
Qed.

End WithSystem.

Lemma program_reaches_http_main_witness :
  ClientHttpMain
  ∈ Cli.run (fun _ => None) (fun _ => None) (fun _ => ([], None)) (fun c => c)
      (fun _ _ => (Cases.config_http, None)) Cases.flags0 Cases.config_http.
Proof.
  apply (proj2 (program_reaches_http_main (fun _ => None) (fun _ => None)
                  (fun _ => ([], None)) (fun c => c)
                  (fun _ _ => (Cases.config_http, None))
                  Cases.flags0 Cases.config_http)).
  split; [reflexivity|]. split; [reflexivity|]. split; [left; reflexivity|].
  split; [reflexivity|]. exists [], Cases.config_http.
  split; [reflexivity|]. split; [reflexivity|]. split; [discriminate|].
  split; [discriminate|]. split; [|reflexivity].
  repeat constructor; discriminate.
Defined.

End CliFacts.
